(** * Multi-actor orchestration: a shallow embedding of the Python sources

    The development follows the layout of the repository:

    - [Py]           the Python values the code manipulates (strings,
                     insertion-ordered dictionaries, exceptions);
    - [Router]       [tests/multi-actor-orchestration.py], the supervisor
                     node of the graph router;
    - [Planner]      [tests/planner.py], the query planner;
    - [Backend]      the remote assistant service the agents talk to;
    - [Agent]        the two [base.py] files;
    - [Orchestrator] the two [enhanced_orchestrator.py] files;
    - [Graph]        the actor nodes and the edges of the graph router;
    - [PlannerPrompt] the description of the capabilities in the planner;
    - [Demo], [DemoAgent], [DemoOrchestrator], [DemoGraph], [DemoThreads]
                     a small deployment used in the examples.

    Definitions come first, the properties after them. *)

From Stdlib Require Import ZArith Lia Bool List Ascii DecimalString.
From Stdlib Require String.
From stdpp Require Import base option list strings gmap.

Import ListNotations.

(** ** Python values *)

Module Py.

(** Exceptions, by class and message. *)
Inductive exn : Type :=
| Exception (msg : string)
| ValueError (msg : string)
| TypeError (msg : string)
| KeyError (key : string)
| IndexError (msg : string).

(** [s.startswith(p)]. *)
Fixpoint startswith (s p : string) {struct p} : bool :=
  match p with
  | EmptyString => true
  | String a p' =>
      match s with
      | EmptyString => false
      | String b s' => Ascii.eqb a b && startswith s' p'
      end
  end.

(** [s[n:]]. *)
Fixpoint skip (n : nat) (s : string) : string :=
  match n, s with
  | O, _ => s
  | S _, EmptyString => EmptyString
  | S n', String _ s' => skip n' s'
  end.

(** [needle in hay] on strings. *)
Fixpoint contains (needle hay : string) : bool :=
  if startswith hay needle then true
  else match hay with
       | EmptyString => false
       | String _ hay' => contains needle hay'
       end.

(** [s.partition(sep)] for a non-empty separator: the text before the
    leftmost occurrence of [sep] and the text after it, [None] when [sep]
    does not occur. *)
Fixpoint partition (sep s : string) : option (string * string) :=
  if startswith s sep then Some (EmptyString, skip (String.length sep) s)
  else match s with
       | EmptyString => None
       | String c s' =>
           match partition sep s' with
           | Some (before, after) => Some (String c before, after)
           | None => None
           end
       end.

(** [str.lower], on ASCII text: the letters A-Z are moved to a-z and every
    other byte is kept. *)
Definition lower_ascii (c : ascii) : ascii :=
  let n := nat_of_ascii c in
  if (65 <=? n)%nat && (n <=? 90)%nat then ascii_of_nat (n + 32) else c.

Fixpoint lower (s : string) : string :=
  match s with
  | EmptyString => EmptyString
  | String c s' => String (lower_ascii c) (lower s')
  end.

(** [str.isspace] on one ASCII character: tab, line feed, vertical tab,
    form feed, carriage return, the separators 28-31 and the space. *)
Definition isspace (c : ascii) : bool :=
  let n := nat_of_ascii c in
  ((9 <=? n)%nat && (n <=? 13)%nat) || ((28 <=? n)%nat && (n <=? 32)%nat).

Fixpoint lstrip (s : string) : string :=
  match s with
  | EmptyString => EmptyString
  | String c s' => if isspace c then lstrip s' else s
  end.

Fixpoint rstrip (s : string) : string :=
  match s with
  | EmptyString => EmptyString
  | String c s' =>
      match rstrip s' with
      | EmptyString => if isspace c then EmptyString else String c EmptyString
      | r => String c r
      end
  end.

(** [str.strip()]. *)
Definition strip (s : string) : string := rstrip (lstrip s).

(** The line feed and the double quote, and [sep.join(parts)]. *)
Definition nl : string := String (ascii_of_nat 10) EmptyString.
Definition dquote : string := String (ascii_of_nat 34) EmptyString.
Definition join (sep : string) (parts : list string) : string :=
  String.concat sep parts.

(** [str(n)] for a natural number. *)
Definition str_of_nat (n : nat) : string :=
  NilZero.string_of_uint (Nat.to_uint n).

(** [str(e)] for an exception: the message, or the [repr] of the key. *)
Definition str_of_exn (e : exn) : string :=
  match e with
  | Exception msg | ValueError msg | TypeError msg | IndexError msg => msg
  | KeyError key => "'" +:+ key +:+ "'"
  end.

(** [s.split(sep)] for a separator of one character. *)
Fixpoint split (sep : ascii) (s : string) : list string :=
  match s with
  | EmptyString => [EmptyString]
  | String c s' =>
      if Ascii.eqb c sep then EmptyString :: split sep s'
      else match split sep s' with
           | piece :: pieces => String c piece :: pieces
           | [] => [String c EmptyString]
           end
  end.

(** [s.replace("\\", "\\\\")]: every backslash is doubled. *)
Fixpoint escape_backslashes (s : string) : string :=
  match s with
  | EmptyString => EmptyString
  | String c s' =>
      if Ascii.eqb c (ascii_of_nat 92)
      then String c (String c (escape_backslashes s'))
      else String c (escape_backslashes s')
  end.

(** Truth value of an optional string: [None] and [""] are false. *)
Definition truthy (o : option string) : bool :=
  match o with
  | Some (String _ _) => true
  | _ => false
  end.

(** *** Insertion-ordered dictionaries with string keys

    A Python [dict] keeps its keys in the order of their first insertion;
    assigning to a key that is present replaces the value in place. *)
Definition dict (V : Type) : Type := list (string * V).

Fixpoint dict_get {V} (d : dict V) (k : string) : option V :=
  match d with
  | [] => None
  | (k', v) :: d' => if String.eqb k' k then Some v else dict_get d' k
  end.

Fixpoint dict_set {V} (d : dict V) (k : string) (v : V) : dict V :=
  match d with
  | [] => [(k, v)]
  | (k', v') :: d' =>
      if String.eqb k' k then (k', v) :: d' else (k', v') :: dict_set d' k v
  end.

Definition dict_keys {V} (d : dict V) : list string := map fst d.

Definition dict_has {V} (d : dict V) (k : string) : bool :=
  match dict_get d k with Some _ => true | None => false end.

End Py.

(** ** The graph router ([tests/multi-actor-orchestration.py]) *)

Module Router.
Import Py.

(** A [HumanMessage]: its text and the optional [name] of its author. *)
Record Message : Type := mkMessage { content : string; name : option string }.

Record GraphState : Type := mkGraphState {
  messages : list Message;
  next : string;
  current_actor : string;
  shared_thread : string
}.

Definition completion_phrases : list string :=
  ["analysis complete"; "task finished"; "final recommendation";
   "conclusion reached"].

Definition name_is (o : option string) (s : string) : bool :=
  match o with
  | Some n => String.eqb n s
  | None => false
  end.

(** [Orchestrator._supervisor_node.get_next_actor]; the result is the value
    stored under ["next"]. [state["messages"][-1]] is evaluated first and
    raises [IndexError] on an empty transcript. Each routing rule is an
    [if] nested in an [if] that returns or falls through to the next. *)
Definition get_next_actor (state : GraphState) : exn + string :=
  match last (messages state) with
  | None => inl (IndexError "list index out of range")
  | Some m =>
      let last_message := lower (content m) in
      let last_actor := name m in
      (* Check for completion indicators *)
      if existsb (fun phrase => contains phrase last_message) completion_phrases
      then inr "FINISH"
      else
        (* Route based on content and context *)
        let organization_route :=
          if contains "organization" last_message || contains "company" last_message
          then if negb (name_is last_actor "organization_specialist")
               then Some "organization_specialist" else None
          else None in
        match organization_route with
        | Some target => inr target
        | None =>
            let customer_route :=
              if contains "customer" last_message || contains "individual" last_message
              then if negb (name_is last_actor "customer_specialist")
                   then Some "customer_specialist" else None
              else None in
            match customer_route with
            | Some target => inr target
            | None =>
                (* If no clear routing, alternate between specialists *)
                if name_is last_actor "customer_specialist"
                then inr "organization_specialist"
                else inr "customer_specialist"
            end
        end
  end.

(** [Orchestrator._route_next]. *)
Definition _route_next (state : GraphState) : string := next state.

End Router.

(** ** The query planner ([tests/planner.py]) *)

Module Planner.
Import Py.

(** Modelled from the spec: [metadata_models] is not part of the sources.
    [DataType] and [AnalysisType] are closed enumerations defined by the
    deployment; the planner uses the members in definition order, their
    [name], equality and the lookup [E[name]]. *)
Class PyEnum (E : Type) : Type := {
  enum_eq_dec :: EqDecision E;
  members : list E;
  member_name : E -> string
}.

(** [x in xs] for enumeration members. *)
Definition mem {E} `{PyEnum E} (x : E) (xs : list E) : bool :=
  bool_decide (x ∈ xs).

(** [E[name]]: the member called [name], [KeyError] when there is none. *)
Definition by_name {E} `{PyEnum E} (n : string) : exn + E :=
  match find (fun m => String.eqb (member_name m) n) members with
  | Some m => inr m
  | None => inl (KeyError n)
  end.

(** A Python [set] of enumeration members, kept as a duplicate-free list.
    (The order in which Python lists such a set is unspecified; the planner
    only tests membership and emptiness of what it gets from it.) *)
Definition set_add {E} `{PyEnum E} (x : E) (s : list E) : list E :=
  if mem x s then s else s ++ [x].

(** What [json.loads] produces. A number keeps its text only. *)
#[warnings="-register-all"]
Inductive json : Type :=
| JNull
| JBool (b : bool)
| JNumber (repr : string)
| JString (s : string)
| JArray (items : list json)
| JObject (fields : dict json).

Section WithEnums.
Context {DataType AnalysisType : Type}.
Context `{PyEnum DataType} `{PyEnum AnalysisType}.

(** Modelled from the spec: [ActorCapabilities] holds the set of
    supported data types and the set of supported analyses. *)
Record ActorCapabilities : Type := mkCaps {
  supported_data_types : list DataType;
  supported_analyses : list AnalysisType
}.

(** Modelled from the spec: [ExecutionStep]; [depends_on] is empty when
    the constructor is called without it. *)
Record ExecutionStep : Type := mkStep {
  actor_name : string;
  action : string;
  required_data : list DataType;
  expected_output : string;
  depends_on : list string
}.

(** Modelled from the spec: [ExecutionMetrics] and [ExecutionPlan]. *)
Record ExecutionMetrics : Type := mkMetrics { start_time : Z }.

Record ExecutionPlan : Type := mkPlan {
  plan_query : string;
  steps : list ExecutionStep;
  final_synthesis_prompt : string;
  required_actors : list string;
  metrics : ExecutionMetrics
}.

Record QueryPlanner : Type := mkPlanner {
  actor_capabilities : dict ActorCapabilities;
  debug : bool
}.

(** [QueryPlanner.__init__]. *)
Definition new_planner : QueryPlanner :=
  {| actor_capabilities := []; debug := true |}.

(** [QueryPlanner.register_actor]. *)
Definition register_actor (p : QueryPlanner) (name : string)
    (capabilities : ActorCapabilities) : QueryPlanner :=
  {| actor_capabilities := dict_set (actor_capabilities p) name capabilities;
     debug := debug p |}.

(** The loop of [_find_best_actor_for_data] over
    [self.actor_capabilities.items()]. *)
Fixpoint find_data_actor (items : dict ActorCapabilities)
    (data_type : DataType) : option string :=
  match items with
  | [] => None
  | (name, caps) :: rest =>
      if mem data_type (supported_data_types caps) then Some name
      else find_data_actor rest data_type
  end.

(** [QueryPlanner._find_best_actor_for_data]. *)
Definition _find_best_actor_for_data (p : QueryPlanner)
    (data_type : DataType) : exn + string :=
  match find_data_actor (actor_capabilities p) data_type with
  | Some name => inr name
  | None =>
      inl (ValueError ("No actor found for data type: DataType."
                       +:+ member_name data_type))
  end.

Fixpoint find_analysis_actor (items : dict ActorCapabilities)
    (analysis_type : AnalysisType) : option string :=
  match items with
  | [] => None
  | (name, caps) :: rest =>
      if mem analysis_type (supported_analyses caps) then Some name
      else find_analysis_actor rest analysis_type
  end.

(** [QueryPlanner._find_best_actor_for_analysis]. *)
Definition _find_best_actor_for_analysis (p : QueryPlanner)
    (analysis_type : AnalysisType) : exn + string :=
  match find_analysis_actor (actor_capabilities p) analysis_type with
  | Some name => inr name
  | None =>
      inl (ValueError ("No actor found for analysis: AnalysisType."
                       +:+ member_name analysis_type))
  end.

(** First loop of [_create_execution_steps]: one step per required data
    type; [steps] and [handled_data] are the two accumulators. *)
Fixpoint data_steps (p : QueryPlanner) (required_data : list DataType)
    (steps : list ExecutionStep) (handled_data : list DataType)
    : exn + (list ExecutionStep * list DataType) :=
  match required_data with
  | [] => inr (steps, handled_data)
  | data_type :: rest =>
      match _find_best_actor_for_data p data_type with
      | inl e => inl e
      | inr actor =>
          let step :=
            {| actor_name := actor;
               action := "retrieve_" +:+ lower (member_name data_type) +:+ "_data";
               required_data := [data_type];
               expected_output := member_name data_type +:+ " data summary";
               depends_on := [] |} in
          data_steps p rest (steps ++ [step]) (set_add data_type handled_data)
      end
  end.

(** [any(dt in s.required_data for dt in handled_data)]. *)
Definition uses_handled (handled_data : list DataType) (s : ExecutionStep) : bool :=
  existsb (fun dt => mem dt (required_data s)) handled_data.

(** Second loop of [_create_execution_steps]: one step per required
    analysis; the dependencies are computed from all of [steps] as it
    stands when the analysis is reached. *)
Fixpoint analysis_steps (p : QueryPlanner) (required_analyses : list AnalysisType)
    (steps : list ExecutionStep) (handled_data : list DataType)
    : exn + list ExecutionStep :=
  match required_analyses with
  | [] => inr steps
  | analysis :: rest =>
      match _find_best_actor_for_analysis p analysis with
      | inl e => inl e
      | inr actor =>
          let dependencies :=
            map actor_name (List.filter (uses_handled handled_data) steps) in
          let step :=
            {| actor_name := actor;
               action := "perform_" +:+ lower (member_name analysis) +:+ "_analysis";
               required_data := handled_data;
               expected_output := member_name analysis +:+ " analysis results";
               depends_on := dependencies |} in
          analysis_steps p rest (steps ++ [step]) handled_data
      end
  end.

(** [QueryPlanner._create_execution_steps]. *)
Definition _create_execution_steps (p : QueryPlanner)
    (required_data : list DataType) (required_analyses : list AnalysisType)
    : exn + list ExecutionStep :=
  match data_steps p required_data [] [] with
  | inl e => inl e
  | inr (steps, handled_data) =>
      analysis_steps p required_analyses steps handled_data
  end.

(** *** Parsing the classification *)

(** The markdown fence. *)
Definition fence : string := "```".

(** [re.search(r'```(?:json)?(.*?)```', response, re.DOTALL)], giving
    [match.group(1)]. The search starts at the leftmost fence; the
    optional tag is taken when it is there; the lazy group ends at the
    next fence. Neither giving the tag back nor starting at a later fence
    can produce a match when this attempt has none, since a closing fence
    found by such an attempt also closes this one. *)
Definition search_fenced (response : string) : option string :=
  match partition fence response with
  | None => None
  | Some (_, after) =>
      let body := if startswith after "json" then skip 4 after else after in
      match partition fence body with
      | Some (group1, _) => Some group1
      | None => None
      end
  end.

(** [QueryPlanner._clean_json_response]. *)
Definition _clean_json_response (response : string) : string :=
  let response :=
    if contains fence response then
      match search_fenced response with
      | Some group1 => group1
      | None => response
      end
    else response in
  strip response.

(** [json.loads], from the standard library, is a parameter: it returns
    the value or the message of its [JSONDecodeError]. Its other exceptions
    (a [RecursionError] for a deeply nested text, the [ValueError] of an
    integer with too many digits) have no place here: in the source they
    reach the handler [except Exception], which reads [result] before it
    was assigned and so ends in an [UnboundLocalError]. *)
Variable json_loads : string -> string + json.

(** The type of a parsed number: [json.loads] makes an [int] of a text of
    digits with an optional sign, and a [float] of every other number (one
    with a fraction or an exponent, [NaN], [Infinity]). *)
Definition number_type (repr : string) : string :=
  if forallb (fun c => let n := nat_of_ascii c in
                       ((48 <=? n)%nat && (n <=? 57)%nat) || Ascii.eqb c "-")
       (String.list_ascii_of_string repr)
  then "int" else "float".

(** [for x in v] on a parsed value: the items of an array, the characters
    of a string, the keys of an object; anything else is not iterable. *)
Definition py_iter (v : json) : exn + list json :=
  match v with
  | JArray items => inr items
  | JString s =>
      inr (map (fun c => JString (String c EmptyString)) (String.list_ascii_of_string s))
  | JObject fields => inr (map (fun kv => JString (fst kv)) fields)
  | JNull => inl (TypeError "'NoneType' object is not iterable")
  | JBool _ => inl (TypeError "'bool' object is not iterable")
  | JNumber repr =>
      inl (TypeError ("'" +:+ number_type repr +:+ "' object is not iterable"))
  end.

(** [v in names] for a list of strings. *)
Definition in_names (names : list string) (v : json) : bool :=
  match v with
  | JString s => existsb (String.eqb s) names
  | _ => false
  end.

(** [E[v]]. *)
Definition member_of {E} `{PyEnum E} (v : json) : exn + E :=
  match v with
  | JString s => by_name s
  | _ => inl (KeyError "")
  end.

Fixpoint members_of {E} `{PyEnum E} (vs : list json) : exn + list E :=
  match vs with
  | [] => inr []
  | v :: rest =>
      match member_of v with
      | inl e => inl e
      | inr m =>
          match members_of rest with
          | inl e => inl e
          | inr ms => inr (m :: ms)
          end
      end
  end.

(** The body of the [try] block of [_analyze_query_requirements], after
    [json.loads] has succeeded. *)
Definition validate (result : json)
    : exn + (list DataType * list AnalysisType) :=
  let data_types := map member_name (members (E := DataType)) in
  let analysis_types := map member_name (members (E := AnalysisType)) in
  match result with
  | JObject fields =>
      match dict_get fields "required_data_types",
            dict_get fields "required_analyses" with
      | Some rd, Some ra =>
          match py_iter rd with
          | inl e => inl e
          | inr rds =>
              if negb (forallb (in_names data_types) rds)
              then inl (ValueError "Invalid data types in response")
              else
                match py_iter ra with
                | inl e => inl e
                | inr ras =>
                    if negb (forallb (in_names analysis_types) ras)
                    then inl (ValueError "Invalid analysis types in response")
                    else
                      match members_of rds with
                      | inl e => inl e
                      | inr ds =>
                          match members_of ras with
                          | inl e => inl e
                          | inr ans => inr (ds, ans)
                          end
                      end
                end
          end
      | _, _ => inl (ValueError "Response missing required keys")
      end
  | _ => inl (ValueError "Response is not a dictionary")
  end.

(** [QueryPlanner._analyze_query_requirements], from the text of the
    language model's reply on: the reply is cleaned and parsed, a
    [JSONDecodeError] and every other exception are turned into a
    [ValueError]. *)
Definition _analyze_query_requirements (reply : string)
    : exn + (list DataType * list AnalysisType) :=
  let cleaned_content := _clean_json_response reply in
  match json_loads cleaned_content with
  | inl msg => inl (ValueError ("Failed to parse LLM response: " +:+ msg))
  | inr result =>
      match validate result with
      | inl e => inl (ValueError ("Invalid response format: " +:+ str_of_exn e))
      | inr r => inr r
      end
  end.

(** [QueryPlanner._create_synthesis_prompt]. *)
Definition _create_synthesis_prompt (query : string)
    (steps : list ExecutionStep) : string :=
  let pad := "        " in
  "Original query: " +:+ query +:+ nl
  +:+ pad +:+ nl
  +:+ pad +:+ "After collecting analyses from different actors:" +:+ nl
  +:+ pad +:+ join ", " (map expected_output steps) +:+ nl
  +:+ pad +:+ nl
  +:+ pad +:+ "Please synthesize a clear, concise answer that:" +:+ nl
  +:+ pad +:+ "1. Directly addresses the original query" +:+ nl
  +:+ pad +:+ "2. Integrates insights from all analyses" +:+ nl
  +:+ pad +:+ "3. Maintains clarity and brevity" +:+ nl
  +:+ pad +:+ "4. Avoids repetition" +:+ nl
  +:+ pad +:+ "5. Highlights key findings first" +:+ nl
  +:+ pad.

(** [list(set(names))], first occurrences kept (Python leaves the order
    of the result unspecified). *)
Fixpoint unique (names : list string) : list string :=
  match names with
  | [] => []
  | n :: rest => n :: List.filter (fun m => negb (String.eqb m n)) (unique rest)
  end.

(** [QueryPlanner.create_execution_plan]; [now] is the reading of the
    clock and [reply] the text the language model answers with. *)
Definition create_execution_plan (p : QueryPlanner) (query : string)
    (now : Z) (reply : string) : exn + ExecutionPlan :=
  let metrics := {| start_time := now |} in
  match _analyze_query_requirements reply with
  | inl e => inl e
  | inr (required_data, required_analyses) =>
      match _create_execution_steps p required_data required_analyses with
      | inl e => inl e
      | inr steps =>
          let synthesis_prompt := _create_synthesis_prompt query steps in
          let required_actors := unique (map actor_name steps) in
          inr {| plan_query := query;
                 steps := steps;
                 final_synthesis_prompt := synthesis_prompt;
                 required_actors := required_actors;
                 metrics := metrics |}
      end
  end.

End WithEnums.

Arguments ActorCapabilities : clear implicits.
Arguments ExecutionStep : clear implicits.
Arguments ExecutionPlan : clear implicits.
Arguments QueryPlanner : clear implicits.

End Planner.


(** ** The remote assistant service

    The agents reach the service through one shared client. The service is
    scripted: a [World] holds what the coming calls will answer and records
    every call that is made, in order. An upload fails when the file cannot
    be opened, a deletion fails for the file ids the world lists, a poll
    reports a status or raises; the other calls answer. Console output and
    waiting times are not part of the model. *)

Module Backend.
Import Py.

(** One part of the content of a thread message: text, a generated image, or
    anything else. *)
Inductive ContentPart : Type :=
| Text (value : string)
| ImageFile
| OtherPart.

Record ThreadMessage : Type := mkThreadMessage {
  role : string;
  parts : list ContentPart
}.

(** What one [runs.retrieve] call does: it reports a status or raises. *)
Inductive Poll : Type :=
| Status (status : string)
| Failure (e : exn).

(** The calls made on the client. *)
Inductive Call : Type :=
| FilesCreate (path : string)
| FilesDelete (file_id : string)
| AssistantsCreate (name instructions : string) (tools : list string)
    (model : string) (tool_resources file_ids : option (list string))
| ThreadsCreate
| MessagesCreate (thread_id content : string)
| RunsCreate (thread_id : string) (assistant_id : option string)
| RunsRetrieve (thread_id run_id : string)
| MessagesList (thread_id : string)
| ChatCompletionsCreate (system_prompt user_prompt : string).

Record World : Type := mkWorld {
  ids : nat -> string;          (* the identifier given by the n-th creation *)
  issued : nat;                 (* identifiers given so far *)
  unreadable : list string;     (* paths that cannot be opened *)
  undeletable : list string;    (* file ids whose deletion raises *)
  polls : list Poll;            (* answers of the coming runs.retrieve calls *)
  inboxes : list (list ThreadMessage);  (* answers of the coming messages.list calls *)
  completions : list string;    (* answers of the coming chat completions *)
  trace : list Call             (* the calls made so far *)
}.

(** A computation ends by returning, by raising, or is still waiting for the
    service when the script of the world ends. *)
Inductive outcome (A : Type) : Type :=
| Return (a : A)
| Raise (e : exn)
| Pending.
Arguments Return {A} a.
Arguments Raise {A} e.
Arguments Pending {A}.

(** Computations over a state [S]; the state reached is kept when an
    exception is raised, as the Python objects keep what was assigned. *)
Definition M (S A : Type) : Type := S -> outcome A * S.

Definition ret {S A} (a : A) : M S A := fun s => (Return a, s).

Definition raise {S A} (e : exn) : M S A := fun s => (Raise e, s).

Definition bind {S A B} (m : M S A) (k : A -> M S B) : M S B :=
  fun s =>
    match m s with
    | (Return a, s') => k a s'
    | (Raise e, s') => (Raise e, s')
    | (Pending, s') => (Pending, s')
    end.

(** [try: m except Exception as e: h e]. *)
Definition try_except {S A} (m : M S A) (h : exn -> M S A) : M S A :=
  fun s =>
    match m s with
    | (Raise e, s') => h e s'
    | r => r
    end.

Definition get {S} : M S S := fun s => (Return s, s).

Definition modify {S} (f : S -> S) : M S unit := fun s => (Return tt, f s).

Notation "x <- m ;; k" := (bind m (fun x => k))
  (at level 100, m at next level, right associativity).
Notation "m ;;; k" := (bind m (fun _ => k))
  (at level 100, right associativity).

Definition record (c : Call) (w : World) : World :=
  {| ids := ids w; issued := issued w; unreadable := unreadable w;
     undeletable := undeletable w; polls := polls w; inboxes := inboxes w;
     completions := completions w; trace := trace w ++ [c] |}.

(** A creating call: the call is recorded and the next identifier given. *)
Definition create (c : Call) : M World string :=
  fun w =>
    let w' := record c w in
    (Return (ids w (issued w)),
     {| ids := ids w'; issued := S (issued w'); unreadable := unreadable w';
        undeletable := undeletable w'; polls := polls w'; inboxes := inboxes w';
        completions := completions w'; trace := trace w' |}).

(** [open(path, 'rb')] followed by [client.files.create]. *)
Definition files_create (path : string) : M World string :=
  fun w =>
    if existsb (String.eqb path) (unreadable w)
    then (Raise (Exception ("cannot open " +:+ path)), w)
    else create (FilesCreate path) w.

(** [client.files.delete]. *)
Definition files_delete (file_id : string) : M World unit :=
  fun w =>
    let w' := record (FilesDelete file_id) w in
    if existsb (String.eqb file_id) (undeletable w)
    then (Raise (Exception ("cannot delete " +:+ file_id)), w')
    else (Return tt, w').

Definition assistants_create (name instructions : string) (tools : list string)
    (model : string) (tool_resources file_ids : option (list string)) : M World string :=
  create (AssistantsCreate name instructions tools model tool_resources file_ids).

Definition threads_create : M World string := create ThreadsCreate.

Definition messages_create (thread_id content : string) : M World unit :=
  modify (record (MessagesCreate thread_id content)).

Definition runs_create (thread_id : string) (assistant_id : option string)
    : M World string :=
  create (RunsCreate thread_id assistant_id).

(** [client.beta.threads.runs.retrieve(...).status]. *)
Definition runs_retrieve (thread_id run_id : string) : M World string :=
  fun w =>
    match polls w with
    | [] => (Pending, w)
    | p :: rest =>
        let w' := record (RunsRetrieve thread_id run_id) w in
        let w'' :=
          {| ids := ids w'; issued := issued w'; unreadable := unreadable w';
             undeletable := undeletable w'; polls := rest; inboxes := inboxes w';
             completions := completions w'; trace := trace w' |} in
        match p with
        | Status s => (Return s, w'')
        | Failure e => (Raise e, w'')
        end
    end.

(** [client.beta.threads.messages.list(...).data]. *)
Definition messages_list (thread_id : string) : M World (list ThreadMessage) :=
  fun w =>
    match inboxes w with
    | [] => (Pending, w)
    | data :: rest =>
        let w' := record (MessagesList thread_id) w in
        (Return data,
         {| ids := ids w'; issued := issued w'; unreadable := unreadable w';
            undeletable := undeletable w'; polls := polls w'; inboxes := rest;
            completions := completions w'; trace := trace w' |})
    end.

(** [client.chat.completions.create(...).choices[0].message.content]. *)
Definition chat_completions_create (system_prompt user_prompt : string)
    : M World string :=
  fun w =>
    match completions w with
    | [] => (Pending, w)
    | text :: rest =>
        let w' := record (ChatCompletionsCreate system_prompt user_prompt) w in
        (Return text,
         {| ids := ids w'; issued := issued w'; unreadable := unreadable w';
            undeletable := undeletable w'; polls := polls w'; inboxes := inboxes w';
            completions := rest; trace := trace w' |})
    end.

End Backend.


(** ** The agents (the two [base.py] files)

    [_upload_file], [_create_file_instructions] and [cleanup] are the same in
    both versions; [initialize] differs in how the files are attached and
    [run_analysis] in how the run is awaited and the answer extracted. The
    [temperature] of an agent is stored and never used; it is left out. *)

Module Agent.
Import Py Backend.

Inductive version : Type := V1 | V2.

Record FileInfo : Type := mkFileInfo { filename : string; path : string }.

Record CodeInterpreterAgent : Type := mkAgent {
  name : string;
  instructions : string;
  model : string;
  tools : list string;          (* the [type] of each tool *)
  file_mapping : dict FileInfo;
  files : list string;
  assistant_id : option string;
  verbose : bool
}.

(** The dictionary [run_analysis] returns: either [content], [thread_id] and
    [run_id], or the single key [error]. *)
Inductive AnalysisResult : Type :=
| Reply (content thread_id run_id : string)
| NoReply.

(** [result.get("content")] and [result.get("thread_id")]. *)
Definition get_content (r : AnalysisResult) : option string :=
  match r with
  | Reply c _ _ => Some c
  | NoReply => None
  end.

Definition get_thread_id (r : AnalysisResult) : option string :=
  match r with
  | Reply _ t _ => Some t
  | NoReply => None
  end.

(** An agent method runs on the agent and on the world. *)
Definition St : Type := (CodeInterpreterAgent * World)%type.

Definition self : M St CodeInterpreterAgent := fun s => (Return (fst s), s).

Definition on_world {A} (m : M World A) : M St A :=
  fun s => let (r, w') := m (snd s) in (r, (fst s, w')).

Definition set_file_mapping (fm : dict FileInfo) : M St unit :=
  modify (fun s : St =>
    let a := fst s in
    ({| name := name a; instructions := instructions a; model := model a;
        tools := tools a; file_mapping := fm; files := files a;
        assistant_id := assistant_id a; verbose := verbose a |}, snd s)).

Definition set_assistant_id (id : option string) : M St unit :=
  modify (fun s : St =>
    let a := fst s in
    ({| name := name a; instructions := instructions a; model := model a;
        tools := tools a; file_mapping := file_mapping a; files := files a;
        assistant_id := id; verbose := verbose a |}, snd s)).

(** [CodeInterpreterAgent.__init__]: [tools or [{"type": "code_interpreter"}]]
    and [files or []]. (Version 1 first looks for its API key in the
    environment, which is not modelled.) *)
Definition new_agent (name instructions model : string)
    (tools files : option (list string)) (verbose : bool) : CodeInterpreterAgent :=
  {| name := name; instructions := instructions; model := model;
     tools := match tools with
              | Some (t :: ts) => t :: ts
              | _ => ["code_interpreter"]
              end;
     file_mapping := [];
     files := default [] files;
     assistant_id := None;
     verbose := verbose |}.

(** [Path(file_path).name] for a path that names a file: the text after the
    last slash. *)
Fixpoint basename_from (acc s : string) : string :=
  match s with
  | EmptyString => acc
  | String c s' =>
      if Ascii.eqb c "/" then basename_from EmptyString s'
      else basename_from (acc +:+ String c EmptyString) s'
  end.

Definition basename (file_path : string) : string :=
  basename_from EmptyString file_path.

(** [CodeInterpreterAgent._upload_file]. *)
Definition _upload_file (file_path : string) : M St string :=
  file_id <- on_world (files_create file_path) ;;
  a <- self ;;
  set_file_mapping
    (dict_set (file_mapping a) file_id
       {| filename := basename file_path; path := file_path |}) ;;;
  ret file_id.

(** [CodeInterpreterAgent._create_file_instructions]. *)
Definition _create_file_instructions (a : CodeInterpreterAgent) : string :=
  match file_mapping a with
  | [] => EmptyString
  | _ =>
      let file_info :=
        join nl (map (fun kv => "- File ID '" +:+ fst kv +:+ "' is '"
                                +:+ filename (snd kv) +:+ "'")
                     (file_mapping a)) in
      nl +:+ "IMPORTANT - File name mapping information:" +:+ nl
      +:+ "When working with files, please note the following filename mappings:" +:+ nl
      +:+ file_info +:+ nl
      +:+ nl
      +:+ "When reading files in your code, use the File IDs, but refer to the original filenames in your communications."
      +:+ nl
  end.

(** The upload loop of [initialize]. *)
Fixpoint upload_all (files : list string) (file_ids : list string)
    : M St (list string) :=
  match files with
  | [] => ret file_ids
  | file_path :: rest =>
      file_id <- _upload_file file_path ;;
      upload_all rest (file_ids ++ [file_id])
  end.

(** [CodeInterpreterAgent.initialize]. Version 1 passes [tool_resources] when
    there are files, version 2 always passes [file_ids]. *)
Definition initialize (v : version) : M St unit :=
  a <- self ;;
  file_ids <- upload_all (files a) [] ;;
  a <- self ;;
  let enhanced_instructions :=
    instructions a +:+ nl +:+ nl +:+ _create_file_instructions a in
  id <- on_world
          match v with
          | V1 =>
              assistants_create (name a) enhanced_instructions (tools a) (model a)
                (match file_ids with [] => None | _ => Some file_ids end) None
          | V2 =>
              assistants_create (name a) enhanced_instructions (tools a) (model a)
                None (Some file_ids)
          end ;;
  set_assistant_id (Some id).

Definition failure_statuses : list string := ["failed"; "expired"; "cancelled"].

(** The [while True] loop of version 2. Every iteration takes one answer of
    [runs.retrieve]; [fuel] only bounds the recursion and is set above the
    number of answers left in the script. *)
Fixpoint poll_v2 (fuel : nat) (thread_id run_id : string) : M World unit :=
  match fuel with
  | O => fun w => (Pending, w)
  | S fuel' =>
      status <- runs_retrieve thread_id run_id ;;
      if String.eqb status "completed" then ret tt
      else if existsb (String.eqb status) failure_statuses
      then raise (Exception ("Run failed with status: " +:+ status))
      else poll_v2 fuel' thread_id run_id
  end.

Definition wait_v2 (thread_id run_id : string) : M World unit :=
  fun w => poll_v2 (S (length (polls w))) thread_id run_id w.

(** The body of the [try] block of version 1: [true] for [break], [false]
    when the end of the block is reached. *)
Definition try_body_v1 (thread_id run_id : string) (max_retries retries : Z)
    : M World bool :=
  status <- runs_retrieve thread_id run_id ;;
  if String.eqb status "completed" then ret true
  else if existsb (String.eqb status) failure_statuses
  then raise (Exception ("Run failed with status: " +:+ status))
  else if (retries >=? max_retries)%Z
  then raise (Exception "Max retries reached")
  else ret false.

(** The [while True] loop of version 1: an exception raised in the [try]
    block, whatever it is, is handled by the [except] clause, which counts a
    retry and raises only when the count equals [max_retries]. *)
Fixpoint poll_v1 (fuel : nat) (thread_id run_id : string)
    (max_retries retries : Z) : M World unit :=
  match fuel with
  | O => fun w => (Pending, w)
  | S fuel' =>
      fun w =>
        match try_body_v1 thread_id run_id max_retries retries w with
        | (Return true, w') => (Return tt, w')
        | (Return false, w') =>
            poll_v1 fuel' thread_id run_id max_retries retries w'
        | (Raise e, w') =>
            let retries := (retries + 1)%Z in
            if (retries =? max_retries)%Z
            then (Raise (Exception ("Max retries reached: " +:+ str_of_exn e)), w')
            else poll_v1 fuel' thread_id run_id max_retries retries w'
        | (Pending, w') => (Pending, w')
        end
  end.

Definition wait_v1 (thread_id run_id : string) (max_retries : Z) : M World unit :=
  fun w => poll_v1 (S (length (polls w))) thread_id run_id max_retries 0%Z w.

(** Version 1: the parts of the first assistant message, joined by line
    feeds, with a marker for every part that is not text. *)
Definition part_text_v1 (c : ContentPart) : string :=
  match c with
  | Text value => value
  | ImageFile => "[Image generated]"
  | OtherPart => "[Content of unsupported type]"
  end.

Fixpoint extract_v1 (data : list ThreadMessage) (thread_id run_id : string)
    : AnalysisResult :=
  match data with
  | [] => NoReply
  | msg :: rest =>
      if String.eqb (role msg) "assistant"
      then Reply (join nl (map part_text_v1 (parts msg))) thread_id run_id
      else extract_v1 rest thread_id run_id
  end.

(** Version 2: the first text part of the first assistant message. *)
Fixpoint first_text (content : list ContentPart) : option string :=
  match content with
  | [] => None
  | Text value :: _ => Some value
  | _ :: rest => first_text rest
  end.

Fixpoint extract_v2 (data : list ThreadMessage) (thread_id run_id : string)
    : AnalysisResult :=
  match data with
  | [] => NoReply
  | msg :: rest =>
      if String.eqb (role msg) "assistant"
      then
        let content_value := first_text (parts msg) in
        Reply (if truthy content_value then default EmptyString content_value
               else "No text content found")
              thread_id run_id
      else extract_v2 rest thread_id run_id
  end.

(** [CodeInterpreterAgent.run_analysis] of version 1. *)
Definition run_analysis_v1 (query : string) (additional_files : option (list string))
    (thread_id : option string) (max_retries retry_delay : Z)
    : M St AnalysisResult :=
  a <- self ;;
  (if truthy (assistant_id a) then ret tt else initialize V1) ;;;
  thread_id <- (if truthy thread_id then ret (default EmptyString thread_id)
                else on_world threads_create) ;;
  on_world (messages_create thread_id query) ;;;
  a <- self ;;
  run_id <- on_world (runs_create thread_id (assistant_id a)) ;;
  on_world (wait_v1 thread_id run_id max_retries) ;;;
  messages <- on_world (messages_list thread_id) ;;
  ret (extract_v1 messages thread_id run_id).

(** [CodeInterpreterAgent.run_analysis] of version 2. *)
Definition run_analysis_v2 (query : string) (thread_id : option string)
    : M St AnalysisResult :=
  a <- self ;;
  (if truthy (assistant_id a) then ret tt else initialize V2) ;;;
  thread_id <- (if truthy thread_id then ret (default EmptyString thread_id)
                else on_world threads_create) ;;
  on_world (messages_create thread_id query) ;;;
  a <- self ;;
  run_id <- on_world (runs_create thread_id (assistant_id a)) ;;
  on_world (wait_v2 thread_id run_id) ;;;
  messages <- on_world (messages_list thread_id) ;;
  ret (extract_v2 messages thread_id run_id).

(** [agent.run_analysis(prompt, thread_id=thread_id)], as the orchestrators
    call it: version 1 with its defaults [max_retries=3], [retry_delay=5]. *)
Definition run_analysis (v : version) (query : string) (thread_id : option string)
    : M St AnalysisResult :=
  match v with
  | V1 => run_analysis_v1 query None thread_id 3 5
  | V2 => run_analysis_v2 query thread_id
  end.

(** The loop of [cleanup]: every deletion is tried, a failure is printed and
    the loop goes on. *)
Fixpoint delete_all (file_ids : list string) : M World unit :=
  match file_ids with
  | [] => ret tt
  | file_id :: rest =>
      try_except (files_delete file_id) (fun _ => ret tt) ;;;
      delete_all rest
  end.

(** [CodeInterpreterAgent.cleanup]. *)
Definition cleanup : M St unit :=
  a <- self ;;
  on_world (delete_all (dict_keys (file_mapping a))) ;;;
  set_file_mapping [].

End Agent.


(** ** The orchestrators (the two [enhanced_orchestrator.py] files)

    The two versions share [OrchestratorContext], [_execute_actor] up to the
    history entry of version 2, and the loop of [run_analysis]; they differ
    in the prompts, in how the plan is asked for and in the synthesis. What
    differs is selected by the version. The measured [execution_time] is not
    part of the model. *)

Module Orchestrator.
Import Py Backend.

Definition AnalysisResult : Type := Agent.AnalysisResult.

Record ActorMetadata : Type := mkMetadata {
  name : string;
  data_description : string;
  file_path : string;
  system_prompt : string
}.

Record OrchestratorContext : Type := mkContext {
  threads : gmap string string;
  actor_results : dict (list AnalysisResult);
  history : list string
}.

(** [OrchestratorContext.__init__]. *)
Definition new_context : OrchestratorContext :=
  {| threads := ∅; actor_results := []; history := [] |}.

(** [OrchestratorContext.add_result]. *)
Definition add_result (c : OrchestratorContext) (actor : string)
    (result : AnalysisResult) : OrchestratorContext :=
  {| threads := threads c;
     actor_results :=
       dict_set (actor_results c) actor
         (default [] (dict_get (actor_results c) actor) ++ [result]);
     history := history c |}.

(** [OrchestratorContext.get_actor_history]. *)
Definition get_actor_history (c : OrchestratorContext) (actor : string) : string :=
  match dict_get (actor_results c) actor with
  | None => "No previous context."
  | Some results =>
      join (nl +:+ nl)
        (map (fun result =>
                "Previous analysis: "
                +:+ default "No content" (Agent.get_content result))
             results)
  end.

(** The orchestrator, with the agent objects it refers to and the service:
    [actors] maps a name to the place of its agent in [heap], so that an
    agent registered under two names is one object. [planner] is the
    planning assistant of version 2. *)
Record EnhancedOrchestrator : Type := mkOrchestrator {
  actors : dict (nat * ActorMetadata);
  planner : option nat;
  context : OrchestratorContext;
  verbose : bool;
  heap : list Agent.CodeInterpreterAgent;
  world : World
}.

Definition set_context (c : OrchestratorContext) : M EnhancedOrchestrator unit :=
  modify (fun o =>
    {| actors := actors o; planner := planner o; context := c;
       verbose := verbose o; heap := heap o; world := world o |}).

(** A call on the client made by the orchestrator itself. *)
Definition on_client {A} (m : M World A) : M EnhancedOrchestrator A :=
  fun o =>
    let (r, w') := m (world o) in
    (r, {| actors := actors o; planner := planner o; context := context o;
           verbose := verbose o; heap := heap o; world := w' |}).

(** A method call on the agent object at place [agent]. *)
Definition on_agent {A} (agent : nat) (m : M Agent.St A) : M EnhancedOrchestrator A :=
  fun o =>
    match heap o !! agent with
    | None => (Raise (Exception "no such object"), o)
    | Some a =>
        let '(r, (a', w')) := m (a, world o) in
        (r, {| actors := actors o; planner := planner o; context := context o;
               verbose := verbose o; heap := <[agent := a']> (heap o);
               world := w' |})
    end.

Definition planning_instructions : string :=
  "You are an AI planner that creates efficient execution plans." +:+ nl
  +:+ "            When given a query and available actors, you will:" +:+ nl
  +:+ "            1. Analyze what data and analysis is needed" +:+ nl
  +:+ "            2. Create minimal, efficient execution plans" +:+ nl
  +:+ "            3. Choose the most appropriate actors for each task" +:+ nl
  +:+ "            4. Ensure data flows correctly between actors" +:+ nl
  +:+ "            5. Return plans in the format:" +:+ nl
  +:+ "               1. actor_name: specific_task" +:+ nl
  +:+ "               2. actor_name: specific_task" +:+ nl
  +:+ "            " +:+ nl
  +:+ "            Rules:" +:+ nl
  +:+ "            - Only use actors that are actually needed" +:+ nl
  +:+ "            - Keep plans minimal but complete" +:+ nl
  +:+ "            - Ensure each actor has necessary context" +:+ nl
  +:+ "            - Consider previous results when planning".

(** [EnhancedOrchestrator.__init__]; version 2 creates its planning
    assistant. *)
Definition new_orchestrator (v : Agent.version) (verbose : bool) (w : World)
    : EnhancedOrchestrator :=
  match v with
  | Agent.V1 =>
      {| actors := []; planner := None; context := new_context;
         verbose := verbose; heap := []; world := w |}
  | Agent.V2 =>
      {| actors := []; planner := Some 0%nat; context := new_context;
         verbose := verbose;
         heap := [Agent.new_agent "Planning Assistant" planning_instructions
                    "gpt-4" None None true];
         world := w |}
  end.

(** The creation of an agent object: its place in the heap. *)
Definition new_object (a : Agent.CodeInterpreterAgent) : M EnhancedOrchestrator nat :=
  fun o =>
    (Return (length (heap o)),
     {| actors := actors o; planner := planner o; context := context o;
        verbose := verbose o; heap := heap o ++ [a]; world := world o |}).

(** [EnhancedOrchestrator.register_actor]. *)
Definition register_actor (name : string) (agent : nat) (metadata : ActorMetadata)
    : M EnhancedOrchestrator unit :=
  modify (fun o =>
    {| actors := dict_set (actors o) name (agent, metadata);
       planner := planner o; context := context o; verbose := verbose o;
       heap := heap o; world := world o |}).

(** [results[-1].get('content', '')], [IndexError] on an empty list. *)
Definition last_content (results : list AnalysisResult) : exn + string :=
  match last results with
  | None => inl (IndexError "list index out of range")
  | Some result => inr (default EmptyString (Agent.get_content result))
  end.

(** The loop of [_create_actor_prompt] (version 2) that collects the latest
    result of every other actor. *)
Fixpoint other_results (items : dict (list AnalysisResult)) (actor_name : string)
    (acc : dict string) : dict string :=
  match items with
  | [] => acc
  | (other_actor, results) :: rest =>
      match last results with
      | Some result =>
          if negb (String.eqb other_actor actor_name)
          then other_results rest actor_name
                 (dict_set acc other_actor
                    (default EmptyString (Agent.get_content result)))
          else other_results rest actor_name acc
      | None => other_results rest actor_name acc
      end
  end.

(** [EnhancedOrchestrator._create_actor_prompt]. *)
Definition _create_actor_prompt (v : Agent.version) (c : OrchestratorContext)
    (actor_name task : string) : string :=
  match v with
  | Agent.V1 =>
      let history := escape_backslashes (get_actor_history c actor_name) in
      let task := escape_backslashes task in
      "Task: " +:+ task +:+ nl
      +:+ nl
      +:+ "Previous Context:" +:+ nl
      +:+ history +:+ nl
      +:+ nl
      +:+ "Requirements:" +:+ nl
      +:+ "1. Use the file ID provided in your initialization." +:+ nl
      +:+ "2. Reference previous analysis if relevant." +:+ nl
      +:+ "3. Be specific and quantitative." +:+ nl
      +:+ "4. Return clear, structured results."
  | Agent.V2 =>
      let history := get_actor_history c actor_name in
      let others := other_results (actor_results c) actor_name [] in
      "Task: " +:+ task +:+ nl
      +:+ nl
      +:+ "Your Previous Context:" +:+ nl
      +:+ history +:+ nl
      +:+ nl
      +:+ "Other Actors' Recent Results:" +:+ nl
      +:+ join nl (map (fun kv => fst kv +:+ ": " +:+ snd kv) others) +:+ nl
      +:+ nl
      +:+ "Requirements:" +:+ nl
      +:+ "1. Use the file ID provided in your initialization" +:+ nl
      +:+ "2. Reference previous analysis if relevant" +:+ nl
      +:+ "3. Be specific and quantitative" +:+ nl
      +:+ "4. Return clear, structured results" +:+ nl
      +:+ "5. Focus only on your specific capabilities"
  end.

(** The description of one actor in [_plan_execution]. *)
Definition describe_actor (v : Agent.version) (c : OrchestratorContext)
    (name : string) (meta : ActorMetadata) : exn + string :=
  let seen := dict_get (actor_results c) name in
  let desc :=
    "Actor '" +:+ name +:+ "':" +:+ nl
    +:+ "- Data: " +:+ data_description meta +:+ nl
    +:+ "- Previous context: "
    +:+ (match seen with Some _ => "Yes" | None => "No" end) +:+ nl in
  match v, seen with
  | Agent.V2, Some results =>
      match last_content results with
      | inl e => inl e
      | inr last_result =>
          inr (desc +:+ "- Latest result: "
               +:+ String.substring 0 200 last_result +:+ "..." +:+ nl)
      end
  | _, _ => inr desc
  end.

Fixpoint describe_actors (v : Agent.version) (c : OrchestratorContext)
    (items : dict (nat * ActorMetadata)) : exn + list string :=
  match items with
  | [] => inr []
  | (name, (_, meta)) :: rest =>
      match describe_actor v c name meta with
      | inl e => inl e
      | inr desc =>
          match describe_actors v c rest with
          | inl e => inl e
          | inr descs => inr (desc :: descs)
          end
      end
  end.

(** The loop of [_plan_execution] over the lines of the answer: a line with
    a colon gives an actor (after an optional ordinal and a dot) and a task;
    it is kept when the actor is registered. *)
Fixpoint parse_steps (v : Agent.version) (actors : dict (nat * ActorMetadata))
    (lines : list string) : list (string * string) :=
  match lines with
  | [] => []
  | line :: rest =>
      match partition ":" line with
      | Some (actor, task) =>
          let actor := strip actor in
          let actor :=
            match partition "." actor with
            | Some (_, after) => strip after
            | None => strip actor
            end in
          if dict_has actors actor
          then (actor, match v with
                       | Agent.V1 => escape_backslashes (strip task)
                       | Agent.V2 => strip task
                       end) :: parse_steps v actors rest
          else parse_steps v actors rest
      | None => parse_steps v actors rest
      end
  end.

(** [result["content"]]. *)
Definition content_of {S} (result : AnalysisResult) : M S string :=
  match Agent.get_content result with
  | Some c => ret c
  | None => raise (KeyError "content")
  end.

Definition lift {S A} (r : exn + A) : M S A :=
  match r with
  | inl e => raise e
  | inr a => ret a
  end.

Definition planning_system_prompt_v1 : string :=
  "Create an efficient execution plan with one call per actor, minimizing intermediate steps." +:+ nl
  +:+ "        1. Consolidate tasks where possible to reduce actor interactions." +:+ nl
  +:+ "        2. Leverage existing context from previous runs." +:+ nl
  +:+ "        3. Ensure continuity of analysis without unnecessary redundancies.".

(** [EnhancedOrchestrator._plan_execution]: version 1 asks a chat completion,
    version 2 its planning assistant. *)
Definition _plan_execution (v : Agent.version) (query : string)
    : M EnhancedOrchestrator (list (string * string)) :=
  o <- get ;;
  actor_descriptions <- lift (describe_actors v (context o) (actors o)) ;;
  content <-
    match v with
    | Agent.V1 =>
        let user_prompt :=
          "Query: " +:+ dquote +:+ query +:+ dquote +:+ nl
          +:+ nl
          +:+ "Available actors:" +:+ nl
          +:+ join nl actor_descriptions +:+ nl
          +:+ nl
          +:+ "Create a minimal execution plan. Format:" +:+ nl
          +:+ "1. actor_name: complete_task_description" in
        on_client (chat_completions_create planning_system_prompt_v1 user_prompt)
    | Agent.V2 =>
        let pad := "        " in
        let planning_query :=
          "Create an execution plan for this query:" +:+ nl
          +:+ pad +:+ dquote +:+ query +:+ dquote +:+ nl
          +:+ pad +:+ nl
          +:+ pad +:+ "Available actors:" +:+ nl
          +:+ pad +:+ join nl actor_descriptions +:+ nl
          +:+ pad +:+ nl
          +:+ pad +:+ "Previous execution history:" +:+ nl
          +:+ pad +:+ join nl (map (fun h => "- " +:+ h) (history (context o))) +:+ nl
          +:+ pad +:+ nl
          +:+ pad +:+ "Return only numbered steps in format:" +:+ nl
          +:+ pad +:+ "1. actor_name: task_description" in
        match planner o with
        | None => raise (Exception "no planner")
        | Some planner =>
            result <- on_agent planner (Agent.run_analysis Agent.V2 planning_query None) ;;
            content_of result
        end
    end ;;
  ret (parse_steps v (actors o) (split (ascii_of_nat 10) (strip content))).

(** [EnhancedOrchestrator._execute_actor]. *)
Definition _execute_actor (v : Agent.version) (actor_name task : string)
    : M EnhancedOrchestrator AnalysisResult :=
  o <- get ;;
  match dict_get (actors o) actor_name with
  | None => raise (KeyError actor_name)
  | Some (agent, _) =>
      (* Create context-aware prompt *)
      let prompt := _create_actor_prompt v (context o) actor_name task in
      (* Use existing thread if available *)
      let thread_id := threads (context o) !! actor_name in
      result <- on_agent agent (Agent.run_analysis v prompt thread_id) ;;
      (* Store thread ID if new *)
      (if negb (truthy thread_id) && truthy (Agent.get_thread_id result)
       then
         o <- get ;;
         set_context
           {| threads := <[actor_name := default EmptyString (Agent.get_thread_id result)]>
                           (threads (context o));
              actor_results := actor_results (context o);
              history := history (context o) |}
       else ret tt) ;;;
      (* Store result in context *)
      o <- get ;;
      set_context (add_result (context o) actor_name result) ;;;
      (* Add to history (version 2) *)
      match v with
      | Agent.V1 => ret tt
      | Agent.V2 =>
          o <- get ;;
          set_context
            {| threads := threads (context o);
               actor_results := actor_results (context o);
               history := history (context o) ++ [actor_name +:+ ": " +:+ task] |}
      end ;;;
      ret result
  end.

(** The loop of [run_analysis] over the plan; [results] is the dictionary
    being filled. *)
Fixpoint execute_plan (v : Agent.version) (plan : list (string * string))
    (results : dict string) : M EnhancedOrchestrator (dict string) :=
  match plan with
  | [] => ret results
  | (actor_name, task) :: rest =>
      result <- _execute_actor v actor_name task ;;
      content <- content_of result ;;
      execute_plan v rest (dict_set results actor_name content)
  end.

(** The dictionary [run_analysis] returns, without [execution_time]. *)
Record Response : Type := mkResponse {
  answer : string;
  steps_executed : nat;
  actors_used : list string;
  results : dict string
}.

(** [EnhancedOrchestrator.run_analysis]. The [try ... except: log; raise] of
    version 2 lets every exception through. *)
Definition run_analysis (v : Agent.version) (query : string)
    (maintain_context : bool) : M EnhancedOrchestrator Response :=
  (* Clear context if not maintaining it *)
  (if negb maintain_context then set_context new_context else ret tt) ;;;
  (* Get execution plan *)
  plan <- _plan_execution v query ;;
  let actors_used := map fst plan in
  (* Execute plan *)
  results <- execute_plan v plan [] ;;
  match v with
  | Agent.V1 =>
      let final_answer :=
        join nl (map (fun kv => "From " +:+ fst kv +:+ ":" +:+ nl +:+ snd kv) results) in
      ret {| answer := final_answer;
             steps_executed := length plan;
             actors_used := actors_used;
             results := results |}
  | Agent.V2 =>
      o <- get ;;
      let synthesis_prompt :=
        "Query: " +:+ query +:+ nl
        +:+ nl
        +:+ "Actor Results:" +:+ nl
        +:+ join nl (map (fun kv => "From " +:+ fst kv +:+ ":" +:+ nl
                                    +:+ snd kv +:+ nl) results) +:+ nl
        +:+ nl
        +:+ "Previous Context Available:" +:+ nl
        +:+ join nl (map (fun kv => "- " +:+ fst kv +:+ ": "
                                    +:+ str_of_nat (length (snd kv))
                                    +:+ " previous results")
                         (actor_results (context o))) +:+ nl
        +:+ nl
        +:+ "Create a final answer that:" +:+ nl
        +:+ "1. Directly addresses the query" +:+ nl
        +:+ "2. Integrates all actor insights" +:+ nl
        +:+ "3. Maintains continuity with previous analysis" +:+ nl
        +:+ "4. Is clear and concise" in
      (* Use planner for final synthesis *)
      match planner o with
      | None => raise (Exception "no planner")
      | Some planner =>
          synthesis <- on_agent planner (Agent.run_analysis Agent.V2 synthesis_prompt None) ;;
          answer <- content_of synthesis ;;
          ret {| answer := answer;
                 steps_executed := length plan;
                 actors_used := actors_used;
                 results := results |}
      end
  end.

(** The loop of [cleanup] over [self.actors.values()]. *)
Fixpoint cleanup_actors (items : dict (nat * ActorMetadata))
    : M EnhancedOrchestrator unit :=
  match items with
  | [] => ret tt
  | (_, (agent, _)) :: rest =>
      on_agent agent Agent.cleanup ;;;
      cleanup_actors rest
  end.

(** [EnhancedOrchestrator.cleanup]. *)
Definition cleanup (v : Agent.version) (full : bool) : M EnhancedOrchestrator unit :=
  o <- get ;;
  (* Always cleanup actors *)
  cleanup_actors (actors o) ;;;
  (* Cleanup planner *)
  match v, planner o with
  | Agent.V2, Some planner => on_agent planner Agent.cleanup
  | _, _ => ret tt
  end ;;;
  (* Optionally clear context *)
  if full then set_context new_context else ret tt.

End Orchestrator.


(** ** The graph of the router ([tests/multi-actor-orchestration.py]) *)

Module Graph.
Import Py Backend Router.

(** [END] of LangGraph. *)
Definition END : string := "__end__".

(** The mapping of the conditional edges that [Orchestrator._create_graph]
    puts after the supervisor: the value of ["next"] to the node that runs. *)
Definition conditional_edges : dict string :=
  [("customer_specialist", "customer_specialist");
   ("organization_specialist", "organization_specialist");
   ("FINISH", END)].

(** What a node returns to the graph: the messages to append and the value
    of ["shared_thread"]. *)
Record Update : Type := mkUpdate {
  new_messages : list Message;
  new_shared_thread : string
}.

(** [node_func] of [Orchestrator._create_actor_node], running on the agent
    of the node. [state["messages"][-1]] raises [IndexError] on an empty
    transcript; [response["content"]] is evaluated before
    [response.get("thread_id", thread_id)]. *)
Definition node_func (v : Agent.version) (name : string) (state : GraphState)
    : M Agent.St Update :=
  (* Use the same thread if it exists *)
  let thread_id := shared_thread state in
  (* Get the last message *)
  match last (messages state) with
  | None => raise (IndexError "list index out of range")
  | Some m =>
      let last_message := content m in
      (* Run the analysis *)
      response <- Agent.run_analysis v last_message (Some thread_id) ;;
      (* Update state *)
      match Agent.get_content response with
      | None => raise (KeyError "content")
      | Some c =>
          ret {| new_messages := [ {| content := c; name := Some name |} ];
                 new_shared_thread :=
                   default thread_id (Agent.get_thread_id response) |}
      end
  end.

End Graph.


(** ** The description of the capabilities ([tests/planner.py]) *)

Module PlannerPrompt.
Import Py Planner.

Section Capabilities.
Context {DataType AnalysisType : Type}.
Context `{PyEnum DataType} `{PyEnum AnalysisType}.

(** The lines that [_format_capabilities_for_prompt] appends for one
    actor. *)
Definition capability_lines (actor_name : string)
    (caps : ActorCapabilities DataType AnalysisType) : list string :=
  ["Actor: " +:+ actor_name; "Data Types:"]
  ++ map (fun dt => "- " +:+ member_name dt) (supported_data_types caps)
  ++ ["Analyses:"]
  ++ map (fun at_ => "- " +:+ member_name at_) (supported_analyses caps)
  ++ [EmptyString].

(** [QueryPlanner._format_capabilities_for_prompt]. *)
Definition _format_capabilities_for_prompt
    (p : QueryPlanner DataType AnalysisType) : string :=
  join nl (concat (map (fun kv => capability_lines (fst kv) (snd kv))
                       (actor_capabilities p))).

End Capabilities.

End PlannerPrompt.


(** * A deployment used in the examples *)

Module Demo.
Import Py Planner.

(** Modelled from the spec: the enumerations of a deployment, with the
    members the specification names. *)
Inductive DataType : Type := CUSTOMER | ORGANIZATION.

Inductive AnalysisType : Type := GEOGRAPHIC | STATISTICAL.

#[export] Instance DataType_eq_dec : EqDecision DataType.
Proof. solve_decision. Defined.

#[export] Instance AnalysisType_eq_dec : EqDecision AnalysisType.
Proof. solve_decision. Defined.

#[export] Instance DataType_enum : PyEnum DataType := {|
  members := [CUSTOMER; ORGANIZATION];
  member_name d := match d with
                   | CUSTOMER => "CUSTOMER"
                   | ORGANIZATION => "ORGANIZATION"
                   end
|}.

#[export] Instance AnalysisType_enum : PyEnum AnalysisType := {|
  members := [GEOGRAPHIC; STATISTICAL];
  member_name a := match a with
                   | GEOGRAPHIC => "GEOGRAPHIC"
                   | STATISTICAL => "STATISTICAL"
                   end
|}.

(** Two registered actors: [customer] holds the customer data and does the
    statistics, [organization] holds the organization data and does the
    geography. *)
Definition planner : QueryPlanner DataType AnalysisType :=
  register_actor
    (register_actor new_planner "customer"
       {| supported_data_types := [CUSTOMER];
          supported_analyses := [STATISTICAL] |})
    "organization"
    {| supported_data_types := [ORGANIZATION];
       supported_analyses := [GEOGRAPHIC] |}.

(** The classification "customer and organization data, geographic
    analysis" as the language model writes it. *)
Definition payload : string :=
  "{" +:+ dquote +:+ "required_data_types" +:+ dquote +:+ ": ["
  +:+ dquote +:+ "CUSTOMER" +:+ dquote +:+ ", "
  +:+ dquote +:+ "ORGANIZATION" +:+ dquote +:+ "], "
  +:+ dquote +:+ "required_analyses" +:+ dquote +:+ ": ["
  +:+ dquote +:+ "GEOGRAPHIC" +:+ dquote +:+ "]}".

(** A stand-in for [json.loads] that reads this one text and rejects every
    other. *)
Definition json_loads (text : string) : string + json :=
  if String.eqb text payload
  then inr (JObject [("required_data_types",
                      JArray [JString "CUSTOMER"; JString "ORGANIZATION"]);
                     ("required_analyses", JArray [JString "GEOGRAPHIC"])])
  else inl "Expecting value: line 1 column 1 (char 0)".

(** A classification that passes the validation and carries a fence in an
    extra field, and the value [json.loads] gives for it. *)
Definition noted_payload : string :=
  "{" +:+ dquote +:+ "required_data_types" +:+ dquote +:+ ": [], "
  +:+ dquote +:+ "required_analyses" +:+ dquote +:+ ": [], "
  +:+ dquote +:+ "note" +:+ dquote +:+ ": " +:+ dquote +:+ "```" +:+ dquote +:+ "}".

Definition noted_object : json :=
  JObject [("required_data_types", JArray []);
           ("required_analyses", JArray []);
           ("note", JString "```")].

End Demo.

Module DemoAgent.
Import Py Backend Agent.

(** A scripted service: identifiers [id-0], [id-1], ...; every file can be
    read; the file [file-0] cannot be deleted. *)
Definition world (polls : list Poll) (inboxes : list (list ThreadMessage))
    (completions : list string) : World :=
  {| ids := fun n => "id-" +:+ str_of_nat n;
     issued := 0;
     unreadable := [];
     undeletable := ["file-0"];
     polls := polls;
     inboxes := inboxes;
     completions := completions;
     trace := [] |}.

(** An agent with one data file whose assistant exists already. *)
Definition initialized : CodeInterpreterAgent :=
  {| name := "Customer Data Specialist";
     instructions := "You analyze customer data.";
     model := "gpt-4o";
     tools := ["code_interpreter"];
     file_mapping :=
       [("file-0", {| filename := "customers-10000.csv";
                      path := "data/customers-10000.csv" |});
        ("file-1", {| filename := "organizations-10000.csv";
                      path := "data/organizations-10000.csv" |})];
     files := ["data/customers-10000.csv"; "data/organizations-10000.csv"];
     assistant_id := Some "asst-0";
     verbose := false |}.

(** The inbox after a run: the answer of the assistant, then the query. *)
Definition inbox (answer : string) : list ThreadMessage :=
  [ {| role := "assistant"; parts := [Text answer] |};
    {| role := "user"; parts := [Text "query"] |} ].

Definition is_retrieve (c : Call) : bool :=
  match c with RunsRetrieve _ _ => true | _ => false end.

End DemoAgent.

Module DemoOrchestrator.
Import Py Backend Orchestrator.

Definition customer_metadata : ActorMetadata :=
  {| name := "Customer Data Specialist";
     data_description := "Analyzes customer distribution and demographics";
     file_path := "data/customers-10000.csv";
     system_prompt := "You analyze customer data from a CSV file." |}.

Definition organization_metadata : ActorMetadata :=
  {| name := "Organization Data Specialist";
     data_description := "Analyzes organization details and industry patterns";
     file_path := "data/organizations-10000.csv";
     system_prompt := "You analyze organization data from a CSV file." |}.

(** The agent built from a metadata record, as [example_usage.py] does. *)
Definition agent_for (m : ActorMetadata) : Agent.CodeInterpreterAgent :=
  Agent.new_agent (name m) (system_prompt m) "gpt-4o" None (Some [file_path m]) false.

(** [main] of [example_usage.py] up to the first query: two agents are
    created and registered. *)
Definition setup : M EnhancedOrchestrator unit :=
  customer <- new_object (agent_for customer_metadata) ;;
  organization <- new_object (agent_for organization_metadata) ;;
  register_actor "customer_specialist" customer customer_metadata ;;;
  register_actor "organization_specialist" organization organization_metadata.

(** A plan that asks the same actor twice. *)
Definition plan_text : string :=
  "1. customer_specialist: count the customers per country" +:+ nl
  +:+ "2. customer_specialist: list the industries of the top 3 countries".

(** The orchestrator of version 1 on a service that answers the planning
    with [plan_text] and completes two runs. *)
Definition orchestrator : EnhancedOrchestrator :=
  snd (setup (new_orchestrator Agent.V1 false
                (DemoAgent.world [Status "completed"; Status "completed"]
                   [DemoAgent.inbox "first answer"; DemoAgent.inbox "second answer"]
                   [plan_text]))).

End DemoOrchestrator.

(** ** More of the deployment *)

Module DemoGraph.
Import Py Backend Router.

(** The graph after a first node has run: a question is the latest message
    and a thread is shared. *)
Definition state : GraphState :=
  {| messages := [ {| content := "How many customers are there per country?";
                      name := None |} ];
     next := "customer_specialist";
     current_actor := "";
     shared_thread := "thread-7" |}.

(** A service on which the file [missing.csv] cannot be opened. *)
Definition world_without_a_file : World :=
  {| ids := fun n => "id-" +:+ str_of_nat n;
     issued := 0;
     unreadable := ["missing.csv"];
     undeletable := [];
     polls := [];
     inboxes := [];
     completions := [];
     trace := [] |}.

(** An agent with two files, the second of which is the missing one. *)
Definition agent_with_a_missing_file : Agent.CodeInterpreterAgent :=
  Agent.new_agent "Data Analysis Assistant" "You analyze CSV files." "gpt-4o"
    None (Some ["data/customers-10000.csv"; "missing.csv"]) false.

(** A thread in which the assistant has not answered. *)
Definition silent_inbox : list ThreadMessage :=
  [ {| role := "user"; parts := [Text "query"] |} ].

(** The orchestrator of version 1 with its two actors, on a service whose
    run completes and whose thread holds no answer. *)
Definition silent_orchestrator : Orchestrator.EnhancedOrchestrator :=
  snd (DemoOrchestrator.setup
         (Orchestrator.new_orchestrator Agent.V1 false
            (DemoAgent.world [Status "completed"] [silent_inbox] []))).

(** An actor that supports what the two registered actors support. *)
Definition auditor : Planner.ActorCapabilities Demo.DataType Demo.AnalysisType :=
  {| Planner.supported_data_types := [Demo.CUSTOMER; Demo.ORGANIZATION];
     Planner.supported_analyses := [Demo.GEOGRAPHIC; Demo.STATISTICAL] |}.

End DemoGraph.

(** ** Services that do not answer the first run *)

Module DemoThreads.
Import Py Backend Orchestrator.

(** The orchestrator of a version with its two actors, on a service whose
    first run completes without an answer of the assistant and whose second
    run completes with one. *)
Definition forgetful (v : Agent.version) : EnhancedOrchestrator :=
  snd (DemoOrchestrator.setup
         (new_orchestrator v false
            (DemoAgent.world [Status "completed"; Status "completed"]
               [DemoGraph.silent_inbox; DemoAgent.inbox "answer"] []))).

(** The same actors on a service whose first run fails and whose second run
    completes with an answer. *)
Definition failing (v : Agent.version) : EnhancedOrchestrator :=
  snd (DemoOrchestrator.setup
         (new_orchestrator v false
            (DemoAgent.world [Status "failed"; Status "completed"]
               [DemoAgent.inbox "answer"] []))).

(** The thread on which a message is posted. *)
Definition posted_on (c : Call) : option string :=
  match c with
  | MessagesCreate thread_id _ => Some thread_id
  | _ => None
  end.

Definition is_threads_create (c : Call) : bool :=
  match c with ThreadsCreate => true | _ => false end.

(** A line of a plan whose task holds a backslash, and the task as the two
    versions read it. *)
Definition backslash : string := String (ascii_of_nat 92) EmptyString.

Definition windows_task : string := " read C:" +:+ backslash +:+ "data".

End DemoThreads.


(** * Specification-level definitions *)



(** [a] is the first actor of [items], in registration order, whose
    capabilities pass the test [supports]. *)
Definition first_supporting {C} (supports : C -> bool) (items : Py.dict C)
    (a : string) : Prop :=
  exists before caps after,
    items = before ++ (a, caps) :: after
    /\ supports caps = true
    /\ Forall (fun kv => supports (snd kv) = false) before.

Definition none_supporting {C} (supports : C -> bool) (items : Py.dict C) : Prop :=
  Forall (fun kv => supports (snd kv) = false) items.

(** A payload that holds no fence and whose end does not complete one with the
    closing fence. *)
Definition fence_free (P : string) : Prop :=
  Py.contains Planner.fence (P +:+ "``") = false.

(** Two replies are read alike: they are cleaned to the same text, give the
    same classification and the same plan. *)
Definition read_alike {DataType AnalysisType : Type}
    `{Planner.PyEnum DataType} `{Planner.PyEnum AnalysisType}
    (json_loads : string -> string + Planner.json)
    (p : Planner.QueryPlanner DataType AnalysisType)
    (reply1 reply2 : string) : Prop :=
  Planner._clean_json_response reply1 = Planner._clean_json_response reply2
  /\ Planner._analyze_query_requirements json_loads reply1
     = Planner._analyze_query_requirements json_loads reply2
  /\ forall query now,
       Planner.create_execution_plan json_loads p query now reply1
       = Planner.create_execution_plan json_loads p query now reply2.

(** The calls a computation adds to the trace. *)
Definition adds_calls (w w' : Backend.World) (calls : list Backend.Call) : Prop :=
  Backend.trace w' = Backend.trace w ++ calls.

(** A computation [respects] a relation between the state it starts in and
    the state it ends in, whatever its outcome. *)
Definition respects {S A} (R : S -> S -> Prop) (m : Backend.M S A) : Prop :=
  forall s r s', m s = (r, s') -> R s s'.

(** The calls added to the trace of the world all pass [P]. *)
Definition calls_pass (P : Backend.Call -> bool) (w w' : Backend.World) : Prop :=
  exists calls, adds_calls w w' calls /\ forallb P calls = true.

(** Calls that belong to the initialization of an agent. *)
Definition initializing (c : Backend.Call) : bool :=
  match c with
  | Backend.FilesCreate _ | Backend.AssistantsCreate _ _ _ _ _ _ => true
  | _ => false
  end.

(** Calls that neither create a thread nor address a thread other than
    [t]. *)
Definition on_thread (t : string) (c : Backend.Call) : bool :=
  match c with
  | Backend.ThreadsCreate => false
  | Backend.MessagesCreate t' _ | Backend.RunsCreate t' _
  | Backend.RunsRetrieve t' _ | Backend.MessagesList t' => String.eqb t' t
  | _ => true
  end.

Definition not_initializing (c : Backend.Call) : bool := negb (initializing c).

(** A status that ends the polling, and one that does not. *)
Definition terminal (status : string) : bool :=
  String.eqb status "completed"
  || existsb (String.eqb status) Agent.failure_statuses.

Definition pending (status : string) : bool := negb (terminal status).

(** What an agent method does to its state: the calls it adds pass [P]; and,
    for [same_agent], the agent is left as it was. *)
Definition world_calls (P : Backend.Call -> bool) (s s' : Agent.St) : Prop :=
  calls_pass P (snd s) (snd s').

Definition same_agent (P : Backend.Call -> bool) (s s' : Agent.St) : Prop :=
  fst s' = fst s /\ calls_pass P (snd s) (snd s').

(** The context after a step that returned [res]: the thread is stored when
    the actor had none, the result is appended, version 2 logs the step. *)
Definition store_thread (c : Orchestrator.OrchestratorContext) (actor : string)
    (res : Agent.AnalysisResult) : Orchestrator.OrchestratorContext :=
  if negb (Py.truthy (Orchestrator.threads c !! actor))
     && Py.truthy (Agent.get_thread_id res)
  then {| Orchestrator.threads :=
            <[actor := default EmptyString (Agent.get_thread_id res)]>
              (Orchestrator.threads c);
          Orchestrator.actor_results := Orchestrator.actor_results c;
          Orchestrator.history := Orchestrator.history c |}
  else c.

Definition log_step (v : Agent.version) (c : Orchestrator.OrchestratorContext)
    (actor task : string) : Orchestrator.OrchestratorContext :=
  match v with
  | Agent.V1 => c
  | Agent.V2 =>
      {| Orchestrator.threads := Orchestrator.threads c;
         Orchestrator.actor_results := Orchestrator.actor_results c;
         Orchestrator.history :=
           Orchestrator.history c ++ [actor +:+ ": " +:+ task] |}
  end.

Definition context_after (v : Agent.version) (c : Orchestrator.OrchestratorContext)
    (actor task : string) (res : Agent.AnalysisResult)
    : Orchestrator.OrchestratorContext :=
  log_step v (Orchestrator.add_result (store_thread c actor res) actor res)
    actor task.

(** The results recorded for an actor, and the entries of a list of steps
    that belong to an actor. *)
Definition results_of (c : Orchestrator.OrchestratorContext) (actor : string)
    : list Agent.AnalysisResult :=
  default [] (Py.dict_get (Orchestrator.actor_results c) actor).

Definition for_actor {X} (actor : string) (steps : list (string * X)) : list X :=
  map snd (List.filter (fun kv => String.eqb (fst kv) actor) steps).

(** A stored thread stays. *)
Definition keeps_threads (c c' : Orchestrator.OrchestratorContext) : Prop :=
  forall actor t, t <> EmptyString ->
    Orchestrator.threads c !! actor = Some t ->
    Orchestrator.threads c' !! actor = Some t.

(** What an orchestrator method leaves as it is: the registered actors and
    the planner; the context changes along [Rc]. *)
Definition frame (Rc : relation Orchestrator.OrchestratorContext)
    (o o' : Orchestrator.EnhancedOrchestrator) : Prop :=
  Orchestrator.actors o' = Orchestrator.actors o
  /\ Orchestrator.planner o' = Orchestrator.planner o
  /\ Rc (Orchestrator.context o) (Orchestrator.context o').

(** [results[actor] = result["content"]] for one executed step. *)
Definition store_content (results : Py.dict string)
    (step : string * Agent.AnalysisResult) : Py.dict string :=
  Py.dict_set results (fst step)
    (default EmptyString (Agent.get_content (snd step))).

(** What happens to an orchestrator between two steps while the context is
    maintained: a step for some actor, a whole query, a cleanup that keeps
    the context, a registration. *)
Inductive activity (v : Agent.version) : relation Orchestrator.EnhancedOrchestrator :=
| activity_step actor task o r o' :
    Orchestrator._execute_actor v actor task o = (r, o') -> activity v o o'
| activity_query query o r o' :
    Orchestrator.run_analysis v query true o = (r, o') -> activity v o o'
| activity_cleanup o r o' :
    Orchestrator.cleanup v false o = (r, o') -> activity v o o'
| activity_register name agent metadata o r o' :
    Orchestrator.register_actor name agent metadata o = (r, o') -> activity v o o'.

(** The capability tests of the planner. *)
Definition supports_data {DataType AnalysisType : Type} `{Planner.PyEnum DataType}
    (d : DataType) (c : Planner.ActorCapabilities DataType AnalysisType) : bool :=
  Planner.mem d (Planner.supported_data_types c).

Definition supports_analysis {DataType AnalysisType : Type}
    `{Planner.PyEnum AnalysisType}
    (a : AnalysisType) (c : Planner.ActorCapabilities DataType AnalysisType) : bool :=
  Planner.mem a (Planner.supported_analyses c).

(** What the first loop of [_create_execution_steps] adds to [steps]. *)
Definition data_step_for {DataType AnalysisType : Type} `{Planner.PyEnum DataType}
    (p : Planner.QueryPlanner DataType AnalysisType) (d : DataType)
    (s : Planner.ExecutionStep DataType) : Prop :=
  first_supporting (supports_data d) (Planner.actor_capabilities p)
    (Planner.actor_name s)
  /\ Planner.required_data s = [d]
  /\ Planner.depends_on s = [].

(** What the second loop adds: a step computed from the steps [before] it. *)
Definition analysis_step_for {DataType AnalysisType : Type}
    `{Planner.PyEnum DataType} `{Planner.PyEnum AnalysisType}
    (p : Planner.QueryPlanner DataType AnalysisType) (h : list DataType)
    (before : list (Planner.ExecutionStep DataType)) (a : AnalysisType)
    (s : Planner.ExecutionStep DataType) : Prop :=
  first_supporting (supports_analysis a) (Planner.actor_capabilities p)
    (Planner.actor_name s)
  /\ Planner.required_data s = h
  /\ Planner.depends_on s
     = map Planner.actor_name (List.filter (Planner.uses_handled h) before).

(** The body the two versions of [run_analysis] share, up to the way the
    run is awaited and the answer extracted. *)
Definition run_chain (v : Agent.version) (max_retries : Z) (query : string)
    (thread_id : option string) : Backend.M Agent.St Agent.AnalysisResult :=
  Backend.bind Agent.self (fun a =>
  Backend.bind (if Py.truthy (Agent.assistant_id a) then Backend.ret tt
                else Agent.initialize v) (fun _ =>
  Backend.bind (if Py.truthy thread_id
                then Backend.ret (default EmptyString thread_id)
                else Agent.on_world Backend.threads_create) (fun thread_id =>
  Backend.bind (Agent.on_world (Backend.messages_create thread_id query)) (fun _ =>
  Backend.bind Agent.self (fun a =>
  Backend.bind (Agent.on_world (Backend.runs_create thread_id (Agent.assistant_id a)))
    (fun run_id =>
  Backend.bind (Agent.on_world
                  match v with
                  | Agent.V1 => Agent.wait_v1 thread_id run_id max_retries
                  | Agent.V2 => Agent.wait_v2 thread_id run_id
                  end) (fun _ =>
  Backend.bind (Agent.on_world (Backend.messages_list thread_id)) (fun messages =>
  Backend.ret match v with
              | Agent.V1 => Agent.extract_v1 messages thread_id run_id
              | Agent.V2 => Agent.extract_v2 messages thread_id run_id
              end)))))))).


(** What one answer of [runs.retrieve] makes of an iteration of the polling
    loops: it completes the run, or is an error (an exception of the call or
    a status of failure), or neither. *)
Definition completes (p : Backend.Poll) : bool :=
  match p with
  | Backend.Status s => String.eqb s "completed"
  | Backend.Failure _ => false
  end.

Definition poll_error (p : Backend.Poll) : option Py.exn :=
  match p with
  | Backend.Failure e => Some e
  | Backend.Status s =>
      if String.eqb s "completed" then None
      else if existsb (String.eqb s) Agent.failure_statuses
      then Some (Py.Exception ("Run failed with status: " +:+ s))
      else None
  end.

Definition errors (p : Backend.Poll) : bool :=
  match poll_error p with Some _ => true | None => false end.

(** The world after one [runs.retrieve]. *)
Definition after_retrieve (thread_id run_id : string) (w : Backend.World)
    : Backend.World :=
  {| Backend.ids := Backend.ids w; Backend.issued := Backend.issued w;
     Backend.unreadable := Backend.unreadable w;
     Backend.undeletable := Backend.undeletable w;
     Backend.polls := tail (Backend.polls w);
     Backend.inboxes := Backend.inboxes w;
     Backend.completions := Backend.completions w;
     Backend.trace := Backend.trace w ++ [Backend.RunsRetrieve thread_id run_id] |}.

(** The two ways of awaiting a run and of reading the answer. *)
Definition wait (v : Agent.version) (thread_id run_id : string) (max_retries : Z)
    : Backend.M Backend.World unit :=
  match v with
  | Agent.V1 => Agent.wait_v1 thread_id run_id max_retries
  | Agent.V2 => Agent.wait_v2 thread_id run_id
  end.

Definition extract (v : Agent.version) (data : list Backend.ThreadMessage)
    (thread_id run_id : string) : Agent.AnalysisResult :=
  match v with
  | Agent.V1 => Agent.extract_v1 data thread_id run_id
  | Agent.V2 => Agent.extract_v2 data thread_id run_id
  end.

(** The start of a run for an agent: the thread, the run and the world in
    which the run is awaited. *)
Definition start_run (a : Agent.CodeInterpreterAgent) (query : string)
    (thread_id : option string) (w : Backend.World)
    : string * string * Backend.World :=
  let '(t, w1) :=
    if Py.truthy thread_id then (default EmptyString thread_id, w)
    else (Backend.ids w (Backend.issued w), snd (Backend.threads_create w)) in
  let w2 := Backend.record (Backend.MessagesCreate t query) w1 in
  (t, Backend.ids w2 (Backend.issued w2),
   snd (Backend.runs_create t (Agent.assistant_id a) w2)).

(** A run from its start on: the run is awaited, the messages are listed and
    the answer is read. *)
Definition finish_run (v : Agent.version) (max_retries : Z)
    (a : Agent.CodeInterpreterAgent) (t r : string) (w : Backend.World)
    : Backend.outcome Agent.AnalysisResult * Agent.St :=
  match wait v t r max_retries w with
  | (Backend.Return _, w1) =>
      match Backend.messages_list t w1 with
      | (Backend.Return data, w2) => (Backend.Return (extract v data t r), (a, w2))
      | (Backend.Raise e, w2) => (Backend.Raise e, (a, w2))
      | (Backend.Pending, w2) => (Backend.Pending, (a, w2))
      end
  | (Backend.Raise e, w1) => (Backend.Raise e, (a, w1))
  | (Backend.Pending, w1) => (Backend.Pending, (a, w1))
  end.

(** An agent with another file mapping. *)
Definition with_file_mapping (a : Agent.CodeInterpreterAgent)
    (fm : Py.dict Agent.FileInfo) : Agent.CodeInterpreterAgent :=
  {| Agent.name := Agent.name a; Agent.instructions := Agent.instructions a;
     Agent.model := Agent.model a; Agent.tools := Agent.tools a;
     Agent.file_mapping := fm; Agent.files := Agent.files a;
     Agent.assistant_id := Agent.assistant_id a; Agent.verbose := Agent.verbose a |}.

(** A path the service can open. *)
Definition readable (w : Backend.World) (path : string) : Prop :=
  existsb (String.eqb path) (Backend.unreadable w) = false.

(** The identifiers given by the next [n] creations. *)
Definition next_ids (w : Backend.World) (n : nat) : list string :=
  map (fun i => Backend.ids w (Backend.issued w + i)) (seq 0 n).

(** [run_analysis] from the choice of the thread on. *)
Definition run_on_thread (v : Agent.version) (max_retries : Z) (query : string)
    (thread_id : option string) : Backend.M Agent.St Agent.AnalysisResult :=
  Backend.bind (if Py.truthy thread_id
                then Backend.ret (default EmptyString thread_id)
                else Agent.on_world Backend.threads_create) (fun thread_id =>
  Backend.bind (Agent.on_world (Backend.messages_create thread_id query)) (fun _ =>
  Backend.bind Agent.self (fun a =>
  Backend.bind (Agent.on_world (Backend.runs_create thread_id (Agent.assistant_id a)))
    (fun run_id =>
  Backend.bind (Agent.on_world (wait v thread_id run_id max_retries)) (fun _ =>
  Backend.bind (Agent.on_world (Backend.messages_list thread_id)) (fun messages =>
  Backend.ret (extract v messages thread_id run_id))))))).

(** What one answer of [runs.retrieve] decides in the loop of version 2:
    nothing, the end of the wait, or an exception. *)
Definition verdict_v2 (p : Backend.Poll) : option (Backend.outcome unit) :=
  match p with
  | Backend.Failure e => Some (Backend.Raise e)
  | Backend.Status s =>
      if String.eqb s "completed" then Some (Backend.Return tt)
      else if existsb (String.eqb s) Agent.failure_statuses
      then Some (Backend.Raise (Py.Exception ("Run failed with status: " +:+ s)))
      else None
  end.

(** The number of backslashes of a text. *)
Fixpoint backslashes (s : string) : nat :=
  match s with
  | EmptyString => 0
  | String c s' =>
      (if Ascii.eqb c (ascii_of_nat 92) then 1 else 0) + backslashes s'
  end.

(** The line of [_create_file_instructions] for one uploaded file. *)
Definition file_line (file_id : string) (info : Agent.FileInfo) : string :=
  "- File ID '" +:+ file_id +:+ "' is '" +:+ Agent.filename info +:+ "'".

(** What can happen to an orchestrator: an agent object is created, an actor
    is registered, a step is executed, a query is run with or without the
    context of the earlier ones, the resources are cleaned up with or
    without the context. *)
Inductive operation (v : Agent.version) : relation Orchestrator.EnhancedOrchestrator :=
| operation_object a o r o' :
    Orchestrator.new_object a o = (r, o') -> operation v o o'
| operation_register name agent metadata o r o' :
    Orchestrator.register_actor name agent metadata o = (r, o') -> operation v o o'
| operation_step actor task o r o' :
    Orchestrator._execute_actor v actor task o = (r, o') -> operation v o o'
| operation_query query maintain_context o r o' :
    Orchestrator.run_analysis v query maintain_context o = (r, o') -> operation v o o'
| operation_cleanup full o r o' :
    Orchestrator.cleanup v full o = (r, o') -> operation v o o'.

(** Every actor that has an entry in [actor_results] has a result in it. *)
Definition results_inhabited (c : Orchestrator.OrchestratorContext) : Prop :=
  Forall (fun kv => snd kv <> []) (Orchestrator.actor_results c).

Definition keeps_inhabited (c c' : Orchestrator.OrchestratorContext) : Prop :=
  results_inhabited c -> results_inhabited c'.

(** The line of [get_actor_history] for one result. *)
Definition history_line (result : Agent.AnalysisResult) : string :=
  "Previous analysis: " +:+ default "No content" (Agent.get_content result).

(** Calls that delete a file. *)
Definition deleting (c : Backend.Call) : bool :=
  match c with Backend.FilesDelete _ => true | _ => false end.

(** What a cleanup of agents does to an orchestrator: registrations, planner
    and context stay; the world gets deletions only; every agent object
    stays where it is, with its assistant id, and an empty file mapping stays
    empty. *)
Definition cleans (o o' : Orchestrator.EnhancedOrchestrator) : Prop :=
  Orchestrator.actors o' = Orchestrator.actors o
  /\ Orchestrator.planner o' = Orchestrator.planner o
  /\ Orchestrator.context o' = Orchestrator.context o
  /\ calls_pass deleting (Orchestrator.world o) (Orchestrator.world o')
  /\ forall i a, Orchestrator.heap o !! i = Some a ->
       exists a', Orchestrator.heap o' !! i = Some a'
                  /\ Agent.assistant_id a' = Agent.assistant_id a
                  /\ (Agent.file_mapping a = [] -> Agent.file_mapping a' = []).

(** The agent object at place [i] has an empty file mapping. *)
Definition cleaned (o : Orchestrator.EnhancedOrchestrator) (i : nat) : Prop :=
  exists a, Orchestrator.heap o !! i = Some a /\ Agent.file_mapping a = [].
(** The thread id that the outcome of a step carries: the one of a response
    that has a [thread_id] which is not empty. A step that raises, and a
    response without an answer of the assistant, carry none. *)
Definition carried_thread (r : Backend.outcome Agent.AnalysisResult) : option string :=
  match r with
  | Backend.Return res =>
      if Py.truthy (Agent.get_thread_id res) then Agent.get_thread_id res else None
  | _ => None
  end.

(** The steps of a plan executed one after the other from an orchestrator
    on: every step returns, and [records] pairs the actor of each step with
    the response its agent returned. *)
Inductive executes (v : Agent.version)
    : list (string * string) -> list (string * Orchestrator.AnalysisResult)
      -> relation Orchestrator.EnhancedOrchestrator :=
| executes_nil o : executes v [] [] o o
| executes_cons actor task res plan records o o1 o2 :
    Orchestrator._execute_actor v actor task o = (Backend.Return res, o1) ->
    executes v plan records o1 o2 ->
    executes v ((actor, task) :: plan) ((actor, res) :: records) o o2.

(** The orchestrator in which [run_analysis] asks for its plan: the context
    is a new one unless it is maintained. *)
Definition starting (maintain_context : bool)
    (o : Orchestrator.EnhancedOrchestrator) : Orchestrator.EnhancedOrchestrator :=
  if maintain_context then o
  else snd (Orchestrator.set_context Orchestrator.new_context o).

(** The last of the answers that a wait has taken from the service reports
    the status [completed]. *)
Definition completed_last (consumed : list Backend.Poll) : bool :=
  match last consumed with
  | Some p => completes p
  | None => false
  end.

(** What a wait for the run [r] of the thread [t] does between the worlds [w]
    and [w']: it takes the answers [consumed] from the service, one
    [runs.retrieve] each, none of them after an answer that completes the
    run, and it returns exactly when the last of them completes the run. *)
Definition consumes (t r : string) (w : Backend.World)
    (o : Backend.outcome unit) (w' : Backend.World)
    (consumed : list Backend.Poll) : Prop :=
  Backend.polls w = consumed ++ Backend.polls w'
  /\ Backend.inboxes w' = Backend.inboxes w
  /\ adds_calls w w' (repeat (Backend.RunsRetrieve t r) (length consumed))
  /\ (forall i p, consumed !! i = Some p -> completes p = true ->
        S i = length consumed)
  /\ (o = Backend.Return tt <-> completed_last consumed = true).

(** The latest result of every actor but [actor], in the order in which the
    actors got their first result. *)
Definition latest_of_others (c : Orchestrator.OrchestratorContext)
    (actor : string) : Py.dict string :=
  omap (fun kv : string * list Orchestrator.AnalysisResult =>
          if String.eqb (fst kv) actor then None
          else match last (snd kv) with
               | Some result =>
                   Some (fst kv, default EmptyString (Agent.get_content result))
               | None => None
               end)
       (Orchestrator.actor_results c).

(** The line of a prompt that quotes a result. *)
Definition quote_line (kv : string * string) : string :=
  fst kv +:+ ": " +:+ snd kv.

(** The text of a prompt of version 2 around a task, a history and the
    quoted lines. *)
Definition prompt_text_v2 (task history : string) (quoted : list string) : string :=
  "Task: " +:+ task +:+ Py.nl
  +:+ Py.nl
  +:+ "Your Previous Context:" +:+ Py.nl
  +:+ history +:+ Py.nl
  +:+ Py.nl
  +:+ "Other Actors' Recent Results:" +:+ Py.nl
  +:+ Py.join Py.nl quoted +:+ Py.nl
  +:+ Py.nl
  +:+ "Requirements:" +:+ Py.nl
  +:+ "1. Use the file ID provided in your initialization" +:+ Py.nl
  +:+ "2. Reference previous analysis if relevant" +:+ Py.nl
  +:+ "3. Be specific and quantitative" +:+ Py.nl
  +:+ "4. Return clear, structured results" +:+ Py.nl
  +:+ "5. Focus only on your specific capabilities".


(** * Properties *)

Section StringFacts.
Import Py.

Lemma contains_unfold (n s : string) :
  contains n s =
    if startswith s n then true
    else match s with
         | EmptyString => false
         | String _ s' => contains n s'
         end.
Proof. destruct s; reflexivity. Qed.

Lemma partition_unfold (sep s : string) :
  partition sep s =
    if startswith s sep then Some (EmptyString, skip (String.length sep) s)
    else match s with
         | EmptyString => None
         | String c s' =>
             match partition sep s' with
             | Some (before, after) => Some (String c before, after)
             | None => None
             end
         end.
Proof. destruct s; reflexivity. Qed.

Lemma startswith_app (s t p : string) :
  startswith s p = true -> startswith (s +:+ t) p = true.
Proof.
  revert s. induction p as [|a p IH]; intros s Hp; [reflexivity|].
  destruct s as [|b s]; simpl in *; [discriminate|].
  apply andb_true_iff in Hp as [Hab Hp].
  rewrite Hab. simpl. auto.
Qed.

Lemma contains_false_startswith (n s : string) :
  contains n s = false -> startswith s n = false.
Proof.
  rewrite contains_unfold. destruct (startswith s n); [discriminate | reflexivity].
Qed.

Lemma contains_app_false (n s t : string) :
  contains n (s +:+ t) = false -> contains n s = false.
Proof.
  induction s as [|c s IH]; intros Hc.
  - rewrite contains_unfold. destruct (startswith "" n) eqn:Hp; [|reflexivity].
    apply contains_false_startswith in Hc.
    rewrite (startswith_app "" t n Hp) in Hc. discriminate.
  - pose proof (contains_false_startswith _ _ Hc) as Hq.
    rewrite contains_unfold. destruct (startswith (String c s) n) eqn:Hp.
    + rewrite (startswith_app (String c s) t n Hp) in Hq. discriminate.
    + apply IH. rewrite contains_unfold, Hq in Hc. exact Hc.
Qed.

Lemma partition_absent (sep s : string) :
  contains sep s = false -> partition sep s = None.
Proof.
  induction s as [|c s IH]; intros Hc;
    pose proof (contains_false_startswith _ _ Hc) as Hq;
    rewrite partition_unfold, Hq; [reflexivity|].
  rewrite contains_unfold, Hq in Hc.
  rewrite (IH Hc). reflexivity.
Qed.

(** The first three characters of a non-empty [s] followed by two backticks
    are those of [s] followed by the fence. *)
Lemma startswith_fence_closing (s : string) :
  startswith (s +:+ "```") "```" = true ->
  s = "" \/ startswith (s +:+ "``") "```" = true.
Proof.
  destruct s as [|a [|b [|c s]]]; cbn; auto.
Qed.

Lemma partition_closing_fence (s : string) :
  contains "```" (s +:+ "``") = false ->
  partition "```" (s +:+ "```") = Some (s, "").
Proof.
  induction s as [|c s IH]; intros Hc.
  - reflexivity.
  - destruct (startswith (String c s +:+ "```") "```") eqn:Hp.
    + apply startswith_fence_closing in Hp. destruct Hp as [Hp|Hp]; [discriminate|].
      rewrite (contains_false_startswith _ _ Hc) in Hp. discriminate.
    + change (String c s +:+ "```") with (String c (s +:+ "```")) in *.
      change (String c s +:+ "``") with (String c (s +:+ "``")) in Hc.
      rewrite partition_unfold, Hp.
      pose proof (contains_false_startswith _ _ Hc) as Hq.
      rewrite contains_unfold, Hq in Hc.
      rewrite (IH Hc). reflexivity.
Qed.

(** A text followed by the fence starts with the tag only when the text
    itself does. *)
Lemma startswith_json_closing (s : string) :
  startswith (s +:+ "```") "json" = startswith s "json".
Proof.
  destruct s as [|a [|b [|c [|d s]]]]; cbn [startswith String.append];
    try reflexivity.
Qed.
End StringFacts.

Section RouterFacts.
Import Py Router.


Example supervisor_routes_to_organization :
  get_next_actor {| messages := [ {| content := "Which Company has most customers?";
                                     name := None |} ];
                    next := ""; current_actor := ""; shared_thread := "" |}
  = inr "organization_specialist".
Proof. reflexivity. Qed.

Example supervisor_alternates :
  get_next_actor {| messages := [ {| content := "Which Company has most customers?";
                                     name := Some "organization_specialist" |} ];
                    next := ""; current_actor := ""; shared_thread := "" |}
  = inr "customer_specialist"
  /\ get_next_actor {| messages := [ {| content := "42";
                                        name := Some "customer_specialist" |} ];
                       next := ""; current_actor := ""; shared_thread := "" |}
     = inr "organization_specialist".
Proof. split; reflexivity. Qed.

Example supervisor_finishes :
  get_next_actor {| messages := [ {| content := "Analysis Complete: 42 companies.";
                                     name := Some "customer_specialist" |} ];
                    next := ""; current_actor := ""; shared_thread := "" |}
  = inr "FINISH".
Proof. reflexivity. Qed.


End RouterFacts.

Section Cleaning.
Import Py Planner.

Lemma clean_unfenced (P : string) :
  contains fence P = false -> _clean_json_response P = strip P.
Proof.
  intros HP. unfold _clean_json_response. rewrite HP. reflexivity.
Qed.

Lemma clean_fenced_tagged (P : string) :
  contains fence (P +:+ "``") = false ->
  _clean_json_response ("```json" +:+ P +:+ "```") = strip P.
Proof.
  intros HP. unfold _clean_json_response, search_fenced.
  change (contains fence ("```json" +:+ P +:+ "```")) with true.
  change (partition fence ("```json" +:+ P +:+ "```"))
    with (Some (EmptyString, "json" +:+ P +:+ "```")).
  cbv iota beta zeta.
  change (startswith ("json" +:+ P +:+ "```") "json") with true.
  change (skip 4 ("json" +:+ P +:+ "```")) with (P +:+ "```").
  cbv iota beta. unfold fence. rewrite (partition_closing_fence P HP). reflexivity.
Qed.

Lemma clean_fenced_plain (P : string) :
  contains fence (P +:+ "``") = false ->
  startswith P "json" = false ->
  _clean_json_response ("```" +:+ P +:+ "```") = strip P.
Proof.
  intros HP Hj. unfold _clean_json_response, search_fenced.
  change (contains fence ("```" +:+ P +:+ "```")) with true.
  change (partition fence ("```" +:+ P +:+ "```"))
    with (Some (EmptyString, P +:+ "```")).
  cbv iota beta zeta. rewrite startswith_json_closing, Hj.
  unfold fence. rewrite (partition_closing_fence P HP). reflexivity.
Qed.

End Cleaning.

Section PlannerFacts.
Import Py Planner.
Context {DataType AnalysisType : Type}.
Context `{PyEnum DataType} `{PyEnum AnalysisType}.

Lemma first_supporting_cons_skip {C} (supports : C -> bool) n c items a :
  supports c = false ->
  first_supporting supports items a ->
  first_supporting supports ((n, c) :: items) a.
Proof.
  intros Hc (before & caps & after & -> & Hs & Hb).
  exists ((n, c) :: before), caps, after. repeat split; auto.
Qed.

Lemma first_supporting_not_none {C} (supports : C -> bool) items a :
  first_supporting supports items a -> none_supporting supports items -> False.
Proof.
  intros (before & caps & after & -> & Hs & _) Hn.
  apply Forall_app in Hn as [_ Hn]. apply Forall_cons in Hn as [Hn _].
  simpl in Hn. congruence.
Qed.

Lemma find_data_actor_spec (items : dict (ActorCapabilities DataType AnalysisType)) (d : DataType) :
  match find_data_actor items d with
  | Some a => first_supporting (supports_data d) items a
  | None => none_supporting (supports_data d) items
  end.
Proof.
  induction items as [|[n c] items IH]; simpl.
  - constructor.
  - destruct (mem d (supported_data_types c)) eqn:Hm.
    + exists [], c, items. repeat split; auto.
    + destruct (find_data_actor items d).
      * apply first_supporting_cons_skip; assumption.
      * constructor; assumption.
Qed.

Lemma find_analysis_actor_spec (items : dict (ActorCapabilities DataType AnalysisType)) (a : AnalysisType) :
  match find_analysis_actor items a with
  | Some n => first_supporting (supports_analysis a) items n
  | None => none_supporting (supports_analysis a) items
  end.
Proof.
  induction items as [|[n c] items IH]; simpl.
  - constructor.
  - destruct (mem a (supported_analyses c)) eqn:Hm.
    + exists [], c, items. repeat split; auto.
    + destruct (find_analysis_actor items a).
      * apply first_supporting_cons_skip; assumption.
      * constructor; assumption.
Qed.

Lemma mem_true {E} `{PyEnum E} (x : E) (xs : list E) : mem x xs = true <-> x ∈ xs.
Proof. unfold mem. apply bool_decide_eq_true. Qed.

Lemma set_add_elem {E} `{PyEnum E} (x y : E) (s : list E) :
  y ∈ set_add x s <-> y = x \/ y ∈ s.
Proof.
  unfold set_add. destruct (mem x s) eqn:Hm.
  - apply mem_true in Hm. split; [auto|]. intros [->|]; auto.
  - rewrite elem_of_app, list_elem_of_singleton. tauto.
Qed.

Lemma data_steps_spec (p : QueryPlanner DataType AnalysisType) (ds : list DataType) :
  forall acc h,
    match data_steps p ds acc h with
    | inr (steps, h') =>
        exists new, steps = acc ++ new
          /\ Forall2 (data_step_for p) ds new
          /\ (forall x, x ∈ h' <-> x ∈ h \/ x ∈ ds)
    | inl e =>
        exists d, d ∈ ds
          /\ none_supporting (supports_data d) (actor_capabilities p)
          /\ e = ValueError ("No actor found for data type: DataType."
                             +:+ member_name d)
    end.
Proof.
  induction ds as [|d ds IH]; intros acc h; simpl.
  - exists []. rewrite app_nil_r. split; [reflexivity|]. split; [constructor|].
    intros x. rewrite elem_of_nil. tauto.
  - unfold _find_best_actor_for_data.
    pose proof (find_data_actor_spec (actor_capabilities p) d) as Hf.
    destruct (find_data_actor (actor_capabilities p) d) as [a|].
    + match goal with |- context [data_steps p ds ?acc' ?h'] =>
        specialize (IH acc' h'); destruct (data_steps p ds acc' h') as [e|[steps h2]] end.
      * destruct IH as (d' & Hd' & Hn & He). exists d'.
        split; [right; exact Hd'|]. split; assumption.
      * destruct IH as (new & -> & Hall & Hh).
        eexists (_ :: new). rewrite <- app_assoc. split; [reflexivity|]. split.
        -- constructor; [|exact Hall]. repeat split; auto.
        -- intros x. rewrite Hh, set_add_elem, elem_of_cons. tauto.
    + exists d. split; [left|]. split; [exact Hf | reflexivity].
Qed.

Lemma analysis_steps_spec (p : QueryPlanner DataType AnalysisType) (h : list DataType)
    (ans : list AnalysisType) :
  forall acc,
    match analysis_steps p ans acc h with
    | inr steps =>
        exists new, steps = acc ++ new
          /\ length new = length ans
          /\ forall k a s, ans !! k = Some a -> new !! k = Some s ->
               analysis_step_for p h (acc ++ take k new) a s
    | inl e =>
        exists a, a ∈ ans
          /\ none_supporting (supports_analysis a) (actor_capabilities p)
          /\ e = ValueError ("No actor found for analysis: AnalysisType."
                             +:+ member_name a)
    end.
Proof.
  induction ans as [|a ans IH]; intros acc; simpl.
  - exists []. rewrite app_nil_r. split; [reflexivity|]. split; [reflexivity|].
    intros k a s Hk. rewrite lookup_nil in Hk. discriminate.
  - unfold _find_best_actor_for_analysis.
    pose proof (find_analysis_actor_spec (actor_capabilities p) a) as Hf.
    destruct (find_analysis_actor (actor_capabilities p) a) as [n|].
    + match goal with |- context [analysis_steps p ans ?acc' h] =>
        specialize (IH acc'); destruct (analysis_steps p ans acc' h) as [e|steps] end.
      * destruct IH as (a' & Ha' & Hn & He). exists a'.
        split; [right; exact Ha'|]. split; assumption.
      * destruct IH as (new & -> & Hlen & Hall).
        eexists (_ :: new). rewrite <- app_assoc. split; [reflexivity|]. split.
        -- simpl. congruence.
        -- intros [|k] a' s Ha' Hs; simpl in Ha', Hs.
           ++ inversion Ha'; inversion Hs; subst. rewrite take_0, app_nil_r.
              repeat split; auto.
           ++ specialize (Hall k a' s Ha' Hs).
              rewrite <- app_assoc in Hall. exact Hall.
    + exists a. split; [left|]. split; [exact Hf | reflexivity].
Qed.

Lemma create_steps_spec (p : QueryPlanner DataType AnalysisType)
    (ds : list DataType) (ans : list AnalysisType) :
  match _create_execution_steps p ds ans with
  | inr steps =>
      exists dsteps asteps h,
        steps = dsteps ++ asteps
        /\ Forall2 (data_step_for p) ds dsteps
        /\ (forall x, x ∈ h <-> x ∈ ds)
        /\ length asteps = length ans
        /\ forall k a s, ans !! k = Some a -> asteps !! k = Some s ->
             analysis_step_for p h (dsteps ++ take k asteps) a s
  | inl e =>
      (exists d, d ∈ ds
         /\ none_supporting (supports_data d) (actor_capabilities p)
         /\ e = ValueError ("No actor found for data type: DataType."
                            +:+ member_name d))
      \/ (exists a, a ∈ ans
            /\ none_supporting (supports_analysis a) (actor_capabilities p)
            /\ e = ValueError ("No actor found for analysis: AnalysisType."
                               +:+ member_name a))
  end.
Proof.
  unfold _create_execution_steps.
  pose proof (data_steps_spec p ds [] []) as Hd.
  destruct (data_steps p ds [] []) as [e|[dsteps h]].
  - left. exact Hd.
  - destruct Hd as (new & -> & Hall & Hh). simpl.
    pose proof (analysis_steps_spec p h ans new) as Ha.
    destruct (analysis_steps p ans new h) as [e|steps].
    + right. exact Ha.
    + destruct Ha as (asteps & -> & Hlen & Hk).
      exists new, asteps, h.
      split; [reflexivity|]. split; [exact Hall|].
      split; [|split; [exact Hlen | exact Hk]].
      intros x. rewrite Hh, elem_of_nil. tauto.
Qed.

(** Every step of the first loop uses a handled data type. *)
Lemma data_step_uses_handled (p : QueryPlanner DataType AnalysisType)
    (h ds : list DataType) (dsteps : list (ExecutionStep DataType)) :
  (forall x, x ∈ h <-> x ∈ ds) ->
  Forall2 (data_step_for p) ds dsteps ->
  Forall (fun s => uses_handled h s = true) dsteps.
Proof.
  intros Hh Hall. apply Forall_forall. intros s Hs.
  apply list_elem_of_lookup in Hs as [i Hi].
  destruct (Forall2_lookup_r _ _ _ _ _ Hall Hi) as (d & Hd & (_ & Hreq & _)).
  unfold uses_handled. apply existsb_exists. exists d. split.
  - apply list_elem_of_In, Hh. apply list_elem_of_lookup. eauto.
  - rewrite Hreq. apply mem_true. left.
Qed.

Lemma filter_all {X} (f : X -> bool) (l : list X) :
  Forall (fun x => f x = true) l -> List.filter f l = l.
Proof.
  induction 1 as [|x l Hx _ IH]; simpl; [reflexivity|].
  rewrite Hx, IH. reflexivity.
Qed.

Lemma filter_none {X} (f : X -> bool) (l : list X) :
  Forall (fun x => f x = false) l -> List.filter f l = [].
Proof.
  induction 1 as [|x l Hx _ IH]; simpl; [reflexivity|].
  rewrite Hx, IH. reflexivity.
Qed.

End PlannerFacts.

(** ** A deployment used in the examples *)

Section PlannerTheorems.
Import Py Planner.
Context {DataType AnalysisType : Type}.
Context `{PyEnum DataType} `{PyEnum AnalysisType}.

(** C4: when the steps are created, every required data type and every
    required analysis got the first registered actor, in registration order,
    that supports it, and no required type was unsupported; when they are not
    created, some required type has no supporting actor, and
    [create_execution_plan] returns that error and no plan. *)
Theorem planner_assigns_first_capable_actor
    (p : QueryPlanner DataType AnalysisType)
    (ds : list DataType) (ans : list AnalysisType) :
  let unsupported :=
    (exists d, d ∈ ds /\ none_supporting (supports_data d) (actor_capabilities p))
    \/ (exists a, a ∈ ans
                  /\ none_supporting (supports_analysis a) (actor_capabilities p)) in
  match _create_execution_steps p ds ans with
  | inr steps =>
      ~ unsupported
      /\ exists dsteps asteps,
          steps = dsteps ++ asteps
          /\ Forall2 (fun d s => first_supporting (supports_data d)
                                   (actor_capabilities p) (actor_name s)) ds dsteps
          /\ Forall2 (fun a s => first_supporting (supports_analysis a)
                                   (actor_capabilities p) (actor_name s)) ans asteps
  | inl e =>
      ((exists d, d ∈ ds
          /\ none_supporting (supports_data d) (actor_capabilities p)
          /\ e = ValueError ("No actor found for data type: DataType."
                             +:+ member_name d))
       \/ (exists a, a ∈ ans
             /\ none_supporting (supports_analysis a) (actor_capabilities p)
             /\ e = ValueError ("No actor found for analysis: AnalysisType."
                                +:+ member_name a)))
      /\ forall json_loads query now reply,
           _analyze_query_requirements json_loads reply = inr (ds, ans) ->
           create_execution_plan json_loads p query now reply = inl e
  end.
Proof.
  intros unsupported.
  pose proof (create_steps_spec p ds ans) as Hspec.
  destruct (_create_execution_steps p ds ans) as [e|steps] eqn:Hsteps.
  - split; [exact Hspec|].
    intros json_loads query now reply Hreq.
    unfold create_execution_plan. rewrite Hreq, Hsteps. reflexivity.
  - destruct Hspec as (dsteps & asteps & h & -> & Hd & _ & Hlen & Hk).
    assert (Hds : Forall2 (fun d s => first_supporting (supports_data d)
                             (actor_capabilities p) (actor_name s)) ds dsteps).
    { eapply Forall2_impl; [exact Hd|]. intros d s (Hf & _). exact Hf. }
    assert (Has : Forall2 (fun a s => first_supporting (supports_analysis a)
                             (actor_capabilities p) (actor_name s)) ans asteps).
    { apply Forall2_same_length_lookup_2.
      - apply Forall2_same_length, Forall2_true; [done|]. symmetry. exact Hlen.
      - intros k a s Ha Hs. destruct (Hk k a s Ha Hs) as (Hf & _). exact Hf. }
    split; [|exists dsteps, asteps; auto].
    intros [(d & Hin & Hnone)|(a & Hin & Hnone)].
    + apply list_elem_of_lookup in Hin as [i Hi].
      destruct (Forall2_lookup_l _ _ _ _ _ Hds Hi) as (s & _ & Hf).
      exact (first_supporting_not_none _ _ _ Hf Hnone).
    + apply list_elem_of_lookup in Hin as [i Hi].
      destruct (Forall2_lookup_l _ _ _ _ _ Has Hi) as (s & _ & Hf).
      exact (first_supporting_not_none _ _ _ Hf Hnone).
Qed.

Lemma uses_handled_nil (s : ExecutionStep DataType) : uses_handled [] s = false.
Proof. reflexivity. Qed.

Lemma take_steps_split (dsteps asteps : list (ExecutionStep DataType)) (k : nat) :
  take (length dsteps + k) (dsteps ++ asteps) = dsteps ++ take k asteps.
Proof. apply take_app_add'. reflexivity. Qed.

(** The dependencies of the [k]-th analysis step, read off the finished
    list of steps. *)
Lemma analysis_step_dependencies (p : QueryPlanner DataType AnalysisType)
    (ds : list DataType) (ans : list AnalysisType)
    (steps : list (ExecutionStep DataType)) :
  _create_execution_steps p ds ans = inr steps ->
  exists h,
    (forall x, x ∈ h <-> x ∈ ds)
    /\ length steps = length ds + length ans
    /\ (forall i s, i < length ds -> steps !! i = Some s ->
          depends_on s = [] /\ uses_handled h s = true)
    /\ (forall k s, steps !! (length ds + k) = Some s ->
          required_data s = h
          /\ depends_on s
             = map actor_name
                 (List.filter (uses_handled h) (take (length ds + k) steps))).
Proof.
  intros Hsteps. pose proof (create_steps_spec p ds ans) as Hspec.
  rewrite Hsteps in Hspec.
  destruct Hspec as (dsteps & asteps & h & -> & Hd & Hh & Hlen & Hk).
  pose proof (Forall2_length _ _ _ Hd) as Hdl.
  exists h. split; [exact Hh|]. split; [rewrite length_app; lia|]. split.
  - intros i s Hi Hs. rewrite lookup_app_l in Hs by lia.
    destruct (Forall2_lookup_r _ _ _ _ _ Hd Hs) as (d & _ & (_ & _ & Hdep)).
    split; [exact Hdep|].
    pose proof (data_step_uses_handled p h ds dsteps Hh Hd) as Hall.
    rewrite Forall_forall in Hall. apply Hall.
    apply list_elem_of_lookup. eauto.
  - intros k s Hs. rewrite Hdl in *.
    rewrite lookup_app_r in Hs by lia.
    replace (length dsteps + k - length dsteps) with k in Hs by lia.
    assert (Hlt : k < length ans).
    { rewrite <- Hlen. apply lookup_lt_Some in Hs. exact Hs. }
    destruct (lookup_lt_is_Some_2 ans k Hlt) as [a Ha].
    destruct (Hk k a s Ha Hs) as (_ & Hreq & Hdep).
    rewrite take_steps_split. auto.
Qed.

(** C5, as amended: the dependencies of an analysis step are the actors of
    all the steps before it, data steps and earlier analysis steps alike,
    when at least one data type is required, and none otherwise; for the
    first analysis step these are the actors of the data steps. *)
Theorem analysis_step_depends_on_all_earlier_steps
    (p : QueryPlanner DataType AnalysisType)
    (ds : list DataType) (ans : list AnalysisType)
    (steps : list (ExecutionStep DataType)) :
  _create_execution_steps p ds ans = inr steps ->
  forall k s, steps !! (length ds + k) = Some s ->
    depends_on s = match ds with
                   | [] => []
                   | _ :: _ => map actor_name (take (length ds + k) steps)
                   end
    /\ (k = 0 -> depends_on s = map actor_name (take (length ds) steps)).
Proof.
  intros Hsteps k s Hs.
  destruct (analysis_step_dependencies p ds ans steps Hsteps)
    as (h & Hh & Hlen & Hdata & Han).
  assert (Hmain : depends_on s = match ds with
                   | [] => []
                   | _ :: _ => map actor_name (take (length ds + k) steps)
                   end).
  { destruct (Han k s Hs) as (_ & ->).
    destruct ds as [|d ds'].
    - assert (h = []) as ->.
      { destruct h as [|x h']; [reflexivity|].
        exfalso. apply (elem_of_nil x), Hh. left. }
      rewrite filter_none; [reflexivity|].
      apply Forall_forall. intros; apply uses_handled_nil.
    - rewrite filter_all; [reflexivity|].
      apply Forall_forall. intros s' Hs'.
      apply list_elem_of_lookup in Hs' as [i Hi].
      apply lookup_take_Some in Hi as [Hi Hlt].
      destruct (decide (i < length (d :: ds'))) as [Hd|Hd].
      + exact (proj2 (Hdata i s' Hd Hi)).
      + replace i with (length (d :: ds') + (i - length (d :: ds'))) in Hi by lia.
        destruct (Han _ s' Hi) as (Hreq & _).
        unfold uses_handled. apply existsb_exists. exists d. split.
        * apply list_elem_of_In, Hh. left.
        * rewrite Hreq. apply mem_true, Hh. left. }
  split; [exact Hmain|].
  intros ->. rewrite Hmain. rewrite Nat.add_0_r.
  destruct ds; [reflexivity | reflexivity].
Qed.

(** C6: in a plan the planner returns, every name in a step's [depends_on]
    is the actor name of a step strictly earlier in the list. *)
Theorem depends_on_names_earlier_steps
    (json_loads : string -> string + json)
    (p : QueryPlanner DataType AnalysisType)
    (query : string) (now : Z) (reply : string)
    (plan : ExecutionPlan DataType) :
  create_execution_plan json_loads p query now reply = inr plan ->
  forall i s a,
    steps plan !! i = Some s ->
    a ∈ depends_on s ->
    exists j s', j < i /\ steps plan !! j = Some s' /\ actor_name s' = a.
Proof.
  unfold create_execution_plan. intros Hplan i s a Hs Ha.
  destruct (_analyze_query_requirements json_loads reply) as [e|[ds ans]];
    [discriminate|].
  destruct (_create_execution_steps p ds ans) as [e|sts] eqn:Hsteps;
    [discriminate|].
  inversion Hplan; subst plan; clear Hplan. cbn [steps] in Hs.
  destruct (analysis_step_dependencies p ds ans sts Hsteps)
    as (h & _ & _ & Hdata & Han).
  destruct (decide (i < length ds)) as [Hi|Hi].
  - destruct (Hdata i s Hi Hs) as [Hnil _]. rewrite Hnil in Ha.
    apply elem_of_nil in Ha. contradiction.
  - replace i with (length ds + (i - length ds)) in Hs by lia.
    destruct (Han _ s Hs) as (_ & Hdep).
    replace (length ds + (i - length ds)) with i in Hdep by lia.
    rewrite Hdep in Ha. apply list_elem_of_fmap in Ha as (s' & -> & Hin).
    apply list_elem_of_In, filter_In in Hin as [Hin _].
    apply list_elem_of_In, list_elem_of_lookup in Hin as [j Hj].
    apply lookup_take_Some in Hj as [Hj Hlt].
    exists j, s'. auto.
Qed.

Lemma same_cleaning_read_alike (json_loads : string -> string + json)
    (p : QueryPlanner DataType AnalysisType) (reply1 reply2 : string) :
  _clean_json_response reply1 = _clean_json_response reply2 ->
  read_alike json_loads p reply1 reply2.
Proof.
  intros Hc. unfold read_alike, create_execution_plan, _analyze_query_requirements.
  rewrite Hc. auto.
Qed.

(** C9, as amended: for a payload that holds no fence, and whose end does
    not complete one with the closing fence, the reply fenced with the
    [json] tag is cleaned to the same text as the bare payload and so gives
    the same classification and the same plan; so does the reply fenced
    without the tag when the payload does not begin with [json]. *)
Theorem fenced_reply_read_as_unfenced
    (json_loads : string -> string + json)
    (p : QueryPlanner DataType AnalysisType) (P : string) :
  fence_free P ->
  read_alike json_loads p ("```json" +:+ P +:+ "```") P
  /\ (startswith P "json" = false ->
      read_alike json_loads p ("```" +:+ P +:+ "```") P).
Proof.
  intros HP. pose proof (contains_app_false _ _ _ HP) as Hno.
  split; [|intros Hj]; apply same_cleaning_read_alike;
    rewrite (clean_unfenced P Hno).
  - apply clean_fenced_tagged. exact HP.
  - apply clean_fenced_plain; assumption.
Qed.

End PlannerTheorems.

Section PlannerExamples.
Import Py Planner Demo.

(** The scenario of the specification: three steps, the analysis depending
    on both data actors. *)
Example plan_of_the_scenario :
  sum_map id (fun plan => (map actor_name (steps plan), map depends_on (steps plan)))
    (create_execution_plan json_loads planner "top 3 countries" 0
       ("```json" +:+ payload +:+ "```"))
  = inr (["customer"; "organization"; "organization"],
         [[]; []; ["customer"; "organization"]]).
Proof. vm_compute. reflexivity. Qed.

(** C5, counterexample: with one data type and two analyses, the second
    analysis step also depends on the actor of the first analysis step,
    which is no data step. *)
Lemma later_analysis_step_depends_on_analysis_actor :
  exists steps s,
    _create_execution_steps planner [CUSTOMER] [GEOGRAPHIC; STATISTICAL] = inr steps
    /\ steps !! (length [CUSTOMER] + 1) = Some s
    /\ map actor_name (take (length [CUSTOMER]) steps) = ["customer"]
    /\ depends_on s = ["customer"; "organization"]
    /\ depends_on s <> map actor_name (take (length [CUSTOMER]) steps).
Proof.
  eexists _, _. split; [vm_compute; reflexivity|].
  split; [reflexivity|]. split; [reflexivity|]. split; [reflexivity|].
  discriminate.
Qed.

Lemma analysis_step_depends_on_all_earlier_steps_witness :
  exists steps s,
    _create_execution_steps planner [CUSTOMER] [GEOGRAPHIC; STATISTICAL] = inr steps
    /\ steps !! 2 = Some s
    /\ depends_on s = map actor_name (take 2 steps).
Proof.
  eexists _, _. split; [vm_compute; reflexivity|]. split; [reflexivity|].
  exact (proj1 (analysis_step_depends_on_all_earlier_steps planner
                  [CUSTOMER] [GEOGRAPHIC; STATISTICAL] _ eq_refl 1 _ eq_refl)).
Defined.

Lemma depends_on_names_earlier_steps_witness :
  exists plan s,
    create_execution_plan json_loads planner "top 3 countries" 0 payload = inr plan
    /\ steps plan !! 2 = Some s
    /\ exists j s', j < 2 /\ steps plan !! j = Some s' /\ actor_name s' = "customer".
Proof.
  eexists _, _. split; [vm_compute; reflexivity|]. split; [reflexivity|].
  refine (@depends_on_names_earlier_steps _ _ DataType_enum AnalysisType_enum
            json_loads planner "top 3 countries" 0
            payload _ ltac:(vm_compute; reflexivity) 2 _ "customer"
            ltac:(reflexivity) _).
  left.
Defined.

Lemma fenced_reply_read_as_unfenced_witness :
  fence_free payload
  /\ read_alike json_loads planner ("```json" +:+ payload +:+ "```") payload
  /\ read_alike json_loads planner ("```" +:+ payload +:+ "```") payload.
Proof.
  assert (Hfree : fence_free payload) by reflexivity.
  split; [exact Hfree|].
  destruct (fenced_reply_read_as_unfenced json_loads planner payload Hfree)
    as [Htag Hplain].
  split; [exact Htag | apply Hplain; reflexivity].
Defined.

(** C9, counterexample: a payload that passes the validation and holds a
    fence in an extra field. Bare, it is left as it is and read as the empty
    classification; fenced, it is cut at the inner fence, and a [json.loads]
    that rejects the cut text makes the analysis fail. *)
Lemma fence_inside_payload_cuts_the_reply :
  exists cut : string,
    _clean_json_response ("```json" +:+ noted_payload +:+ "```") = cut
    /\ _clean_json_response noted_payload = noted_payload
    /\ cut <> noted_payload
    /\ forall (loads : string -> string + json) (msg : string),
         loads noted_payload = inr noted_object ->
         loads cut = inl msg ->
         _analyze_query_requirements (DataType := DataType)
           (AnalysisType := AnalysisType) loads noted_payload
         = inr ([], [])
         /\ _analyze_query_requirements (DataType := DataType)
              (AnalysisType := AnalysisType) loads
              ("```json" +:+ noted_payload +:+ "```")
            = inl (ValueError ("Failed to parse LLM response: " +:+ msg)).
Proof.
  eexists. split; [vm_compute; reflexivity|].
  split; [vm_compute; reflexivity|]. split; [discriminate|].
  intros loads msg Hbare Hcut. unfold _analyze_query_requirements.
  change (_clean_json_response noted_payload) with noted_payload.
  rewrite Hbare. split; [reflexivity|].
  match goal with
  | |- context [loads ?text] =>
      let text' := eval vm_compute in text in change text with text'
  end.
  rewrite Hcut. reflexivity.
Qed.

End PlannerExamples.

Section MonadFacts.
Import Backend.
Context {S : Type} (R : S -> S -> Prop) `{!PreOrder R}.

Lemma respects_ret {A} (a : A) : respects R (ret a).
Proof. intros s r s' Hrun. inversion Hrun. reflexivity. Qed.

Lemma respects_raise {A} (e : Py.exn) : respects R (raise (A := A) e).
Proof. intros s r s' Hrun. inversion Hrun. reflexivity. Qed.

Lemma respects_get : respects R get.
Proof. intros s r s' Hrun. inversion Hrun. reflexivity. Qed.

Lemma respects_bind {A B} (m : M S A) (k : A -> M S B) :
  respects R m -> (forall a, respects R (k a)) -> respects R (bind m k).
Proof.
  intros Hm Hk s r s' Hrun. unfold bind in Hrun.
  destruct (m s) as [[a|e|] s1] eqn:Hms.
  - transitivity s1; [exact (Hm _ _ _ Hms) | exact (Hk a _ _ _ Hrun)].
  - inversion Hrun; subst. exact (Hm _ _ _ Hms).
  - inversion Hrun; subst. exact (Hm _ _ _ Hms).
Qed.

Lemma respects_try_except {A} (m : M S A) (h : Py.exn -> M S A) :
  respects R m -> (forall e, respects R (h e)) -> respects R (try_except m h).
Proof.
  intros Hm Hh s r s' Hrun. unfold try_except in Hrun.
  destruct (m s) as [[a|e|] s1] eqn:Hms.
  - inversion Hrun; subst. exact (Hm _ _ _ Hms).
  - transitivity s1; [exact (Hm _ _ _ Hms) | exact (Hh e _ _ _ Hrun)].
  - inversion Hrun; subst. exact (Hm _ _ _ Hms).
Qed.

Lemma respects_modify (f : S -> S) :
  (forall s, R s (f s)) -> respects R (modify f).
Proof. intros Hf s r s' Hrun. inversion Hrun. apply Hf. Qed.

Lemma respects_if {A} (b : bool) (m1 m2 : M S A) :
  respects R m1 -> respects R m2 -> respects R (if b then m1 else m2).
Proof. destruct b; auto. Qed.

End MonadFacts.

Section WorldFacts.
Import Py Backend.

#[export] Instance calls_pass_preorder (P : Call -> bool) : PreOrder (calls_pass P).
Proof.
  split.
  - intros w. exists []. split; [unfold adds_calls; rewrite app_nil_r; reflexivity | reflexivity].
  - intros w1 w2 w3 (c1 & H1 & Hp1) (c2 & H2 & Hp2).
    exists (c1 ++ c2). split.
    + unfold adds_calls in *. rewrite H2, H1, app_assoc. reflexivity.
    + rewrite forallb_app, Hp1, Hp2. reflexivity.
Qed.

Lemma calls_pass_one (P : Call -> bool) (c : Call) (w : World) :
  P c = true -> calls_pass P w (record c w).
Proof.
  intros Hc. exists [c]. split; [reflexivity|]. simpl. rewrite Hc. reflexivity.
Qed.

Lemma create_calls (P : Call -> bool) (c : Call) :
  P c = true -> respects (calls_pass P) (create c).
Proof.
  intros Hc w r w' Hrun. inversion Hrun; subst.
  exists [c]. split; [reflexivity|]. simpl. rewrite Hc. reflexivity.
Qed.

Lemma files_create_calls (P : Call -> bool) (path : string) :
  P (FilesCreate path) = true -> respects (calls_pass P) (files_create path).
Proof.
  intros Hc w r w' Hrun. unfold files_create in Hrun.
  destruct (existsb (String.eqb path) (unreadable w)).
  - inversion Hrun; subst. reflexivity.
  - exact (create_calls P _ Hc _ _ _ Hrun).
Qed.

Lemma messages_create_calls (P : Call -> bool) (thread_id content : string) :
  P (MessagesCreate thread_id content) = true ->
  respects (calls_pass P) (messages_create thread_id content).
Proof.
  intros Hc w r w' Hrun. inversion Hrun; subst. apply calls_pass_one, Hc.
Qed.

Lemma runs_retrieve_calls (P : Call -> bool) (thread_id run_id : string) :
  P (RunsRetrieve thread_id run_id) = true ->
  respects (calls_pass P) (runs_retrieve thread_id run_id).
Proof.
  intros Hc w r w' Hrun. unfold runs_retrieve in Hrun.
  destruct (polls w) as [|[status|e] rest].
  - inversion Hrun; subst. reflexivity.
  - inversion Hrun; subst. exists [RunsRetrieve thread_id run_id].
    split; [reflexivity|]. simpl. rewrite Hc. reflexivity.
  - inversion Hrun; subst. exists [RunsRetrieve thread_id run_id].
    split; [reflexivity|]. simpl. rewrite Hc. reflexivity.
Qed.

Lemma messages_list_calls (P : Call -> bool) (thread_id : string) :
  P (MessagesList thread_id) = true ->
  respects (calls_pass P) (messages_list thread_id).
Proof.
  intros Hc w r w' Hrun. unfold messages_list in Hrun.
  destruct (inboxes w) as [|data rest].
  - inversion Hrun; subst. reflexivity.
  - inversion Hrun; subst. exists [MessagesList thread_id].
    split; [reflexivity|]. simpl. rewrite Hc. reflexivity.
Qed.

Lemma chat_completions_create_calls (P : Call -> bool) (sp up : string) :
  P (ChatCompletionsCreate sp up) = true ->
  respects (calls_pass P) (chat_completions_create sp up).
Proof.
  intros Hc w r w' Hrun. unfold chat_completions_create in Hrun.
  destruct (completions w) as [|text rest].
  - inversion Hrun; subst. reflexivity.
  - inversion Hrun; subst. exists [ChatCompletionsCreate sp up].
    split; [reflexivity|]. simpl. rewrite Hc. reflexivity.
Qed.

End WorldFacts.

Section CleanupFacts.
Import Py Backend Agent.

Lemma adds_calls_refl (w : World) : adds_calls w w [].
Proof. unfold adds_calls. rewrite app_nil_r. reflexivity. Qed.

Lemma adds_calls_trans (w1 w2 w3 : World) (c1 c2 : list Call) :
  adds_calls w1 w2 c1 -> adds_calls w2 w3 c2 -> adds_calls w1 w3 (c1 ++ c2).
Proof. unfold adds_calls. intros H1 H2. rewrite H2, H1, app_assoc. reflexivity. Qed.

(** Deleting the files [file_ids]: every deletion is attempted, in order,
    whatever fails. *)
Lemma delete_all_attempts_each (file_ids : list string) (w : World) :
  exists w', delete_all file_ids w = (Return tt, w')
             /\ adds_calls w w' (map FilesDelete file_ids).
Proof.
  revert w. induction file_ids as [|file_id rest IH]; intros w.
  - exists w. split; [reflexivity | apply adds_calls_refl].
  - cbn [delete_all]. unfold bind at 1, try_except, files_delete.
    destruct (IH (record (FilesDelete file_id) w)) as (w' & Hrun & Hcalls).
    exists w'. split.
    + destruct (existsb (String.eqb file_id) (undeletable w)); exact Hrun.
    + exact (adds_calls_trans w (record (FilesDelete file_id) w) w'
               [FilesDelete file_id] (map FilesDelete rest) eq_refl Hcalls).
Qed.

(** C3: [cleanup] returns, has attempted one deletion per file id of the
    mapping, in order, whichever of them fail, and leaves the mapping empty
    and the assistant id as it was. *)
Theorem cleanup_attempts_every_delete
    (a : CodeInterpreterAgent) (w : World) :
  exists a' w',
    cleanup (a, w) = (Return tt, (a', w'))
    /\ file_mapping a' = []
    /\ assistant_id a' = assistant_id a
    /\ adds_calls w w' (map FilesDelete (dict_keys (file_mapping a)))
    /\ length (map FilesDelete (dict_keys (file_mapping a))) = length (file_mapping a).
Proof.
  destruct (delete_all_attempts_each (dict_keys (file_mapping a)) w)
    as (w' & Hrun & Hcalls).
  eexists _, w'. split; [|split; [|split; [|split]]].
  - unfold cleanup, bind, self, on_world, set_file_mapping, modify. simpl.
    rewrite Hrun. reflexivity.
  - reflexivity.
  - reflexivity.
  - exact Hcalls.
  - unfold dict_keys. rewrite !length_map. reflexivity.
Qed.

End CleanupFacts.

Ltac preorder := try typeclasses eauto.

Ltac respects_chain :=
  repeat first
    [ apply respects_ret; preorder
    | apply respects_raise; preorder
    | apply respects_get; preorder
    | apply respects_bind; preorder; [|intros ?]
    | apply respects_if ].

Section AgentFacts.
Import Py Backend Agent.

#[export] Instance world_calls_preorder (P : Call -> bool) : PreOrder (world_calls P).
Proof.
  split.
  - intros s. unfold world_calls. reflexivity.
  - intros s1 s2 s3 H1 H2. unfold world_calls in *. etransitivity; eassumption.
Qed.

#[export] Instance same_agent_preorder (P : Call -> bool) : PreOrder (same_agent P).
Proof.
  split.
  - intros s. split; reflexivity.
  - intros s1 s2 s3 [Ha1 H1] [Ha2 H2]. split; [congruence|].
    etransitivity; eassumption.
Qed.

Lemma self_respects (R : St -> St -> Prop) `{!PreOrder R} : respects R self.
Proof. intros s r s' Hrun. inversion Hrun. reflexivity. Qed.

Lemma on_world_calls {A} (P : Call -> bool) (m : M World A) :
  respects (calls_pass P) m -> respects (same_agent P) (on_world m).
Proof.
  intros Hm [a w] r s' Hrun. unfold on_world in Hrun. simpl in Hrun.
  destruct (m w) as [r1 w1] eqn:Hmw. inversion Hrun; subst.
  split; [reflexivity|]. exact (Hm _ _ _ Hmw).
Qed.

Lemma same_agent_world_calls {A} (P : Call -> bool) (m : M St A) :
  respects (same_agent P) m -> respects (world_calls P) m.
Proof. intros Hm s r s' Hrun. exact (proj2 (Hm _ _ _ Hrun)). Qed.

Lemma set_file_mapping_calls (P : Call -> bool) (fm : dict FileInfo) :
  respects (world_calls P) (set_file_mapping fm).
Proof. apply respects_modify; preorder. intros s. unfold world_calls. reflexivity. Qed.

Lemma set_assistant_id_calls (P : Call -> bool) (id : option string) :
  respects (world_calls P) (set_assistant_id id).
Proof. apply respects_modify; preorder. intros s. unfold world_calls. reflexivity. Qed.

(** [initialize] only uploads files and creates the assistant. *)
Lemma upload_all_calls (P : Call -> bool) (paths file_ids : list string) :
  (forall c, initializing c = true -> P c = true) ->
  respects (world_calls P) (upload_all paths file_ids).
Proof.
  intros HP. revert file_ids.
  induction paths as [|path rest IH]; intros file_ids; cbn [upload_all].
  - apply respects_ret; preorder.
  - apply respects_bind; preorder; [|intros file_id; apply IH].
    unfold _upload_file. respects_chain.
    + apply same_agent_world_calls, on_world_calls, files_create_calls, HP.
      reflexivity.
    + apply self_respects; preorder.
    + apply set_file_mapping_calls.
Qed.

Lemma initialize_calls (P : Call -> bool) (v : version) :
  (forall c, initializing c = true -> P c = true) ->
  respects (world_calls P) (initialize v).
Proof.
  intros HP. unfold initialize. respects_chain.
  - apply self_respects; preorder.
  - apply upload_all_calls, HP.
  - apply self_respects; preorder.
  - apply same_agent_world_calls, on_world_calls.
    destruct v; apply create_calls, HP; reflexivity.
  - apply set_assistant_id_calls.
Qed.

(** The polling loops only retrieve the run. *)
Lemma poll_v2_calls (P : Call -> bool) (thread_id run_id : string) (fuel : nat) :
  P (RunsRetrieve thread_id run_id) = true ->
  respects (calls_pass P) (poll_v2 fuel thread_id run_id).
Proof.
  intros HP. induction fuel as [|fuel IH]; cbn [poll_v2].
  - intros w r w' Hrun. inversion Hrun. reflexivity.
  - apply respects_bind; preorder; [apply runs_retrieve_calls, HP|intros status].
    respects_chain. exact IH.
Qed.

Lemma try_body_v1_calls (P : Call -> bool) (thread_id run_id : string)
    (max_retries retries : Z) :
  P (RunsRetrieve thread_id run_id) = true ->
  respects (calls_pass P) (try_body_v1 thread_id run_id max_retries retries).
Proof.
  intros HP. unfold try_body_v1.
  apply respects_bind; preorder; [apply runs_retrieve_calls, HP|intros status].
  respects_chain.
Qed.

Lemma poll_v1_calls (P : Call -> bool) (thread_id run_id : string)
    (max_retries : Z) (fuel : nat) :
  P (RunsRetrieve thread_id run_id) = true ->
  forall retries,
    respects (calls_pass P) (poll_v1 fuel thread_id run_id max_retries retries).
Proof.
  intros HP. induction fuel as [|fuel IH]; intros retries w r w' Hrun;
    cbn [poll_v1] in Hrun.
  - inversion Hrun. reflexivity.
  - pose proof (try_body_v1_calls P thread_id run_id max_retries retries HP w) as Hbody.
    destruct (try_body_v1 thread_id run_id max_retries retries w)
      as [[[|]|e|] w1].
    + inversion Hrun; subst. exact (Hbody _ _ eq_refl).
    + transitivity w1; [exact (Hbody _ _ eq_refl) | exact (IH _ _ _ _ Hrun)].
    + destruct (retries + 1 =? max_retries)%Z.
      * inversion Hrun; subst. exact (Hbody _ _ eq_refl).
      * transitivity w1; [exact (Hbody _ _ eq_refl) | exact (IH _ _ _ _ Hrun)].
    + inversion Hrun; subst. exact (Hbody _ _ eq_refl).
Qed.

Lemma wait_calls (P : Call -> bool) (v : version) (thread_id run_id : string)
    (max_retries : Z) :
  P (RunsRetrieve thread_id run_id) = true ->
  respects (calls_pass P)
    (match v with
     | V1 => wait_v1 thread_id run_id max_retries
     | V2 => wait_v2 thread_id run_id
     end).
Proof.
  intros HP w r w' Hrun. destruct v.
  - exact (poll_v1_calls P _ _ _ _ HP _ _ _ _ Hrun).
  - exact (poll_v2_calls P _ _ _ HP _ _ _ Hrun).
Qed.

(** The part of [run_analysis] that follows the choice of the thread. *)
Lemma run_on_thread_calls (P : Call -> bool) (v : version) (query thread_id : string)
    (max_retries : Z) :
  (forall c, on_thread thread_id c = true -> initializing c = false -> P c = true) ->
  respects (same_agent P)
    (on_world (messages_create thread_id query) ;;;
     a <- self ;;
     run_id <- on_world (runs_create thread_id (assistant_id a)) ;;
     on_world (match v with
               | V1 => wait_v1 thread_id run_id max_retries
               | V2 => wait_v2 thread_id run_id
               end) ;;;
     messages <- on_world (messages_list thread_id) ;;
     ret (match v with
          | V1 => extract_v1 messages thread_id run_id
          | V2 => extract_v2 messages thread_id run_id
          end)).
Proof.
  intros HP.
  assert (Hcall : forall c, on_thread thread_id c = true -> initializing c = false ->
                            P c = true) by exact HP.
  respects_chain.
  - apply on_world_calls, messages_create_calls, HP; [|reflexivity].
    simpl. apply String.eqb_refl.
  - apply self_respects; preorder.
  - apply on_world_calls, create_calls, HP; [|reflexivity].
    simpl. apply String.eqb_refl.
  - apply on_world_calls, wait_calls, HP; [|reflexivity].
    simpl. apply String.eqb_refl.
  - apply on_world_calls, messages_list_calls, HP; [|reflexivity].
    simpl. apply String.eqb_refl.
Qed.

Lemma run_analysis_v1_chain (query : string) (additional_files : option (list string))
    (thread_id : option string) (max_retries retry_delay : Z) :
  run_analysis_v1 query additional_files thread_id max_retries retry_delay
  = run_chain V1 max_retries query thread_id.
Proof. reflexivity. Qed.

Lemma run_analysis_v2_chain (query : string) (thread_id : option string) :
  run_analysis_v2 query thread_id = run_chain V2 0 query thread_id.
Proof. reflexivity. Qed.

Lemma run_analysis_chain (v : version) (query : string) (thread_id : option string) :
  run_analysis v query thread_id = run_chain v 3 query thread_id.
Proof. destruct v; reflexivity. Qed.

(** A run on a given thread creates no thread and addresses no other. *)
Lemma run_chain_on_thread (v : version) (max_retries : Z) (query t : string) :
  t <> EmptyString ->
  respects (world_calls (on_thread t)) (run_chain v max_retries query (Some t)).
Proof.
  intros Ht. unfold run_chain.
  assert (Htruthy : truthy (Some t) = true)
    by (destruct t; [contradiction | reflexivity]).
  rewrite Htruthy. cbn [default].
  apply respects_bind; preorder; [apply self_respects; preorder|intros a].
  apply respects_bind; preorder; [|intros []].
  { apply respects_if; [apply respects_ret; preorder|].
    apply initialize_calls. intros [] Hc; try discriminate; reflexivity. }
  change (respects (world_calls (on_thread t))
            (on_world (messages_create t query) ;;;
             a <- self ;;
             run_id <- on_world (runs_create t (assistant_id a)) ;;
             on_world (match v with
                       | V1 => wait_v1 t run_id max_retries
                       | V2 => wait_v2 t run_id
                       end) ;;;
             messages <- on_world (messages_list t) ;;
             ret (match v with
                  | V1 => extract_v1 messages t run_id
                  | V2 => extract_v2 messages t run_id
                  end))).
  apply same_agent_world_calls, run_on_thread_calls. auto.
Qed.

(** A run of an agent whose assistant exists leaves the agent as it is and
    makes no call of the initialization. *)
Lemma run_chain_initialized (v : version) (max_retries : Z) (query : string)
    (thread_id : option string) (a : CodeInterpreterAgent) (w : World)
    (r : outcome AnalysisResult) (s' : St) :
  truthy (assistant_id a) = true ->
  run_chain v max_retries query thread_id (a, w) = (r, s') ->
  same_agent not_initializing (a, w) s'.
Proof.
  intros Hinit Hrun. unfold run_chain in Hrun.
  unfold bind at 1, self in Hrun. cbn [fst] in Hrun. rewrite Hinit in Hrun.
  unfold bind at 1, ret at 1 in Hrun.
  revert Hrun. apply respects_bind; preorder.
  - apply respects_if; [apply respects_ret; preorder|].
    apply on_world_calls, create_calls. reflexivity.
  - intros t. apply run_on_thread_calls.
    intros c _ Hc. unfold not_initializing. rewrite Hc. reflexivity.
Qed.

(** Version 2 waits through pending statuses and stops at the first terminal
    one. *)
Lemma poll_v2_terminal (thread_id run_id : string) (pre : list string)
    (s : string) (post : list Poll) :
  forallb pending pre = true ->
  terminal s = true ->
  forall fuel w,
    polls w = map Status pre ++ Status s :: post ->
    length pre < fuel ->
    exists w',
      poll_v2 fuel thread_id run_id w
      = (if String.eqb s "completed" then Return tt
         else Raise (Exception ("Run failed with status: " +:+ s)), w')
      /\ inboxes w' = inboxes w.
Proof.
  intros Hpre Hs. induction pre as [|p pre IH]; intros fuel w Hpolls Hfuel.
  - destruct fuel as [|fuel]; [simpl in Hfuel; lia|].
    cbn [poll_v2]. unfold bind, runs_retrieve. rewrite Hpolls. cbn [map app].
    unfold terminal in Hs.
    destruct (String.eqb s "completed").
    + eexists. split; reflexivity.
    + cbn [orb] in Hs. rewrite Hs. eexists. split; reflexivity.
  - destruct fuel as [|fuel]; [simpl in Hfuel; lia|].
    cbn [forallb] in Hpre. apply andb_true_iff in Hpre as [Hp Hpre].
    cbn [poll_v2]. unfold bind, runs_retrieve. rewrite Hpolls. cbn [map app].
    unfold pending, terminal in Hp. apply negb_true_iff, orb_false_iff in Hp as [Hp1 Hp2].
    rewrite Hp1, Hp2.
    edestruct (IH Hpre fuel) as (w' & Hrun & Hin);
      [| |exists w'; split; [exact Hrun | exact Hin]].
    + reflexivity.
    + simpl in Hfuel. lia.
Qed.

(** Version 2 does what the specification says of a run, for an agent whose
    assistant exists: the text of the answer when the run completes, the
    run failure when it fails. *)
Lemma run_analysis_v2_terminal (query : string) (thread_id : option string)
    (a : CodeInterpreterAgent) (w : World)
    (pre : list string) (s : string) (post : list Poll)
    (data : list ThreadMessage) (rest : list (list ThreadMessage)) :
  truthy (assistant_id a) = true ->
  polls w = map Status pre ++ Status s :: post ->
  forallb pending pre = true ->
  terminal s = true ->
  inboxes w = data :: rest ->
  exists t r,
    fst (run_analysis_v2 query thread_id (a, w))
    = if String.eqb s "completed" then Return (extract_v2 data t r)
      else Raise (Exception ("Run failed with status: " +:+ s)).
Proof.
  intros Hinit Hpolls Hpre Hs Hinbox.
  unfold run_analysis_v2.
  unfold bind at 1, self. cbn [fst]. rewrite Hinit.
  unfold bind at 1, ret at 1.
  destruct (truthy thread_id).
  - unfold bind at 1, ret at 1.
    unfold bind at 1, on_world at 1, messages_create, modify. cbn [snd fst].
    unfold bind at 1, self. cbn [fst].
    unfold bind at 1, on_world at 1, runs_create, create. cbn [snd fst].
    unfold bind at 1, on_world at 1, wait_v2. cbn [snd fst polls].
    edestruct (poll_v2_terminal (default "" thread_id) (ids w (issued w))
                 pre s post Hpre Hs) as (w' & Hrun & Hin);
      [| |rewrite Hrun].
    + cbn [polls record]. exact Hpolls.
    + cbn [polls record]. rewrite Hpolls, length_app, length_map. simpl. lia.
    + exists (default "" thread_id), (ids w (issued w)).
      destruct (String.eqb s "completed"); [|reflexivity].
      unfold bind at 1, on_world at 1, messages_list. cbn [snd fst].
      rewrite Hin. cbn [inboxes record]. rewrite Hinbox. reflexivity.
  - unfold bind at 1, on_world at 1, threads_create, create. cbn [snd fst].
    unfold bind at 1, on_world at 1, messages_create, modify. cbn [snd fst].
    unfold bind at 1, self. cbn [fst].
    unfold bind at 1, on_world at 1, runs_create, create. cbn [snd fst].
    unfold bind at 1, on_world at 1, wait_v2. cbn [snd fst polls].
    edestruct (poll_v2_terminal (ids w (issued w)) (ids w (S (issued w)))
                 pre s post Hpre Hs) as (w' & Hrun & Hin);
      [| |rewrite Hrun].
    + cbn [polls record]. exact Hpolls.
    + cbn [polls record]. rewrite Hpolls, length_app, length_map. simpl. lia.
    + exists (ids w (issued w)), (ids w (S (issued w))).
      destruct (String.eqb s "completed"); [|reflexivity].
      unfold bind at 1, on_world at 1, messages_list. cbn [snd fst].
      rewrite Hin. cbn [inboxes record]. rewrite Hinbox. reflexivity.
Qed.

Lemma run_analysis_on_thread (v : version) (query t : string) :
  t <> EmptyString ->
  respects (world_calls (on_thread t)) (run_analysis v query (Some t)).
Proof. rewrite run_analysis_chain. apply run_chain_on_thread. Qed.

(** C7, as amended: for an agent whose assistant id is set, [run_analysis]
    of either version does not initialize again: whatever its outcome, it
    makes no upload and creates no assistant, and the agent, with its file
    mapping and assistant id, is as before. *)
Theorem run_analysis_does_not_initialize_again
    (a : CodeInterpreterAgent) (w : World)
    (query : string) (additional_files : option (list string))
    (thread_id : option string) (max_retries retry_delay : Z) :
  truthy (assistant_id a) = true ->
  (exists r w',
     run_analysis_v1 query additional_files thread_id max_retries retry_delay (a, w)
     = (r, (a, w'))
     /\ calls_pass not_initializing w w')
  /\ (exists r w',
        run_analysis_v2 query thread_id (a, w) = (r, (a, w'))
        /\ calls_pass not_initializing w w').
Proof.
  intros Hinit. split.
  - rewrite run_analysis_v1_chain.
    destruct (run_chain V1 max_retries query thread_id (a, w)) as [r [a' w']] eqn:Hrun.
    destruct (run_chain_initialized _ _ _ _ _ _ _ _ Hinit Hrun) as [Ha Hcalls].
    simpl in Ha, Hcalls. subst a'. exists r, w'. auto.
  - rewrite run_analysis_v2_chain.
    destruct (run_chain V2 0 query thread_id (a, w)) as [r [a' w']] eqn:Hrun.
    destruct (run_chain_initialized _ _ _ _ _ _ _ _ Hinit Hrun) as [Ha Hcalls].
    simpl in Ha, Hcalls. subst a'. exists r, w'. auto.
Qed.

End AgentFacts.



Section AgentExamples.
Import Py Backend Agent DemoAgent.

(** The scenario of the specification on version 2. *)
Example v2_completed_run_returns_text :
  fst (run_analysis_v2 "query" None
         (initialized,
          world [Status "in_progress"; Status "in_progress"; Status "completed"]
                [inbox "42 customers"] []))
  = Return (Reply "42 customers" "id-0" "id-1").
Proof. vm_compute. reflexivity. Qed.

(** C1, at the failing input: on a run that reports [failed], version 1
    catches its own run failure, polls again and ends with the error of the
    retries; when a later poll reports [completed] it returns the text; with
    [max_retries = 0] it goes on polling. Version 2 raises the run failure at
    the first [failed]. *)
Theorem v1_failed_run_is_retried :
  let failed := [Status "failed"; Status "failed"; Status "failed"] in
  let revived := [Status "failed"; Status "completed"] in
  let run_v1 polls :=
    run_analysis_v1 "query" None None 3 5
      (initialized, world polls [inbox "42 customers"] []) in
  let run_v1_without_retries polls :=
    run_analysis_v1 "query" None None 0 5
      (initialized, world polls [inbox "42 customers"] []) in
  let run_v2 polls :=
    run_analysis_v2 "query" None
      (initialized, world polls [inbox "42 customers"] []) in
  fst (run_v1 failed)
  = Raise (Exception "Max retries reached: Run failed with status: failed")
  /\ length (List.filter is_retrieve (trace (snd (snd (run_v1 failed))))) = 3
  /\ fst (run_v1 revived) = Return (Reply "42 customers" "id-0" "id-1")
  /\ fst (run_v1_without_retries failed) = Pending
  /\ length (List.filter is_retrieve
               (trace (snd (snd (run_v1_without_retries failed))))) = 3
  /\ fst (run_v2 failed) = Raise (Exception "Run failed with status: failed")
  /\ length (List.filter is_retrieve (trace (snd (snd (run_v2 failed))))) = 1
  /\ fst (run_v2 revived) = Raise (Exception "Run failed with status: failed").
Proof. vm_compute. repeat split; reflexivity. Qed.

(** C7, counterexample: [initialize] on an agent whose assistant id is set
    uploads the files again, creates another assistant and replaces the
    assistant id, in both versions. *)
Lemma initialize_again_uploads_and_creates :
  truthy (assistant_id initialized) = true
  /\ (let '(r, (a', w')) := initialize V1 (initialized, world [] [] []) in
      r = Return tt
      /\ map initializing (trace w') = [true; true; true]
      /\ assistant_id a' = Some "id-2"
      /\ dict_keys (file_mapping a') = ["file-0"; "file-1"; "id-0"; "id-1"])
  /\ (let '(r, (a', w')) := initialize V2 (initialized, world [] [] []) in
      r = Return tt
      /\ map initializing (trace w') = [true; true; true]
      /\ assistant_id a' = Some "id-2"
      /\ dict_keys (file_mapping a') = ["file-0"; "file-1"; "id-0"; "id-1"]).
Proof. vm_compute. repeat split; reflexivity. Qed.

Lemma run_analysis_does_not_initialize_again_witness :
  truthy (assistant_id initialized) = true
  /\ (exists r w',
        run_analysis_v1 "query" None None 3 5
          (initialized, world [Status "completed"] [inbox "42 customers"] [])
        = (r, (initialized, w'))
        /\ calls_pass not_initializing
             (world [Status "completed"] [inbox "42 customers"] []) w').
Proof.
  split; [reflexivity|].
  exact (proj1 (run_analysis_does_not_initialize_again initialized
                  (world [Status "completed"] [inbox "42 customers"] [])
                  "query" None None 3 5 eq_refl)).
Defined.

(** Cleanup with an undeletable file: both deletions are attempted. *)
Example cleanup_goes_on_after_a_failure :
  let '(r, (a', w')) := cleanup (initialized, world [] [] []) in
  r = Return tt
  /\ file_mapping a' = []
  /\ trace w' = [FilesDelete "file-0"; FilesDelete "file-1"]
  /\ assistant_id a' = Some "asst-0".
Proof. vm_compute. repeat split; reflexivity. Qed.

End AgentExamples.

Section DictFacts.
Import Py.
Context {V : Type}.

Lemma dict_get_set_eq (d : dict V) (k : string) (v : V) :
  dict_get (dict_set d k v) k = Some v.
Proof.
  induction d as [|[k' v'] d IH]; simpl.
  - rewrite String.eqb_refl. reflexivity.
  - destruct (String.eqb k' k) eqn:Hk; simpl; rewrite Hk; [reflexivity | exact IH].
Qed.

Lemma dict_get_set_ne (d : dict V) (k k' : string) (v : V) :
  k <> k' -> dict_get (dict_set d k v) k' = dict_get d k'.
Proof.
  intros Hne. induction d as [|[k0 v0] d IH]; simpl.
  - destruct (String.eqb k k') eqn:Hk; [|reflexivity].
    apply String.eqb_eq in Hk. contradiction.
  - destruct (String.eqb k0 k) eqn:Hk; simpl.
    + apply String.eqb_eq in Hk. subst k0.
      destruct (String.eqb k k') eqn:Hk'; [|reflexivity].
      apply String.eqb_eq in Hk'. contradiction.
    + rewrite IH. reflexivity.
Qed.

Lemma dict_keys_set (d : dict V) (k : string) (v : V) :
  dict_keys (dict_set d k v)
  = if dict_has d k then dict_keys d else dict_keys d ++ [k].
Proof.
  unfold dict_has, dict_keys. induction d as [|[k' v'] d IH]; simpl; [reflexivity|].
  destruct (String.eqb k' k) eqn:Hk; simpl; [reflexivity|].
  rewrite IH. destruct (dict_get d k); reflexivity.
Qed.

Lemma dict_get_None_keys (d : dict V) (k : string) :
  dict_get d k = None -> k ∉ dict_keys d.
Proof.
  unfold dict_keys. induction d as [|[k' v'] d IH]; simpl; intros Hget Hin.
  - apply elem_of_nil in Hin. exact Hin.
  - destruct (String.eqb k' k) eqn:Hk; [discriminate|].
    apply elem_of_cons in Hin as [->|Hin]; [|exact (IH Hget Hin)].
    rewrite String.eqb_refl in Hk. discriminate.
Qed.

Lemma dict_set_NoDup (d : dict V) (k : string) (v : V) :
  NoDup (dict_keys d) -> NoDup (dict_keys (dict_set d k v)).
Proof.
  intros Hd. rewrite dict_keys_set. unfold dict_has.
  destruct (dict_get d k) eqn:Hget; [exact Hd|].
  apply NoDup_app. split; [exact Hd|]. split; [|apply NoDup_singleton].
  intros x Hx Hk. apply list_elem_of_singleton in Hk. subst x.
  exact (dict_get_None_keys d k Hget Hx).
Qed.

End DictFacts.

Section OrchestratorFacts.
Import Py Backend Orchestrator.

#[export] Instance keeps_threads_preorder : PreOrder keeps_threads.
Proof.
  split.
  - intros c actor t _ Ht. exact Ht.
  - intros c1 c2 c3 H12 H23 actor t Ht Hc. apply H23, H12; assumption.
Qed.

#[export] Instance frame_preorder (Rc : relation OrchestratorContext)
    `{!PreOrder Rc} : PreOrder (frame Rc).
Proof.
  split.
  - intros o. repeat split. reflexivity.
  - intros o1 o2 o3 (Ha1 & Hp1 & Hc1) (Ha2 & Hp2 & Hc2).
    split; [congruence|]. split; [congruence|]. etransitivity; eassumption.
Qed.

Lemma on_agent_frame {A} (Rc : relation OrchestratorContext) `{!PreOrder Rc}
    (agent : nat) (m : M Agent.St A) :
  respects (frame Rc) (on_agent agent m).
Proof.
  intros o r o' Hrun. unfold on_agent in Hrun.
  destruct (heap o !! agent) as [a|].
  - destruct (m (a, world o)) as [r1 [a' w']]. inversion Hrun; subst.
    repeat split. reflexivity.
  - inversion Hrun; subst. reflexivity.
Qed.

Lemma on_client_frame {A} (Rc : relation OrchestratorContext) `{!PreOrder Rc}
    (m : M World A) :
  respects (frame Rc) (on_client m).
Proof.
  intros o r o' Hrun. unfold on_client in Hrun.
  destruct (m (world o)) as [r1 w']. inversion Hrun; subst.
  repeat split. reflexivity.
Qed.

Lemma content_of_respects {S} (R : relation S) `{!PreOrder R}
    (result : AnalysisResult) :
  respects R (content_of (S := S) result).
Proof.
  unfold content_of. destruct (Agent.get_content result);
    [apply respects_ret | apply respects_raise]; preorder.
Qed.

Lemma lift_respects {S A} (R : relation S) `{!PreOrder R} (r : exn + A) :
  respects R (lift (S := S) r).
Proof. destruct r; [apply respects_raise | apply respects_ret]; preorder. Qed.

(** What one step does, to the orchestrator and to the world. *)
Lemma execute_actor_effect (v : Agent.version) (actor task : string)
    (o : EnhancedOrchestrator) (r : outcome AnalysisResult)
    (o' : EnhancedOrchestrator) :
  _execute_actor v actor task o = (r, o') ->
  actors o' = actors o
  /\ planner o' = planner o
  /\ context o' = match r with
                  | Return res => context_after v (context o) actor task res
                  | _ => context o
                  end
  /\ forall t, threads (context o) !! actor = Some t -> t <> EmptyString ->
       calls_pass (on_thread t) (world o) (world o').
Proof.
  intros Hrun. unfold _execute_actor in Hrun.
  unfold bind at 1, get in Hrun.
  destruct (dict_get (actors o) actor) as [[agent meta]|].
  - unfold bind at 1, on_agent in Hrun.
    destruct (heap o !! agent) as [a|] eqn:Hheap.
    + destruct (Agent.run_analysis v _ (threads (context o) !! actor) (a, world o))
        as [r1 [a' w']] eqn:Hagent.
      assert (Hworld : forall t, threads (context o) !! actor = Some t ->
                t <> EmptyString -> calls_pass (on_thread t) (world o) w').
      { intros t Ht Hne. rewrite Ht in Hagent.
        exact (run_analysis_on_thread v _ t Hne _ _ _ Hagent). }
      destruct r1 as [res| |].
      * unfold context_after, store_thread.
        destruct (negb (truthy (threads (context o) !! actor))
                  && truthy (Agent.get_thread_id res)) eqn:Hcond;
          destruct v; inversion Hrun; subst; clear Hrun; rewrite Hcond;
          (split; [reflexivity|]); (split; [reflexivity|]);
          (split; [reflexivity|]); exact Hworld.
      * inversion Hrun; subst. repeat split; auto.
      * inversion Hrun; subst. repeat split; auto.
    + inversion Hrun; subst. repeat split; auto.
      intros. reflexivity.
  - inversion Hrun; subst. repeat split; auto. intros. reflexivity.
Qed.

Lemma for_actor_cons {X} (actor b : string) (x : X) (l : list (string * X)) :
  for_actor actor ((b, x) :: l)
  = (if String.eqb b actor then [x] else []) ++ for_actor actor l.
Proof. unfold for_actor. simpl. destruct (String.eqb b actor); reflexivity. Qed.

Lemma results_of_add_result (c : OrchestratorContext) (actor a : string)
    (res : AnalysisResult) :
  results_of (add_result c actor res) a
  = results_of c a ++ (if String.eqb actor a then [res] else []).
Proof.
  unfold results_of, add_result. cbn [actor_results].
  destruct (String.eqb actor a) eqn:Ha.
  - apply String.eqb_eq in Ha. subst a. rewrite dict_get_set_eq. reflexivity.
  - rewrite dict_get_set_ne; [rewrite app_nil_r; reflexivity|].
    intros ->. rewrite String.eqb_refl in Ha. discriminate.
Qed.

Lemma results_of_context_after (v : Agent.version) (c : OrchestratorContext)
    (actor task a : string) (res : AnalysisResult) :
  results_of (context_after v c actor task res) a
  = results_of c a ++ (if String.eqb actor a then [res] else []).
Proof.
  unfold context_after.
  transitivity (results_of (add_result (store_thread c actor res) actor res) a).
  - destruct v; reflexivity.
  - rewrite results_of_add_result. f_equal.
    unfold store_thread. destruct (_ && _); reflexivity.
Qed.

Lemma threads_context_after (v : Agent.version) (c : OrchestratorContext)
    (actor task : string) (res : AnalysisResult) :
  threads (context_after v c actor task res) = threads (store_thread c actor res).
Proof. destruct v; reflexivity. Qed.

Lemma context_after_keeps_threads (v : Agent.version) (c : OrchestratorContext)
    (actor task : string) (res : AnalysisResult) :
  keeps_threads c (context_after v c actor task res).
Proof.
  intros a t Hne Ha. rewrite threads_context_after. unfold store_thread.
  destruct (negb (truthy (threads c !! actor))) eqn:Hnone; cbn [andb]; [|exact Ha].
  destruct (truthy (Agent.get_thread_id res)); [|exact Ha].
  cbn [threads]. rewrite lookup_insert_ne; [exact Ha|].
  intros ->. rewrite Ha in Hnone. destruct t; [contradiction | discriminate].
Qed.

(** The first response that carries a thread is the one recorded. *)
Lemma context_after_records_thread (v : Agent.version) (c : OrchestratorContext)
    (actor task t : string) (res : AnalysisResult) :
  truthy (threads c !! actor) = false ->
  Agent.get_thread_id res = Some t -> t <> EmptyString ->
  threads (context_after v c actor task res) !! actor = Some t.
Proof.
  intros Hnone Hres Hne. rewrite threads_context_after. unfold store_thread.
  rewrite Hnone, Hres. cbn [negb andb].
  destruct t; [contradiction|]. cbn [truthy default threads].
  apply lookup_insert_eq.
Qed.

Lemma execute_actor_frame (v : Agent.version) (actor task : string) :
  respects (frame keeps_threads) (_execute_actor v actor task).
Proof.
  intros o r o' Hrun.
  destruct (execute_actor_effect v actor task o r o' Hrun) as (Ha & Hp & Hc & _).
  split; [exact Ha|]. split; [exact Hp|]. rewrite Hc.
  destruct r; [apply context_after_keeps_threads | reflexivity | reflexivity].
Qed.

Lemma plan_execution_frame (Rc : relation OrchestratorContext) `{!PreOrder Rc}
    (v : Agent.version) (query : string) :
  respects (frame Rc) (_plan_execution v query).
Proof.
  unfold _plan_execution.
  apply respects_bind; preorder; [apply respects_get; preorder|intros o].
  apply respects_bind; preorder; [apply lift_respects; preorder|intros descs].
  apply respects_bind; preorder; [|intros content; apply respects_ret; preorder].
  destruct v.
  - apply on_client_frame; preorder.
  - destruct (planner o); [|apply respects_raise; preorder].
    apply respects_bind; preorder; [apply on_agent_frame; preorder|intros result].
    apply content_of_respects; preorder.
Qed.

Lemma execute_plan_frame (v : Agent.version) (plan : list (string * string)) :
  forall results, respects (frame keeps_threads) (execute_plan v plan results).
Proof.
  induction plan as [|[actor task] rest IH]; intros results; cbn [execute_plan].
  - apply respects_ret; preorder.
  - apply respects_bind; preorder; [apply execute_actor_frame|intros result].
    apply respects_bind; preorder; [apply content_of_respects; preorder|intros c].
    apply IH.
Qed.

Lemma run_analysis_frame (v : Agent.version) (query : string) :
  respects (frame keeps_threads) (run_analysis v query true).
Proof.
  unfold run_analysis. cbn [negb].
  apply respects_bind; preorder; [apply respects_ret; preorder|intros _].
  apply respects_bind; preorder; [apply plan_execution_frame; preorder|intros plan].
  apply respects_bind; preorder; [apply execute_plan_frame|intros results].
  destruct v; [apply respects_ret; preorder|].
  apply respects_bind; preorder; [apply respects_get; preorder|intros o].
  destruct (planner o); [|apply respects_raise; preorder].
  apply respects_bind; preorder; [apply on_agent_frame; preorder|intros synthesis].
  apply respects_bind; preorder; [apply content_of_respects; preorder|intros answer].
  apply respects_ret; preorder.
Qed.

Lemma cleanup_actors_frame (Rc : relation OrchestratorContext) `{!PreOrder Rc}
    (items : dict (nat * ActorMetadata)) :
  respects (frame Rc) (cleanup_actors items).
Proof.
  induction items as [|[name [agent meta]] rest IH]; cbn [cleanup_actors].
  - apply respects_ret; preorder.
  - apply respects_bind; preorder; [apply on_agent_frame; preorder|intros _; exact IH].
Qed.

Lemma cleanup_frame (v : Agent.version) :
  respects (frame keeps_threads) (cleanup v false).
Proof.
  unfold cleanup.
  apply respects_bind; preorder; [apply respects_get; preorder|intros o].
  apply respects_bind; preorder; [apply cleanup_actors_frame; preorder|intros _].
  apply respects_bind; preorder; [|intros _; apply respects_ret; preorder].
  destruct v; [apply respects_ret; preorder|].
  destruct (planner o); [apply on_agent_frame; preorder | apply respects_ret; preorder].
Qed.

Lemma activity_keeps_threads (v : Agent.version) (o o' : EnhancedOrchestrator) :
  rtc (activity v) o o' -> keeps_threads (context o) (context o').
Proof.
  induction 1 as [o|o1 o2 o3 Hact _ IH]; [reflexivity|].
  transitivity (context o2); [|exact IH]. clear IH.
  destruct Hact as [actor task o r o' Hrun|query o r o' Hrun|o r o' Hrun
                    |name agent metadata o r o' Hrun].
  - exact (proj2 (proj2 (execute_actor_frame v actor task o r o' Hrun))).
  - exact (proj2 (proj2 (run_analysis_frame v query o r o' Hrun))).
  - exact (proj2 (proj2 (cleanup_frame v o r o' Hrun))).
  - inversion Hrun; subst. reflexivity.
Qed.

(** What a step for an actor without a thread does to the stored threads:
    the thread id that its outcome carries is stored, and nothing is stored
    when the outcome carries none. *)
Lemma execute_actor_threads (v : Agent.version) (actor task : string)
    (o : EnhancedOrchestrator) (r : outcome AnalysisResult)
    (o1 : EnhancedOrchestrator) :
  truthy (threads (context o) !! actor) = false ->
  _execute_actor v actor task o = (r, o1) ->
  threads (context o1)
  = match carried_thread r with
    | Some t => <[actor := t]> (threads (context o))
    | None => threads (context o)
    end.
Proof.
  intros Hnone Hrun.
  destruct (execute_actor_effect v actor task o r o1 Hrun) as (_ & _ & Hc & _).
  rewrite Hc. destruct r as [res| |]; [|reflexivity|reflexivity].
  rewrite threads_context_after. unfold store_thread, carried_thread.
  rewrite Hnone. cbn [negb andb].
  destruct (Agent.get_thread_id res) as [[|c t]|]; reflexivity.
Qed.

(** C2, as amended: a step for an actor that has no thread stores the thread
    id its response carries, and stores nothing when it raises or when its
    response carries none. Once a thread id is stored, it is still the
    stored one after any further activity with the context maintained, and
    every later step for the actor keeps it and makes its calls on that
    thread, creating none. *)
Theorem thread_recorded_once_and_reused
    (v : Agent.version) (actor task : string)
    (o o1 : EnhancedOrchestrator) (r : outcome AnalysisResult) :
  truthy (threads (context o) !! actor) = false ->
  _execute_actor v actor task o = (r, o1) ->
  match carried_thread r with
  | Some t =>
      threads (context o1) !! actor = Some t
      /\ forall o2, rtc (activity v) o1 o2 ->
           threads (context o2) !! actor = Some t
           /\ forall task' r' o3,
                _execute_actor v actor task' o2 = (r', o3) ->
                threads (context o3) !! actor = Some t
                /\ calls_pass (on_thread t) (world o2) (world o3)
  | None => threads (context o1) = threads (context o)
  end.
Proof.
  intros Hnone Hrun.
  pose proof (execute_actor_threads v actor task o r o1 Hnone Hrun) as Hthreads.
  destruct (carried_thread r) as [t|] eqn:Hcarried; [|exact Hthreads].
  assert (Hne : t <> EmptyString).
  { unfold carried_thread in Hcarried. destruct r as [res| |]; try discriminate.
    destruct (Agent.get_thread_id res) as [[|c s]|]; try discriminate.
    inversion Hcarried. discriminate. }
  assert (H1 : threads (context o1) !! actor = Some t).
  { rewrite Hthreads. apply lookup_insert_eq. }
  split; [exact H1|]. intros o2 Hreach.
  assert (H2 : threads (context o2) !! actor = Some t)
    by exact (activity_keeps_threads v o1 o2 Hreach actor t Hne H1).
  split; [exact H2|]. intros task' r' o3 Hrun'.
  split.
  - exact (proj2 (proj2 (execute_actor_frame v actor task' o2 r' o3 Hrun'))
             actor t Hne H2).
  - destruct (execute_actor_effect v actor task' o2 r' o3 Hrun') as (_ & _ & _ & Hw).
    exact (Hw t H2 Hne).
Qed.

(** The dictionary filled by the loop holds, for an actor, the content of its
    last step. *)
Lemma fold_store_content_get (steps_run : list (string * AnalysisResult)) :
  forall (results : dict string) (a : string),
    dict_get (fold_left store_content steps_run results) a
    = match last (for_actor a steps_run) with
      | Some res => Some (default EmptyString (Agent.get_content res))
      | None => dict_get results a
      end.
Proof.
  induction steps_run as [|[b res] rest IH]; intros results a; [reflexivity|].
  cbn [fold_left]. rewrite IH, for_actor_cons. unfold store_content.
  cbn [fst snd].
  destruct (String.eqb b a) eqn:Hb.
  - apply String.eqb_eq in Hb. subst b. cbn [app].
    destruct (for_actor a rest) as [|x xs] eqn:Hrest.
    + cbn [last]. apply dict_get_set_eq.
    + rewrite last_cons_cons. destruct (last (x :: xs)) eqn:Hl; [reflexivity|].
      apply last_None in Hl. discriminate.
  - cbn [app]. destruct (last (for_actor a rest)); [reflexivity|].
    apply dict_get_set_ne. intros ->. rewrite String.eqb_refl in Hb. discriminate.
Qed.

Lemma fold_store_content_NoDup (steps_run : list (string * AnalysisResult)) :
  forall results : dict string,
    NoDup (dict_keys results) ->
    NoDup (dict_keys (fold_left store_content steps_run results)).
Proof.
  induction steps_run as [|step rest IH]; intros results Hd; [exact Hd|].
  cbn [fold_left]. apply IH. unfold store_content. apply dict_set_NoDup, Hd.
Qed.

Lemma executes_actors (v : Agent.version) (plan : list (string * string))
    (records : list (string * AnalysisResult)) (o o' : EnhancedOrchestrator) :
  executes v plan records o o' -> map fst records = map fst plan.
Proof. induction 1; cbn [map fst]; congruence. Qed.

(** The loop of [run_analysis] returns exactly when every step returns a
    response with a content; the dictionary it returns is filled step by
    step. *)
Lemma execute_plan_executes (v : Agent.version) (plan : list (string * string)) :
  forall (results : dict string) (o : EnhancedOrchestrator)
         (out : dict string) (o' : EnhancedOrchestrator),
    execute_plan v plan results o = (Return out, o') <->
    exists records,
      executes v plan records o o'
      /\ Forall (fun step => is_Some (Agent.get_content (snd step))) records
      /\ out = fold_left store_content records results.
Proof.
  induction plan as [|[actor task] rest IH]; intros results o out o'.
  - split.
    + intros Hrun. inversion Hrun; subst. exists []. split; [constructor|].
      split; [constructor | reflexivity].
    + intros (records & Hex & _ & ->). inversion Hex; subst. reflexivity.
  - cbn [execute_plan]. unfold bind at 1. split.
    + intros Hrun.
      destruct (_execute_actor v actor task o) as [[res|e|] o1] eqn:Hstep;
        try discriminate.
      unfold bind at 1, content_of in Hrun.
      destruct (Agent.get_content res) as [c|] eqn:Hcontent; [|discriminate].
      unfold ret at 1 in Hrun.
      apply IH in Hrun as (records & Hex & Hall & ->).
      exists ((actor, res) :: records). split; [econstructor; eassumption|].
      split; [constructor; [cbn [snd]; rewrite Hcontent; eauto | exact Hall]|].
      cbn [fold_left].
      change (store_content results (actor, res))
        with (dict_set results actor (default EmptyString (Agent.get_content res))).
      rewrite Hcontent. reflexivity.
    + intros (records & Hex & Hall & ->). inversion Hex; subst.
      match goal with
      | Hstep : _execute_actor v actor task o = _ |- _ => rewrite Hstep
      end.
      apply Forall_cons in Hall as [[c Hcontent] Hall]. cbn [snd] in Hcontent.
      unfold bind at 1, content_of. rewrite Hcontent. unfold ret at 1.
      apply IH. eexists. split; [eassumption|]. split; [exact Hall|].
      cbn [fold_left].
      change (store_content results (actor, res))
        with (dict_set results actor (default EmptyString (Agent.get_content res))).
      rewrite Hcontent. reflexivity.
Qed.

(** Every executed step appends its record to the results of its actor. *)
Lemma executes_results (v : Agent.version) (plan : list (string * string))
    (records : list (string * AnalysisResult)) (o o' : EnhancedOrchestrator) :
  executes v plan records o o' ->
  forall a, results_of (context o') a = results_of (context o) a ++ for_actor a records.
Proof.
  induction 1 as [o|actor task res plan records o o1 o2 Hstep _ IH]; intros a.
  - rewrite app_nil_r. reflexivity.
  - destruct (execute_actor_effect v actor task o _ o1 Hstep) as (_ & _ & Hc & _).
    rewrite IH, Hc, results_of_context_after, for_actor_cons, app_assoc.
    reflexivity.
Qed.

Lemma plan_execution_context (v : Agent.version) (query : string)
    (o : EnhancedOrchestrator) (r : outcome (list (string * string)))
    (o' : EnhancedOrchestrator) :
  _plan_execution v query o = (r, o') -> context o' = context o.
Proof.
  intros Hrun.
  exact (eq_sym (proj2 (proj2 (plan_execution_frame eq v query o r o' Hrun)))).
Qed.

(** C10: when [run_analysis] returns, the plan it got from [_plan_execution]
    was executed step by step, every step returning a record with a content:
    [actors_used] lists the actors of the plan, one entry per step and in
    order, [steps_executed] counts the steps, [results] is filled step by
    step and so has one entry per actor, holding the content of the actor's
    last step, and the context's [actor_results] got every record appended,
    in order. *)
Theorem results_hold_last_step_of_each_actor
    (v : Agent.version) (query : string) (maintain_context : bool)
    (o o' : EnhancedOrchestrator) (response : Response) :
  run_analysis v query maintain_context o = (Return response, o') ->
  exists (plan : list (string * string)) (o1 : EnhancedOrchestrator)
         (records : list (string * AnalysisResult)) (o2 : EnhancedOrchestrator),
    _plan_execution v query (starting maintain_context o) = (Return plan, o1)
    /\ executes v plan records o1 o2
    /\ map fst records = map fst plan
    /\ Forall (fun step => is_Some (Agent.get_content (snd step))) records
    /\ actors_used response = map fst plan
    /\ steps_executed response = length plan
    /\ results response = fold_left store_content records []
    /\ NoDup (dict_keys (results response))
    /\ (forall a, dict_get (results response) a
                  = last (for_actor a records) ≫= Agent.get_content)
    /\ context o' = context o2
    /\ (forall a, results_of (context o') a
                  = results_of (context (starting maintain_context o)) a
                    ++ for_actor a records).
Proof.
  intros Hrun. unfold run_analysis in Hrun.
  unfold bind at 1 in Hrun.
  assert (Hstart : (if negb maintain_context then set_context new_context else ret tt) o
                   = (Return tt, starting maintain_context o)).
  { destruct maintain_context; reflexivity. }
  rewrite Hstart in Hrun. clear Hstart.
  unfold bind at 1 in Hrun.
  destruct (_plan_execution v query (starting maintain_context o))
    as [[plan|e|] o1] eqn:Hplan; try discriminate.
  pose proof (plan_execution_context v query _ _ o1 Hplan) as Hctx1.
  unfold bind at 1 in Hrun.
  destruct (execute_plan v plan [] o1) as [[out|e|] o2] eqn:Hexec;
    try discriminate.
  apply execute_plan_executes in Hexec as (records & Hex & Hall & Hout).
  pose proof (executes_results v plan records o1 o2 Hex) as Hres.
  assert (Hget : forall a, dict_get out a
                           = last (for_actor a records) ≫= Agent.get_content).
  { intros a. rewrite Hout, fold_store_content_get.
    destruct (last (for_actor a records)) as [res|] eqn:Hlast; [|reflexivity].
    cbn. assert (Hin : is_Some (Agent.get_content res)).
    { apply last_Some_elem_of in Hlast.
      unfold for_actor in Hlast. apply list_elem_of_fmap in Hlast as ([b x] & -> & Hin).
      apply list_elem_of_In, filter_In in Hin as [Hin _].
      rewrite Forall_forall in Hall. apply (Hall (b, x)), list_elem_of_In, Hin. }
    destruct Hin as [c Hc]. rewrite Hc. reflexivity. }
  assert (Hnodup : NoDup (dict_keys out)).
  { rewrite Hout. apply fold_store_content_NoDup. constructor. }
  assert (Hend : actors_used response = map fst plan
                 /\ steps_executed response = length plan
                 /\ results response = out
                 /\ context o' = context o2).
  { destruct v.
    - inversion Hrun; subst. auto.
    - unfold bind at 1, get in Hrun.
      destruct (planner o2) as [pl|]; [|discriminate].
      unfold bind at 1 in Hrun.
      match type of Hrun with
      | context [on_agent pl ?m o2] =>
          destruct (on_agent pl m o2) as [[synthesis|e|] o3] eqn:Hsyn;
          try discriminate;
          pose proof (proj2 (proj2 (on_agent_frame eq pl m o2 _ o3 Hsyn))) as Hctx3
      end.
      unfold bind at 1, content_of in Hrun.
      destruct (Agent.get_content synthesis); [|discriminate].
      inversion Hrun; subst. auto. }
  destruct Hend as (Hused & Hcount & Hresults & Hctx).
  exists plan, o1, records, o2.
  split; [reflexivity|]. split; [exact Hex|].
  split; [exact (executes_actors v plan records o1 o2 Hex)|].
  split; [exact Hall|].
  split; [exact Hused|]. split; [exact Hcount|].
  split; [rewrite Hresults; exact Hout|].
  split; [rewrite Hresults; exact Hnodup|].
  split; [rewrite Hresults; exact Hget|].
  split; [exact Hctx|].
  intros a. rewrite Hctx, Hres, Hctx1. reflexivity.
Qed.

End OrchestratorFacts.

Section OrchestratorExamples.
Import Py Backend Orchestrator DemoOrchestrator DemoThreads.

(** One query whose plan names the same actor twice: one entry in
    [results], two in [actors_used] and in the context, one thread. *)
Example same_actor_twice :
  let '(r, o') := run_analysis Agent.V1 "query" true orchestrator in
  match r with
  | Return response =>
      results response = [("customer_specialist", "second answer")]
      /\ actors_used response = ["customer_specialist"; "customer_specialist"]
      /\ steps_executed response = 2
      /\ map Agent.get_content (results_of (context o') "customer_specialist")
         = [Some "first answer"; Some "second answer"]
      /\ threads (context o') !! "customer_specialist" = Some "id-2"
      /\ List.filter (fun c => negb (on_thread "id-2" c)) (trace (world o'))
         = [ThreadsCreate]
  | _ => False
  end.
Proof. vm_compute. repeat split; reflexivity. Qed.

(** C2, counterexample: the first step for an actor is answered without a
    message of the assistant, in either version, or fails, in version 2.
    The thread that this step created is not recorded; the second step for
    the same actor, with the context maintained, creates another thread, and
    the thread id that is recorded comes from the response of the second
    step. *)
Lemma first_thread_is_not_recorded :
  (forall v,
     let '(r1, o1) :=
       _execute_actor v "customer_specialist" "first task" (forgetful v) in
     let '(r2, o2) := _execute_actor v "customer_specialist" "second task" o1 in
     threads (context (forgetful v)) !! "customer_specialist" = None
     /\ r1 = Return Agent.NoReply
     /\ omap posted_on (trace (world o1)) = ["id-2"]
     /\ threads (context o1) !! "customer_specialist" = None
     /\ r2 = Return (Agent.Reply "answer" "id-4" "id-5")
     /\ threads (context o2) !! "customer_specialist" = Some "id-4"
     /\ omap posted_on (trace (world o2)) = ["id-2"; "id-4"]
     /\ List.filter is_threads_create (trace (world o2))
        = [ThreadsCreate; ThreadsCreate])
  /\ (let '(r1, o1) :=
        _execute_actor Agent.V2 "customer_specialist" "first task"
          (failing Agent.V2) in
      let '(r2, o2) := _execute_actor Agent.V2 "customer_specialist" "second task" o1 in
      r1 = Raise (Exception "Run failed with status: failed")
      /\ omap posted_on (trace (world o1)) = ["id-2"]
      /\ threads (context o1) !! "customer_specialist" = None
      /\ r2 = Return (Agent.Reply "answer" "id-4" "id-5")
      /\ threads (context o2) !! "customer_specialist" = Some "id-4"
      /\ List.filter is_threads_create (trace (world o2))
         = [ThreadsCreate; ThreadsCreate]).
Proof.
  split; [intros []|]; vm_compute; repeat split; reflexivity.
Qed.

Lemma results_hold_last_step_of_each_actor_witness :
  exists response o',
    run_analysis Agent.V1 "query" true orchestrator = (Return response, o')
    /\ actors_used response = ["customer_specialist"; "customer_specialist"]
    /\ steps_executed response = 2
    /\ results response = [("customer_specialist", "second answer")]
    /\ map Agent.get_content (results_of (context o') "customer_specialist")
       = [Some "first answer"; Some "second answer"]
    /\ exists plan o1 records o2,
         _plan_execution Agent.V1 "query" (starting true orchestrator)
         = (Return plan, o1)
         /\ executes Agent.V1 plan records o1 o2
         /\ map fst records = map fst plan
         /\ Forall (fun step => is_Some (Agent.get_content (snd step))) records
         /\ actors_used response = map fst plan
         /\ steps_executed response = length plan
         /\ results response = fold_left store_content records []
         /\ NoDup (dict_keys (results response))
         /\ (forall a, dict_get (results response) a
                       = last (for_actor a records) ≫= Agent.get_content)
         /\ context o' = context o2
         /\ (forall a, results_of (context o') a
                       = results_of (context (starting true orchestrator)) a
                         ++ for_actor a records).
Proof.
  eexists _, _. split; [vm_compute; reflexivity|].
  split; [reflexivity|]. split; [reflexivity|]. split; [reflexivity|].
  split; [vm_compute; reflexivity|].
  exact (results_hold_last_step_of_each_actor Agent.V1 "query" true
           orchestrator _ _ ltac:(vm_compute; reflexivity)).
Defined.

Lemma thread_recorded_once_and_reused_witness :
  truthy (threads (context orchestrator) !! "customer_specialist") = false
  /\ exists o1,
       _execute_actor Agent.V1 "customer_specialist"
         "count the customers per country" orchestrator
       = (Return (Agent.Reply "first answer" "id-2" "id-3"), o1)
       /\ threads (context o1) !! "customer_specialist" = Some "id-2"
       /\ forall o2, rtc (activity Agent.V1) o1 o2 ->
            threads (context o2) !! "customer_specialist" = Some "id-2"
            /\ forall task' r o3,
                 _execute_actor Agent.V1 "customer_specialist" task' o2 = (r, o3) ->
                 threads (context o3) !! "customer_specialist" = Some "id-2"
                 /\ calls_pass (on_thread "id-2") (world o2) (world o3).
Proof.
  split; [reflexivity|]. eexists. split; [vm_compute; reflexivity|].
  refine (thread_recorded_once_and_reused Agent.V1 "customer_specialist"
            "count the customers per country" orchestrator _
            (Return (Agent.Reply "first answer" "id-2" "id-3"))
            ltac:(reflexivity) ltac:(vm_compute; reflexivity)).
Defined.

End OrchestratorExamples.


(** * Further properties *)

Section GraphFacts.
Import Py Router Graph.

(** X1: the supervisor answers on every transcript that has a message, with a
    value that the conditional edges map; on an empty transcript it raises
    [IndexError]. *)
Theorem supervisor_decision_is_a_graph_edge (state : GraphState) :
  match get_next_actor state with
  | inr target =>
      messages state <> [] /\ is_Some (dict_get conditional_edges target)
  | inl e =>
      messages state = [] /\ e = IndexError "list index out of range"
  end.
Proof.
  unfold get_next_actor.
  destruct (last (messages state)) as [m|] eqn:Hlast.
  - assert (Hne : messages state <> []).
    { intros Hnil. rewrite Hnil in Hlast. discriminate. }
    repeat match goal with
           | |- context [if ?b then _ else _] => destruct b
           end; cbn; (split; [exact Hne | eauto]).
  - apply last_None in Hlast. auto.
Qed.

Lemma name_is_false (o : option string) (s : string) :
  name_is o s = false -> o <> Some s.
Proof.
  intros Hn Ho. subst o. cbn in Hn. rewrite String.eqb_refl in Hn. discriminate.
Qed.

Lemma name_is_true (o : option string) (s : string) :
  name_is o s = true -> o = Some s.
Proof.
  destruct o as [n|]; cbn; [|discriminate].
  intros Hn. apply String.eqb_eq in Hn. congruence.
Qed.

(** X2: the supervisor never gives the turn to the actor that wrote the latest
    message: its answer is FINISH or a specialist other than that actor. *)
Theorem supervisor_never_picks_the_last_speaker
    (earlier : list Message) (m : Message) (nxt cur thread : string) :
  exists target,
    get_next_actor {| messages := earlier ++ [m]; next := nxt;
                      current_actor := cur; shared_thread := thread |}
    = inr target
    /\ (target = "FINISH"
        \/ ((target = "customer_specialist" \/ target = "organization_specialist")
            /\ name m <> Some target)).
Proof.
  unfold get_next_actor. cbn [messages]. rewrite last_snoc.
  destruct (existsb _ completion_phrases); [eexists; split; [reflexivity|]; auto|].
  destruct (contains "organization" (lower (content m))
            || contains "company" (lower (content m)));
    destruct (name_is (name m) "organization_specialist") eqn:Horg;
    destruct (contains "customer" (lower (content m))
              || contains "individual" (lower (content m)));
    destruct (name_is (name m) "customer_specialist") eqn:Hcus;
    cbn; eexists; (split; [reflexivity|]); right;
    try (split; [auto|]; apply name_is_false; assumption).
  all: apply name_is_true in Horg; apply name_is_true in Hcus; congruence.
Qed.

End GraphFacts.

Section MoreStringFacts.
Import Py.

Lemma contains_here (n rest : string) : contains n (n +:+ rest) = true.
Proof.
  rewrite contains_unfold.
  assert (Hs : startswith (n +:+ rest) n = true).
  { induction n as [|c n IH]; [reflexivity|].
    change (String c n +:+ rest) with (String c (n +:+ rest)).
    cbn [startswith]. rewrite Ascii.eqb_refl. exact IH. }
  rewrite Hs. reflexivity.
Qed.

Lemma contains_app_r (n pre s : string) :
  contains n s = true -> contains n (pre +:+ s) = true.
Proof.
  intros Hs. induction pre as [|c pre IH]; [exact Hs|].
  change (String c pre +:+ s) with (String c (pre +:+ s)).
  rewrite contains_unfold, IH. destruct (startswith _ n); reflexivity.
Qed.

(** A fence that starts inside a non-empty [s] followed by the fence also
    starts inside [s] followed by two backticks. *)
Lemma startswith_fence_inside (s rest : string) :
  s <> "" ->
  startswith (s +:+ "```" +:+ rest) "```" = true ->
  startswith (s +:+ "``") "```" = true.
Proof.
  destruct s as [|a [|b [|c s]]]; cbn; try tauto; intros _ Hs; exact Hs.
Qed.

Lemma partition_at_fence (s rest : string) :
  contains "```" (s +:+ "``") = false ->
  partition "```" (s +:+ "```" +:+ rest) = Some (s, rest).
Proof.
  induction s as [|c s IH]; intros Hc.
  - reflexivity.
  - destruct (startswith (String c s +:+ "```" +:+ rest) "```") eqn:Hp.
    + apply startswith_fence_inside in Hp; [|discriminate].
      rewrite (contains_false_startswith _ _ Hc) in Hp. discriminate.
    + change (String c s +:+ "```" +:+ rest)
        with (String c (s +:+ "```" +:+ rest)) in *.
      change (String c s +:+ "``") with (String c (s +:+ "``")) in Hc.
      rewrite partition_unfold, Hp.
      pose proof (contains_false_startswith _ _ Hc) as Hq.
      rewrite contains_unfold, Hq in Hc.
      rewrite (IH Hc). reflexivity.
Qed.

Lemma startswith_json_before_fence (s rest : string) :
  startswith (s +:+ "```" +:+ rest) "json" = startswith s "json".
Proof.
  destruct s as [|a [|b [|c [|d s]]]]; cbn [startswith String.append];
    reflexivity.
Qed.

Lemma contains_skip_false (n s : string) (k : nat) :
  contains n s = false -> contains n (skip k s) = false.
Proof.
  revert s. induction k as [|k IH]; intros s Hc; [exact Hc|].
  destruct s as [|c s]; [exact Hc|]. cbn [skip]. apply IH.
  rewrite contains_unfold in Hc. destruct (startswith (String c s) n); [discriminate|].
  exact Hc.
Qed.

End MoreStringFacts.

Section MoreCleaning.
Import Py Planner.

(** X5: what the language model writes around the fenced block is dropped: the
    text before the opening fence and the text after the closing fence play
    no part in what is parsed. *)
Theorem prose_around_fenced_block_is_dropped (before P after : string) :
  contains fence (before +:+ "``") = false ->
  fence_free P ->
  _clean_json_response (before +:+ "```json" +:+ P +:+ "```" +:+ after) = strip P
  /\ (startswith P "json" = false ->
      _clean_json_response (before +:+ "```" +:+ P +:+ "```" +:+ after) = strip P).
Proof.
  intros Hb HP. unfold fence_free, fence in *. split; [|intros Hj].
  - unfold _clean_json_response, search_fenced, fence.
    change ("```json" +:+ P +:+ "```" +:+ after)
      with ("```" +:+ ("json" +:+ P +:+ "```" +:+ after)).
    rewrite contains_app_r by apply contains_here.
    rewrite (partition_at_fence before _ Hb).
    cbv iota beta zeta.
    change (startswith ("json" +:+ P +:+ "```" +:+ after) "json") with true.
    change (skip 4 ("json" +:+ P +:+ "```" +:+ after)) with (P +:+ "```" +:+ after).
    cbv iota beta. rewrite (partition_at_fence P after HP). reflexivity.
  - unfold _clean_json_response, search_fenced, fence.
    rewrite contains_app_r by apply contains_here.
    rewrite (partition_at_fence before _ Hb).
    cbv iota beta zeta. rewrite startswith_json_before_fence, Hj.
    rewrite (partition_at_fence P after HP). reflexivity.
Qed.

(** X6: a reply with an opening fence and no closing fence is left as it is,
    fence included; only the surrounding white space is removed. *)
Theorem unclosed_fence_is_kept (before rest : string) :
  contains fence (before +:+ "``") = false ->
  contains fence rest = false ->
  _clean_json_response (before +:+ "```" +:+ rest)
  = strip (before +:+ "```" +:+ rest).
Proof.
  intros Hb Hr. unfold fence in *.
  unfold _clean_json_response, search_fenced, fence.
  rewrite contains_app_r by apply contains_here.
  rewrite (partition_at_fence before rest Hb). cbv iota beta zeta.
  assert (Hbody : partition "```" (if startswith rest "json" then skip 4 rest else rest)
                  = None).
  { apply partition_absent. destruct (startswith rest "json"); [|exact Hr].
    apply contains_skip_false, Hr. }
  rewrite Hbody. reflexivity.
Qed.

End MoreCleaning.

Section Classification.
Import Py Planner.
Context {DataType AnalysisType : Type}.
Context `{PyEnum DataType} `{PyEnum AnalysisType}.

(** A name that passed the membership test is the name of a member, which
    the lookup by name returns. *)
Lemma by_name_listed {E} `{PyEnum E} (s : string) :
  existsb (String.eqb s) (map member_name (members (E := E))) = true ->
  exists m : E, by_name s = inr m /\ member_name m = s.
Proof.
  intros Hex. unfold by_name.
  destruct (find (fun m => String.eqb (member_name m) s) members) as [m|] eqn:Hf.
  - exists m. split; [reflexivity|].
    apply find_some in Hf as [_ Hm]. apply String.eqb_eq. exact Hm.
  - exfalso. apply existsb_exists in Hex as (n & Hin & Hn).
    apply in_map_iff in Hin as (m & Hm & Hin).
    pose proof (find_none _ _ Hf m Hin) as Hfalse. cbn beta in Hfalse.
    apply String.eqb_eq in Hn. subst. rewrite String.eqb_refl in Hfalse.
    discriminate.
Qed.

Lemma members_of_listed {E} `{PyEnum E} (vs : list json) :
  forallb (in_names (map member_name (members (E := E)))) vs = true ->
  exists ms : list E,
    members_of vs = inr ms /\ vs = map (fun m => JString (member_name m)) ms.
Proof.
  induction vs as [|v vs IH]; intros Hall.
  - exists []. split; reflexivity.
  - cbn [forallb] in Hall. apply andb_true_iff in Hall as [Hv Hall].
    destruct (IH Hall) as (ms & Hms & Hvs).
    destruct v as [| | |s| |]; try discriminate.
    destruct (by_name_listed s Hv) as (m & Hm & Hname).
    exists (m :: ms). cbn [members_of member_of]. rewrite Hm, Hms.
    split; [reflexivity|]. cbn [map]. rewrite Hname, <- Hvs. reflexivity.
Qed.

Lemma py_iter_error (v : json) (e : exn) :
  py_iter v = inl e -> exists msg, e = TypeError msg.
Proof. destruct v; cbn; intros Hv; inversion Hv; eauto. Qed.

(** The checks of [_analyze_query_requirements] on the parsed value. *)
Lemma validate_spec (result : json) :
  match validate (DataType := DataType) (AnalysisType := AnalysisType) result with
  | inr (ds, ans) =>
      exists fields rd ra,
        result = JObject fields
        /\ dict_get fields "required_data_types" = Some rd
        /\ dict_get fields "required_analyses" = Some ra
        /\ py_iter rd = inr (map (fun d => JString (member_name d)) ds)
        /\ py_iter ra = inr (map (fun a => JString (member_name a)) ans)
  | inl cause =>
      In cause [ValueError "Response is not a dictionary";
                ValueError "Response missing required keys";
                ValueError "Invalid data types in response";
                ValueError "Invalid analysis types in response"]
      \/ exists msg, cause = TypeError msg
  end.
Proof.
  unfold validate. destruct result as [| | | | |fields]; try (left; cbn; tauto).
  destruct (dict_get fields "required_data_types") as [rd|] eqn:Hrd;
    [|left; cbn; tauto].
  destruct (dict_get fields "required_analyses") as [ra|] eqn:Hra;
    [|left; cbn; tauto].
  destruct (py_iter rd) as [e|rds] eqn:Hrds; [right; eapply py_iter_error; eauto|].
  destruct (forallb (in_names (map member_name members)) rds) eqn:Hdok;
    cbn [negb]; [|left; cbn; tauto].
  destruct (py_iter ra) as [e|ras] eqn:Hras; [right; eapply py_iter_error; eauto|].
  destruct (forallb (in_names (map member_name members)) ras) eqn:Haok;
    cbn [negb]; [|left; cbn; tauto].
  destruct (members_of_listed rds Hdok) as (ds & -> & ->).
  destruct (members_of_listed ras Haok) as (ans & -> & ->).
  exists fields, rd, ra. auto.
Qed.

(** An object whose two arrays hold names of members passes the checks, and
    the members returned are the named ones. *)
Lemma validate_listed (fields : dict json) (rd ra : json) (rds ras : list json) :
  dict_get fields "required_data_types" = Some rd ->
  dict_get fields "required_analyses" = Some ra ->
  py_iter rd = inr rds ->
  py_iter ra = inr ras ->
  forallb (in_names (map member_name (members (E := DataType)))) rds = true ->
  forallb (in_names (map member_name (members (E := AnalysisType)))) ras = true ->
  exists (ds : list DataType) (ans : list AnalysisType),
    validate (JObject fields) = inr (ds, ans)
    /\ rds = map (fun d => JString (member_name d)) ds
    /\ ras = map (fun a => JString (member_name a)) ans.
Proof.
  intros Hrd Hra Hrds Hras Hdok Haok. unfold validate.
  rewrite Hrd, Hra, Hrds, Hdok, Hras, Haok. cbn [negb].
  destruct (members_of_listed rds Hdok) as (ds & -> & ->).
  destruct (members_of_listed ras Haok) as (ans & -> & ->).
  exists ds, ans. auto.
Qed.

(** X4: what [_analyze_query_requirements] makes of the two outcomes of
    [json.loads] that the model has. When [json.loads] raises
    [JSONDecodeError], the function raises the [ValueError] of a reply that
    cannot be parsed. When [json.loads] returns a value, the function returns
    a classification only for an object whose two arrays iterate to the names
    of the returned members, in order, and raises a [ValueError] otherwise,
    whose cause is one of the four format errors or a value that is not
    iterable. An object whose two arrays hold names of members only is
    always read: the lookup of a member by its name cannot fail once the
    names were checked. *)
Theorem classification_names_the_listed_members
    (json_loads : string -> string + json) (reply : string) :
  (forall msg,
     json_loads (_clean_json_response reply) = inl msg ->
     _analyze_query_requirements (DataType := DataType)
       (AnalysisType := AnalysisType) json_loads reply
     = inl (ValueError ("Failed to parse LLM response: " +:+ msg)))
  /\ (forall result,
        json_loads (_clean_json_response reply) = inr result ->
        match _analyze_query_requirements (DataType := DataType)
                (AnalysisType := AnalysisType) json_loads reply with
        | inr (ds, ans) =>
            exists fields rd ra,
              result = JObject fields
              /\ dict_get fields "required_data_types" = Some rd
              /\ dict_get fields "required_analyses" = Some ra
              /\ py_iter rd = inr (map (fun d => JString (member_name d)) ds)
              /\ py_iter ra = inr (map (fun a => JString (member_name a)) ans)
        | inl e =>
            exists cause,
              e = ValueError ("Invalid response format: " +:+ str_of_exn cause)
              /\ (In cause [ValueError "Response is not a dictionary";
                            ValueError "Response missing required keys";
                            ValueError "Invalid data types in response";
                            ValueError "Invalid analysis types in response"]
                  \/ exists msg, cause = TypeError msg)
        end)
  /\ (forall fields rd ra rds ras,
        json_loads (_clean_json_response reply) = inr (JObject fields) ->
        dict_get fields "required_data_types" = Some rd ->
        dict_get fields "required_analyses" = Some ra ->
        py_iter rd = inr rds ->
        py_iter ra = inr ras ->
        forallb (in_names (map member_name (members (E := DataType)))) rds = true ->
        forallb (in_names (map member_name (members (E := AnalysisType)))) ras = true ->
        exists (ds : list DataType) (ans : list AnalysisType),
          _analyze_query_requirements json_loads reply = inr (ds, ans)
          /\ rds = map (fun d => JString (member_name d)) ds
          /\ ras = map (fun a => JString (member_name a)) ans).
Proof.
  unfold _analyze_query_requirements. split; [|split].
  - intros msg Hloads. rewrite Hloads. reflexivity.
  - intros result Hloads. rewrite Hloads. cbv beta iota.
    pose proof (validate_spec result) as Hv.
    destruct (validate (DataType := DataType) (AnalysisType := AnalysisType) result)
      as [cause|[ds ans]].
    + exists cause. auto.
    + exact Hv.
  - intros fields rd ra rds ras Hloads Hrd Hra Hrds Hras Hdok Haok.
    rewrite Hloads. cbv beta iota.
    destruct (validate_listed fields rd ra rds ras Hrd Hra Hrds Hras Hdok Haok)
      as (ds & ans & Hv & Hds & Hans).
    exists ds, ans. rewrite Hv. auto.
Qed.

Lemma unique_elem (l : list string) (x : string) : In x (unique l) <-> In x l.
Proof.
  induction l as [|n l IH]; [reflexivity|]. cbn [unique].
  split.
  - intros [->|Hin]; [left; reflexivity|].
    apply filter_In in Hin as [Hin _]. right. apply IH, Hin.
  - intros [->|Hin]; [left; reflexivity|].
    destruct (String.eqb x n) eqn:Hx.
    + apply String.eqb_eq in Hx. left. congruence.
    + right. apply filter_In. split; [apply IH, Hin|]. rewrite Hx. reflexivity.
Qed.

Lemma unique_NoDup (l : list string) : NoDup (unique l).
Proof.
  induction l as [|n l IH]; cbn [unique]; constructor.
  - rewrite list_elem_of_In. intros Hin. apply filter_In in Hin as [_ Hn].
    rewrite String.eqb_refl in Hn. discriminate.
  - apply NoDup_ListNoDup, List.NoDup_filter, NoDup_ListNoDup, IH.
Qed.

Lemma first_supporting_registered {C} (supports : C -> bool) (items : dict C)
    (a : string) :
  first_supporting supports items a -> is_Some (dict_get items a).
Proof.
  intros (before & caps & after & -> & _ & _).
  induction before as [|[k c] before IH]; cbn [app dict_get].
  - rewrite String.eqb_refl. eauto.
  - destruct (String.eqb k a); eauto.
Qed.

(** X7: a plan has one step per required data type and per required analysis;
    [required_actors] lists the actors of the steps, each once, and all of
    them are registered. *)
Theorem plan_lists_each_actor_once
    (json_loads : string -> string + json)
    (p : QueryPlanner DataType AnalysisType)
    (query : string) (now : Z) (reply : string)
    (plan : ExecutionPlan DataType) :
  create_execution_plan json_loads p query now reply = inr plan ->
  exists (ds : list DataType) (ans : list AnalysisType),
    _analyze_query_requirements json_loads reply = inr (ds, ans)
    /\ length (steps plan) = length ds + length ans
    /\ NoDup (required_actors plan)
    /\ (forall a, In a (required_actors plan)
                  <-> exists s, In s (steps plan) /\ actor_name s = a)
    /\ (forall a, In a (required_actors plan) ->
                  is_Some (dict_get (actor_capabilities p) a)).
Proof.
  unfold create_execution_plan. intros Hplan.
  destruct (_analyze_query_requirements json_loads reply) as [e|[ds ans]];
    [discriminate|].
  destruct (_create_execution_steps p ds ans) as [e|sts] eqn:Hsteps;
    [discriminate|].
  inversion Hplan; subst plan; clear Hplan. cbn [steps required_actors].
  pose proof (create_steps_spec p ds ans) as Hspec. rewrite Hsteps in Hspec.
  destruct Hspec as (dsteps & asteps & h & -> & Hd & Hh & Hlen & Hk).
  assert (Hmem : forall a, In a (unique (map actor_name (dsteps ++ asteps)))
                  <-> exists s, In s (dsteps ++ asteps) /\ actor_name s = a).
  { intros a. rewrite unique_elem, in_map_iff. split.
    - intros (s & Hs & Hin). eauto.
    - intros (s & Hin & Hs). eauto. }
  exists ds, ans. split; [reflexivity|]. split.
  { rewrite length_app, Hlen, (Forall2_length _ _ _ Hd). reflexivity. }
  split; [apply unique_NoDup|]. split; [exact Hmem|].
  intros a Ha. apply Hmem in Ha as (s & Hin & <-).
  apply in_app_or in Hin as [Hin|Hin].
  - apply list_elem_of_In, list_elem_of_lookup in Hin as [i Hi].
    destruct (Forall2_lookup_r _ _ _ _ _ Hd Hi) as (d & _ & (Hf & _)).
    exact (first_supporting_registered _ _ _ Hf).
  - apply list_elem_of_In, list_elem_of_lookup in Hin as [k Hs].
    assert (Hlt : k < length ans).
    { rewrite <- Hlen. apply lookup_lt_Some in Hs. exact Hs. }
    destruct (lookup_lt_is_Some_2 ans k Hlt) as [a Ha].
    destruct (Hk k a s Ha Hs) as (Hf & _).
    exact (first_supporting_registered _ _ _ Hf).
Qed.

Lemma dict_set_fresh {V} (d : dict V) (k : string) (v : V) :
  dict_get d k = None -> dict_set d k v = d ++ [(k, v)].
Proof.
  induction d as [|[k' v'] d IH]; cbn [dict_get dict_set app]; [reflexivity|].
  destruct (String.eqb k' k); [discriminate|]. intros Hd. rewrite (IH Hd).
  reflexivity.
Qed.

Lemma find_data_actor_app (items more : dict (ActorCapabilities DataType AnalysisType))
    (d : DataType) (a : string) :
  find_data_actor items d = Some a -> find_data_actor (items ++ more) d = Some a.
Proof.
  induction items as [|[n c] items IH]; cbn [find_data_actor app]; [discriminate|].
  destruct (mem d (supported_data_types c)); auto.
Qed.

Lemma find_analysis_actor_app (items more : dict (ActorCapabilities DataType AnalysisType))
    (an : AnalysisType) (a : string) :
  find_analysis_actor items an = Some a ->
  find_analysis_actor (items ++ more) an = Some a.
Proof.
  induction items as [|[n c] items IH]; cbn [find_analysis_actor app]; [discriminate|].
  destruct (mem an (supported_analyses c)); auto.
Qed.

(** X8: registering one more actor, under a name that is not yet registered,
    takes no assignment away from the actors registered before: whatever
    actor was found for a data type or an analysis is still found, and every
    list of steps that could be created is created unchanged. *)
Theorem late_registration_keeps_assignments
    (p : QueryPlanner DataType AnalysisType) (name : string)
    (capabilities : ActorCapabilities DataType AnalysisType) :
  dict_get (actor_capabilities p) name = None ->
  let p' := register_actor p name capabilities in
  (forall d a, _find_best_actor_for_data p d = inr a ->
               _find_best_actor_for_data p' d = inr a)
  /\ (forall an a, _find_best_actor_for_analysis p an = inr a ->
                   _find_best_actor_for_analysis p' an = inr a)
  /\ (forall ds ans steps, _create_execution_steps p ds ans = inr steps ->
                           _create_execution_steps p' ds ans = inr steps).
Proof.
  intros Hfresh p'.
  assert (Hitems : actor_capabilities p'
                   = actor_capabilities p ++ [(name, capabilities)]).
  { unfold p', register_actor. cbn [actor_capabilities].
    apply dict_set_fresh, Hfresh. }
  assert (Hdata : forall d a, _find_best_actor_for_data p d = inr a ->
                              _find_best_actor_for_data p' d = inr a).
  { intros d a. unfold _find_best_actor_for_data. rewrite Hitems.
    destruct (find_data_actor (actor_capabilities p) d) as [b|] eqn:Hf;
      [|discriminate].
    rewrite (find_data_actor_app _ _ _ _ Hf). auto. }
  assert (Han : forall an a, _find_best_actor_for_analysis p an = inr a ->
                             _find_best_actor_for_analysis p' an = inr a).
  { intros an a. unfold _find_best_actor_for_analysis. rewrite Hitems.
    destruct (find_analysis_actor (actor_capabilities p) an) as [b|] eqn:Hf;
      [|discriminate].
    rewrite (find_analysis_actor_app _ _ _ _ Hf). auto. }
  split; [exact Hdata|]. split; [exact Han|].
  assert (Hds : forall ds acc h r, data_steps p ds acc h = inr r ->
                                   data_steps p' ds acc h = inr r).
  { induction ds as [|d ds IH]; intros acc h r; cbn [data_steps]; [auto|].
    destruct (_find_best_actor_for_data p d) as [e|a] eqn:Hf; [discriminate|].
    rewrite (Hdata d a Hf). apply IH. }
  assert (Hans : forall ans acc h r, analysis_steps p ans acc h = inr r ->
                                     analysis_steps p' ans acc h = inr r).
  { induction ans as [|an ans IH]; intros acc h r; cbn [analysis_steps]; [auto|].
    destruct (_find_best_actor_for_analysis p an) as [e|a] eqn:Hf; [discriminate|].
    rewrite (Han an a Hf). apply IH. }
  intros ds ans steps. unfold _create_execution_steps.
  destruct (data_steps p ds [] []) as [e|[sts h]] eqn:Hd; [discriminate|].
  rewrite (Hds _ _ _ _ Hd). apply Hans.
Qed.

End Classification.

Section RunFacts.
Import Py Backend Agent.

Lemma bind_Return {S A B} (m : M S A) (k : A -> M S B) (s : S) (b : B) (s' : S) :
  bind m k s = (Return b, s') ->
  exists a s1, m s = (Return a, s1) /\ k a s1 = (Return b, s').
Proof.
  unfold bind. destruct (m s) as [[a|e|] s1]; try discriminate. eauto.
Qed.

Lemma run_chain_unfold (v : version) (max_retries : Z) (query : string)
    (thread_id : option string) :
  run_chain v max_retries query thread_id
  = bind self (fun a =>
    bind (if truthy (assistant_id a) then ret tt else initialize v) (fun _ =>
    run_on_thread v max_retries query thread_id)).
Proof. reflexivity. Qed.

(** A run from the choice of the thread on, computed from its start. *)
Lemma run_on_thread_started (v : version) (max_retries : Z) (query : string)
    (thread_id : option string) (a : CodeInterpreterAgent) (w : World) :
  run_on_thread v max_retries query thread_id (a, w)
  = let '(t, r, w0) := start_run a query thread_id w in
    finish_run v max_retries a t r w0.
Proof.
  unfold run_on_thread, start_run, finish_run.
  destruct (truthy thread_id).
  - unfold bind at 1, ret at 1.
    unfold bind at 1, on_world at 1, messages_create, modify. cbn [snd fst].
    unfold bind at 1, self. cbn [fst].
    unfold bind at 1, on_world at 1, runs_create, create. cbn [snd fst].
    unfold bind at 1, on_world at 1. cbn [snd fst].
    match goal with
    | |- context [match ?x with (r, w') => (r, (a, w')) end] =>
        destruct x as [[[]|e|] w1]
    end; try reflexivity.
    unfold bind at 1, on_world at 1. cbn [snd fst].
    destruct (messages_list _ w1) as [[data|e|] w2]; reflexivity.
  - unfold bind at 1, on_world at 1, threads_create, create. cbn [snd fst].
    unfold bind at 1, on_world at 1, messages_create, modify. cbn [snd fst].
    unfold bind at 1, self. cbn [fst].
    unfold bind at 1, on_world at 1, runs_create, create. cbn [snd fst].
    unfold bind at 1, on_world at 1. cbn [snd fst].
    match goal with
    | |- context [match ?x with (r, w') => (r, (a, w')) end] =>
        destruct x as [[[]|e|] w1]
    end; try reflexivity.
    unfold bind at 1, on_world at 1. cbn [snd fst].
    destruct (messages_list _ w1) as [[data|e|] w2]; reflexivity.
Qed.

(** A run of an agent whose assistant exists, computed from its start. *)
Lemma run_chain_started (v : version) (max_retries : Z) (query : string)
    (thread_id : option string) (a : CodeInterpreterAgent) (w : World) :
  truthy (assistant_id a) = true ->
  run_chain v max_retries query thread_id (a, w)
  = let '(t, r, w0) := start_run a query thread_id w in
    finish_run v max_retries a t r w0.
Proof.
  intros Hinit. rewrite run_chain_unfold.
  unfold bind at 1, self. cbn [fst]. rewrite Hinit.
  unfold bind at 1, ret at 1. apply run_on_thread_started.
Qed.

Lemma start_run_script (a : CodeInterpreterAgent) (query : string)
    (thread_id : option string) (w : World) :
  let '(t, r, w0) := start_run a query thread_id w in
  polls w0 = polls w /\ inboxes w0 = inboxes w
  /\ (truthy thread_id = true -> Some t = thread_id).
Proof.
  unfold start_run. destruct (truthy thread_id) eqn:Ht; cbn.
  - repeat split. intros _. destruct thread_id; [reflexivity | discriminate].
  - repeat split. discriminate.
Qed.

End RunFacts.

Section PollingV1.
Import Py Backend Agent.

(** One iteration of the [try] block of version 1. *)
Lemma try_body_v1_step (t r : string) (max_retries retries : Z)
    (p : Poll) (rest : list Poll) (w : World) :
  polls w = p :: rest ->
  try_body_v1 t r max_retries retries w
  = (match p with
     | Failure e => Raise e
     | Status s =>
         if String.eqb s "completed" then Return true
         else if existsb (String.eqb s) failure_statuses
         then Raise (Exception ("Run failed with status: " +:+ s))
         else if (retries >=? max_retries)%Z
         then Raise (Exception "Max retries reached")
         else Return false
     end, after_retrieve t r w).
Proof.
  intros Hpolls. unfold try_body_v1, bind, runs_retrieve, after_retrieve.
  rewrite Hpolls. cbn [tail record trace ids issued unreadable undeletable
                       polls inboxes completions].
  destruct p as [s|e]; [|reflexivity].
  destruct (String.eqb s "completed"); [reflexivity|].
  destruct (existsb (String.eqb s) failure_statuses); [reflexivity|].
  destruct (retries >=? max_retries)%Z; reflexivity.
Qed.

Lemma after_retrieve_calls (t r : string) (w : World) :
  adds_calls w (after_retrieve t r w) [RunsRetrieve t r].
Proof. reflexivity. Qed.

Lemma adds_calls_cons (w w1 w' : World) (c : Call) (calls : list Call) :
  adds_calls w w1 [c] -> adds_calls w1 w' calls -> adds_calls w w' (c :: calls).
Proof. intros H1 H2. exact (adds_calls_trans w w1 w' [c] calls H1 H2). Qed.

(** The loop of version 1 while fewer than [max_retries] errors have been
    met: answers that neither complete the run nor are errors are passed
    over, errors are counted. *)
Lemma poll_v1_gives_up (t r : string) (max_retries : Z) (p : Poll)
    (post : list Poll) (e : exn) :
  poll_error p = Some e ->
  forall (pre : list Poll) (fuel : nat) (retries : Z) (w : World),
    polls w = pre ++ p :: post ->
    forallb (fun q => negb (completes q)) pre = true ->
    (0 <= retries)%Z ->
    (retries + Z.of_nat (length (List.filter errors pre)) + 1 = max_retries)%Z ->
    length pre < fuel ->
    exists w',
      poll_v1 fuel t r max_retries retries w
      = (Raise (Exception ("Max retries reached: " +:+ str_of_exn e)), w')
      /\ polls w' = post
      /\ inboxes w' = inboxes w
      /\ adds_calls w w' (repeat (RunsRetrieve t r) (S (length pre))).
Proof.
  intros He. induction pre as [|q pre IH]; intros fuel retries w Hpolls Hpre Hr Hcount Hfuel;
    (destruct fuel as [|fuel]; [cbn in Hfuel; lia|]); cbn [poll_v1].
  - cbn [app] in Hpolls. rewrite (try_body_v1_step _ _ _ _ _ _ _ Hpolls).
    cbn [List.filter length] in Hcount.
    assert (Heq : (retries + 1 =? max_retries)%Z = true) by (apply Z.eqb_eq; lia).
    exists (after_retrieve t r w).
    assert (Hrest : polls (after_retrieve t r w) = post).
    { unfold after_retrieve. cbn [polls]. rewrite Hpolls. reflexivity. }
    destruct p as [s|e0]; unfold poll_error in He.
    + destruct (String.eqb s "completed"); [discriminate|].
      destruct (existsb (String.eqb s) failure_statuses); [|discriminate].
      inversion He; subst e. rewrite Heq. split; [reflexivity|]. split; [exact Hrest|].
      split; [reflexivity|]. apply after_retrieve_calls.
    + inversion He; subst e0. rewrite Heq. split; [reflexivity|].
      split; [exact Hrest|]. split; [reflexivity|]. apply after_retrieve_calls.
  - cbn [app] in Hpolls. rewrite (try_body_v1_step _ _ _ _ _ _ _ Hpolls).
    cbn [forallb] in Hpre. apply andb_true_iff in Hpre as [Hq Hpre].
    assert (Hrest : polls (after_retrieve t r w) = pre ++ p :: post).
    { unfold after_retrieve. cbn [polls]. rewrite Hpolls. reflexivity. }
    assert (Hfuel' : length pre < fuel) by (cbn in Hfuel; lia).
    cbn [List.filter] in Hcount. unfold errors at 1 in Hcount.
    assert (Hstep : forall retries',
              (0 <= retries')%Z ->
              (retries' + Z.of_nat (length (List.filter errors pre)) + 1 = max_retries)%Z ->
              exists w',
                poll_v1 fuel t r max_retries retries' (after_retrieve t r w)
                = (Raise (Exception ("Max retries reached: " +:+ str_of_exn e)), w')
                /\ polls w' = post
                /\ inboxes w' = inboxes w
                /\ adds_calls w w' (repeat (RunsRetrieve t r) (S (length (q :: pre))))).
    { intros retries' Hr' Hc'.
      destruct (IH fuel retries' _ Hrest Hpre Hr' Hc' Hfuel')
        as (w' & Hrun & Hp & Hin & Hcalls).
      exists w'. split; [exact Hrun|]. split; [exact Hp|]. split; [exact Hin|].
      exact (adds_calls_cons _ _ _ _ _ (after_retrieve_calls t r w) Hcalls). }
    destruct q as [s|e0]; unfold completes in Hq; unfold poll_error in Hcount.
    + apply negb_true_iff in Hq. rewrite Hq in *.
      destruct (existsb (String.eqb s) failure_statuses); cbn [length] in Hcount.
      * assert (Hne : (retries + 1 =? max_retries)%Z = false) by (apply Z.eqb_neq; lia).
        rewrite Hne. apply Hstep; lia.
      * assert (Hlt : (retries >=? max_retries)%Z = false) by (rewrite Z.geb_leb; apply Z.leb_gt; lia).
        rewrite Hlt. apply Hstep; lia.
    + cbn [length] in Hcount.
      assert (Hne : (retries + 1 =? max_retries)%Z = false) by (apply Z.eqb_neq; lia).
      rewrite Hne. apply Hstep; lia.
Qed.

Lemma poll_v1_returns (t r : string) (max_retries : Z) (post : list Poll) :
  forall (pre : list Poll) (fuel : nat) (retries : Z) (w : World),
    polls w = pre ++ Status "completed" :: post ->
    forallb (fun q => negb (completes q)) pre = true ->
    (0 <= retries)%Z ->
    (retries + Z.of_nat (length (List.filter errors pre)) < max_retries)%Z ->
    length pre < fuel ->
    exists w',
      poll_v1 fuel t r max_retries retries w = (Return tt, w')
      /\ polls w' = post
      /\ inboxes w' = inboxes w
      /\ adds_calls w w' (repeat (RunsRetrieve t r) (S (length pre))).
Proof.
  induction pre as [|q pre IH]; intros fuel retries w Hpolls Hpre Hr Hcount Hfuel;
    (destruct fuel as [|fuel]; [cbn in Hfuel; lia|]); cbn [poll_v1].
  - cbn [app] in Hpolls. rewrite (try_body_v1_step _ _ _ _ _ _ _ Hpolls).
    cbn. exists (after_retrieve t r w). split; [reflexivity|].
    unfold after_retrieve at 1. cbn [polls]. rewrite Hpolls.
    split; [reflexivity|]. split; [reflexivity|]. apply after_retrieve_calls.
  - cbn [app] in Hpolls. rewrite (try_body_v1_step _ _ _ _ _ _ _ Hpolls).
    cbn [forallb] in Hpre. apply andb_true_iff in Hpre as [Hq Hpre].
    assert (Hrest : polls (after_retrieve t r w) = pre ++ Status "completed" :: post).
    { unfold after_retrieve. cbn [polls]. rewrite Hpolls. reflexivity. }
    assert (Hfuel' : length pre < fuel) by (cbn in Hfuel; lia).
    cbn [List.filter] in Hcount. unfold errors at 1 in Hcount.
    assert (Hstep : forall retries',
              (0 <= retries')%Z ->
              (retries' + Z.of_nat (length (List.filter errors pre)) < max_retries)%Z ->
              exists w',
                poll_v1 fuel t r max_retries retries' (after_retrieve t r w)
                = (Return tt, w')
                /\ polls w' = post
                /\ inboxes w' = inboxes w
                /\ adds_calls w w' (repeat (RunsRetrieve t r) (S (length (q :: pre))))).
    { intros retries' Hr' Hc'.
      destruct (IH fuel retries' _ Hrest Hpre Hr' Hc' Hfuel')
        as (w' & Hrun & Hp & Hin & Hcalls).
      exists w'. split; [exact Hrun|]. split; [exact Hp|]. split; [exact Hin|].
      exact (adds_calls_cons _ _ _ _ _ (after_retrieve_calls t r w) Hcalls). }
    destruct q as [s|e0]; unfold completes in Hq; unfold poll_error in Hcount.
    + apply negb_true_iff in Hq. rewrite Hq in *.
      destruct (existsb (String.eqb s) failure_statuses); cbn [length] in Hcount.
      * assert (Hne : (retries + 1 =? max_retries)%Z = false) by (apply Z.eqb_neq; lia).
        rewrite Hne. apply Hstep; lia.
      * assert (Hlt : (retries >=? max_retries)%Z = false) by (rewrite Z.geb_leb; apply Z.leb_gt; lia).
        rewrite Hlt. apply Hstep; lia.
    + cbn [length] in Hcount.
      assert (Hne : (retries + 1 =? max_retries)%Z = false) by (apply Z.eqb_neq; lia).
      rewrite Hne. apply Hstep; lia.
Qed.

(** With [max_retries] at zero or below the count of retries never equals
    it: the loop ends only when an answer completes the run. *)
Lemma poll_v1_without_retries (t r : string) (max_retries : Z) :
  (max_retries <= 0)%Z ->
  forall (script : list Poll) (fuel : nat) (retries : Z) (w : World),
    polls w = script ->
    (0 <= retries)%Z ->
    length script < fuel ->
    fst (poll_v1 fuel t r max_retries retries w)
    = if existsb completes script then Return tt else Pending.
Proof.
  intros Hmax. induction script as [|q script IH]; intros fuel retries w Hpolls Hr Hfuel;
    (destruct fuel as [|fuel]; [cbn in Hfuel; lia|]); cbn [poll_v1].
  - unfold try_body_v1, bind, runs_retrieve. rewrite Hpolls. reflexivity.
  - rewrite (try_body_v1_step _ _ _ _ _ _ _ Hpolls).
    assert (Hrest : polls (after_retrieve t r w) = script).
    { unfold after_retrieve. cbn [polls]. rewrite Hpolls. reflexivity. }
    assert (Hfuel' : length script < fuel) by (cbn in Hfuel; lia).
    assert (Hne : (retries + 1 =? max_retries)%Z = false) by (apply Z.eqb_neq; lia).
    cbn [existsb].
    destruct q as [s|e0]; cbn [completes].
    + destruct (String.eqb s "completed"); [reflexivity|]. cbn [orb].
      destruct (existsb (String.eqb s) failure_statuses).
      * rewrite Hne. apply IH; [exact Hrest | lia | exact Hfuel'].
      * destruct (retries >=? max_retries)%Z.
        -- rewrite Hne. apply IH; [exact Hrest | lia | exact Hfuel'].
        -- apply IH; [exact Hrest | lia | exact Hfuel'].
    + cbn [orb]. rewrite Hne. apply IH; [exact Hrest | lia | exact Hfuel'].
Qed.

(** X12: version 1, for an agent whose assistant exists and [max_retries] at
    least one: the run is given up at the [max_retries]-th error met before
    any answer completes it, whether the error is an exception of the call or
    a status of failure, and the exception raised is that of the retries,
    carrying the text of the last error. Answers that are neither errors nor
    completions are waited through without limit. *)
Theorem v1_run_is_given_up_at_max_retries
    (query : string) (additional_files : option (list string))
    (thread_id : option string) (max_retries retry_delay : Z)
    (a : CodeInterpreterAgent) (w : World)
    (pre : list Poll) (p : Poll) (post : list Poll) (e : exn) :
  truthy (assistant_id a) = true ->
  polls w = pre ++ p :: post ->
  forallb (fun q => negb (completes q)) pre = true ->
  (Z.of_nat (length (List.filter errors pre)) + 1 = max_retries)%Z ->
  poll_error p = Some e ->
  exists w',
    run_analysis_v1 query additional_files thread_id max_retries retry_delay (a, w)
    = (Raise (Exception ("Max retries reached: " +:+ str_of_exn e)), (a, w'))
    /\ polls w' = post
    /\ inboxes w' = inboxes w.
Proof.
  intros Hinit Hpolls Hpre Hcount He.
  rewrite run_analysis_v1_chain, (run_chain_started _ _ _ _ _ _ Hinit).
  pose proof (start_run_script a query thread_id w) as Hstart.
  destruct (start_run a query thread_id w) as [[t r] w0].
  destruct Hstart as (Hp0 & Hi0 & _).
  unfold finish_run, wait, wait_v1.
  edestruct (poll_v1_gives_up t r max_retries p post e He pre
               (S (length (polls w0))) 0%Z w0) as (w' & Hrun & Hpost & Hin & Hcalls).
  - rewrite Hp0. exact Hpolls.
  - exact Hpre.
  - lia.
  - lia.
  - rewrite Hp0, Hpolls, length_app. cbn. lia.
  - rewrite Hrun. exists w'. split; [reflexivity|]. split; [exact Hpost|].
    congruence.
Qed.

End PollingV1.

Section RunTheorems.
Import Py Backend Agent.

(** X13: version 1, for an agent whose assistant exists: when an answer completes
    the run before [max_retries] errors were met, the run returns what the
    first assistant message holds, on the thread that was asked for. *)
Theorem v1_run_returns_when_completed_in_time
    (query : string) (additional_files : option (list string))
    (thread_id : option string) (max_retries retry_delay : Z)
    (a : CodeInterpreterAgent) (w : World)
    (pre post : list Poll)
    (data : list ThreadMessage) (rest : list (list ThreadMessage)) :
  truthy (assistant_id a) = true ->
  polls w = pre ++ Status "completed" :: post ->
  forallb (fun q => negb (completes q)) pre = true ->
  (Z.of_nat (length (List.filter errors pre)) < max_retries)%Z ->
  inboxes w = data :: rest ->
  exists t r w',
    run_analysis_v1 query additional_files thread_id max_retries retry_delay (a, w)
    = (Return (extract_v1 data t r), (a, w'))
    /\ polls w' = post
    /\ inboxes w' = rest
    /\ (truthy thread_id = true -> Some t = thread_id).
Proof.
  intros Hinit Hpolls Hpre Hcount Hinbox.
  rewrite run_analysis_v1_chain, (run_chain_started _ _ _ _ _ _ Hinit).
  pose proof (start_run_script a query thread_id w) as Hstart.
  destruct (start_run a query thread_id w) as [[t r] w0].
  destruct Hstart as (Hp0 & Hi0 & Ht).
  unfold finish_run, wait, wait_v1.
  edestruct (poll_v1_returns t r max_retries post pre
               (S (length (polls w0))) 0%Z w0) as (w1 & Hrun & Hpost & Hin & Hcalls).
  - rewrite Hp0. exact Hpolls.
  - exact Hpre.
  - lia.
  - lia.
  - rewrite Hp0, Hpolls, length_app. cbn. lia.
  - rewrite Hrun. unfold messages_list. rewrite Hin, Hi0, Hinbox.
    eexists t, r, _. split; [reflexivity|]. cbn [polls inboxes record].
    split; [exact Hpost|]. split; [reflexivity | exact Ht].
Qed.

(** X14: version 1 with [max_retries] at zero or below, for an agent whose
    assistant exists: the run never raises, whatever the service answers,
    failures of the run and exceptions of the call included; while no answer
    completes the run it goes on polling. *)
Theorem v1_run_without_retries_never_gives_up
    (query : string) (additional_files : option (list string))
    (thread_id : option string) (max_retries retry_delay : Z)
    (a : CodeInterpreterAgent) (w : World) :
  truthy (assistant_id a) = true ->
  (max_retries <= 0)%Z ->
  let outcome :=
    fst (run_analysis_v1 query additional_files thread_id max_retries retry_delay
           (a, w)) in
  (forall e, outcome <> Raise e)
  /\ (existsb completes (polls w) = false -> outcome = Pending).
Proof.
  intros Hinit Hmax outcome. subst outcome.
  rewrite run_analysis_v1_chain, (run_chain_started _ _ _ _ _ _ Hinit).
  pose proof (start_run_script a query thread_id w) as Hstart.
  destruct (start_run a query thread_id w) as [[t r] w0].
  destruct Hstart as (Hp0 & Hi0 & _).
  unfold finish_run, wait, wait_v1.
  pose proof (poll_v1_without_retries t r max_retries Hmax (polls w0)
                (S (length (polls w0))) 0%Z w0 eq_refl ltac:(lia) ltac:(lia)) as Hout.
  rewrite Hp0 in Hout at 2.
  destruct (poll_v1 (S (length (polls w0))) t r max_retries 0 w0) as [[[]|e|] w1];
    cbn [fst] in Hout.
  - split.
    + intros e. unfold messages_list. destruct (inboxes w1); discriminate.
    + intros Hnone. rewrite Hnone in Hout. discriminate.
  - destruct (existsb completes (polls w)); discriminate.
  - split; [discriminate | reflexivity].
Qed.

Lemma extract_thread (v : version) (data : list ThreadMessage) (t r : string) :
  match extract v data t r with
  | Reply _ t' r' => t' = t /\ r' = r
  | NoReply => Forall (fun m => role m <> "assistant") data
  end.
Proof.
  induction data as [|m data IH]; [destruct v; constructor|].
  assert (Hrole : String.eqb (role m) "assistant" = false ->
                  role m <> "assistant").
  { intros Hne Heq. rewrite Heq in Hne. discriminate. }
  destruct v; cbn [extract extract_v1 extract_v2] in *;
    destruct (String.eqb (role m) "assistant"); try (split; reflexivity).
  - destruct (extract_v1 data t r); [exact IH | constructor; auto].
  - destruct (extract_v2 data t r); [exact IH | constructor; auto].
Qed.

Lemma finish_run_thread (v : version) (max_retries : Z) (a : CodeInterpreterAgent)
    (t r : string) (w : World) (res : AnalysisResult) (s' : St) :
  finish_run v max_retries a t r w = (Return res, s') ->
  match res with Reply _ t' _ => t' = t | NoReply => True end.
Proof.
  unfold finish_run. destruct (wait v t r max_retries w) as [[[]|e|] w1];
    try discriminate.
  destruct (messages_list t w1) as [[data|e|] w2]; try discriminate.
  intros Hrun. inversion Hrun; subst.
  pose proof (extract_thread v data t r) as Hx.
  destruct (extract v data t r); [tauto | exact I].
Qed.

(** A reply carries the thread it was made on. *)
Lemma run_chain_reply_thread (v : version) (max_retries : Z) (query t : string)
    (s : St) (res : AnalysisResult) (s' : St) :
  t <> EmptyString ->
  run_chain v max_retries query (Some t) s = (Return res, s') ->
  match res with Reply _ t' _ => t' = t | NoReply => True end.
Proof.
  intros Ht Hrun. rewrite run_chain_unfold in Hrun.
  apply bind_Return in Hrun as (a & s1 & _ & Hrun).
  apply bind_Return in Hrun as ([] & [a2 w2] & _ & Hrun).
  rewrite run_on_thread_started in Hrun.
  pose proof (start_run_script a2 query (Some t) w2) as Hstart.
  destruct (start_run a2 query (Some t) w2) as [[t0 r0] w0].
  destruct Hstart as (_ & _ & Heq).
  assert (Htruthy : truthy (Some t) = true)
    by (destruct t; [contradiction | reflexivity]).
  specialize (Heq Htruthy). inversion Heq; subst t0.
  exact (finish_run_thread _ _ _ _ _ _ _ _ Hrun).
Qed.

(** X15: in both versions, a run that is given a thread answers with that
    thread: the reply of [run_analysis] never names another one. *)
Theorem reply_carries_the_requested_thread
    (t query : string) (additional_files : option (list string))
    (max_retries retry_delay : Z) (s : St) :
  t <> EmptyString ->
  match fst (run_analysis_v1 query additional_files (Some t) max_retries
               retry_delay s) with
  | Return (Reply _ t' _) => t' = t
  | _ => True
  end
  /\ match fst (run_analysis_v2 query (Some t) s) with
     | Return (Reply _ t' _) => t' = t
     | _ => True
     end.
Proof.
  intros Ht. split.
  - rewrite run_analysis_v1_chain.
    destruct (run_chain V1 max_retries query (Some t) s) as [[res|e|] s'] eqn:Hrun;
      cbn [fst]; auto.
    pose proof (run_chain_reply_thread _ _ _ _ _ _ _ Ht Hrun) as Hres.
    destruct res; auto.
  - rewrite run_analysis_v2_chain.
    destruct (run_chain V2 0 query (Some t) s) as [[res|e|] s'] eqn:Hrun;
      cbn [fst]; auto.
    pose proof (run_chain_reply_thread _ _ _ _ _ _ _ Ht Hrun) as Hres.
    destruct res; auto.
Qed.

End RunTheorems.

Section NodeFacts.
Import Py Backend Agent Router Graph.

(** X3: a node that finds a shared thread in the state runs its agent on that
    thread, creating none, and hands the same thread back; the message it
    adds is signed with the name of the node. *)
Theorem node_keeps_the_shared_thread
    (v : version) (name : string) (state : GraphState)
    (s : St) (r : outcome Update) (s' : St) :
  shared_thread state <> EmptyString ->
  node_func v name state s = (r, s') ->
  world_calls (on_thread (shared_thread state)) s s'
  /\ match r with
     | Return u =>
         new_shared_thread u = shared_thread state
         /\ exists c, new_messages u = [ {| content := c; Router.name := Some name |} ]
     | _ => True
     end.
Proof.
  intros Ht Hrun. unfold node_func in Hrun.
  destruct (last (messages state)) as [m|].
  - unfold bind in Hrun.
    destruct (run_analysis v (content m) (Some (shared_thread state)) s)
      as [[res|e|] s1] eqn:Hagent;
      pose proof (run_analysis_on_thread v (content m) _ Ht _ _ _ Hagent) as Hcalls.
    + rewrite run_analysis_chain in Hagent.
      pose proof (run_chain_reply_thread _ _ _ _ _ _ _ Ht Hagent) as Hres.
      destruct res as [c t' r'|]; cbn [get_content get_thread_id] in Hrun.
      * inversion Hrun; subst. split; [exact Hcalls|].
        cbn [new_shared_thread new_messages default]. eauto.
      * inversion Hrun; subst. split; [exact Hcalls | exact I].
    + inversion Hrun; subst. split; [exact Hcalls | exact I].
    + inversion Hrun; subst. split; [exact Hcalls | exact I].
  - inversion Hrun; subst. split; [|exact I]. unfold world_calls. reflexivity.
Qed.

End NodeFacts.

Section InitializeFacts.
Import Py Backend Agent.

Lemma with_file_mapping_same (a : CodeInterpreterAgent) :
  with_file_mapping a (file_mapping a) = a.
Proof. destruct a; reflexivity. Qed.

Lemma dict_get_set_is_Some {V} (d : dict V) (k k' : string) (v : V) :
  is_Some (dict_get d k') -> is_Some (dict_get (dict_set d k v) k').
Proof.
  intros Hk. destruct (String.eqb k k') eqn:Heq.
  - apply String.eqb_eq in Heq. subst k'. rewrite dict_get_set_eq. eauto.
  - rewrite dict_get_set_ne; [exact Hk|]. intros ->.
    rewrite String.eqb_refl in Heq. discriminate.
Qed.

(** One upload of a file that can be opened. *)
Lemma upload_file_readable (path : string) (a : CodeInterpreterAgent) (w : World) :
  readable w path ->
  _upload_file path (a, w)
  = (Return (ids w (issued w)),
     (with_file_mapping a
        (dict_set (file_mapping a) (ids w (issued w))
           {| filename := basename path; Agent.path := path |}),
      snd (create (FilesCreate path) w))).
Proof.
  intros Hr. unfold readable in Hr.
  unfold _upload_file, bind, on_world, files_create. cbn [snd fst].
  rewrite Hr. reflexivity.
Qed.

Lemma next_ids_S (w : World) (c : Call) (n : nat) :
  next_ids w (S n) = ids w (issued w) :: next_ids (snd (create c w)) n.
Proof.
  unfold next_ids. cbn [seq map create snd ids issued record].
  rewrite Nat.add_0_r. f_equal. rewrite <- seq_shift, map_map.
  apply map_ext. intros i. f_equal. lia.
Qed.

(** The upload loop when every file can be opened: one upload per file, in
    order; the agent changes in its file mapping only, which keeps its keys
    and gets the new identifiers. *)
Lemma upload_all_readable (paths : list string) :
  forall (acc : list string) (a : CodeInterpreterAgent) (w : World),
    Forall (readable w) paths ->
    exists fm w',
      upload_all paths acc (a, w)
      = (Return (acc ++ next_ids w (length paths)), (with_file_mapping a fm, w'))
      /\ adds_calls w w' (map FilesCreate paths)
      /\ issued w' = issued w + length paths
      /\ ids w' = ids w
      /\ (forall k, is_Some (dict_get (file_mapping a) k) -> is_Some (dict_get fm k))
      /\ Forall (fun id => is_Some (dict_get fm id)) (next_ids w (length paths)).
Proof.
  induction paths as [|path rest IH]; intros acc a w Hall.
  - exists (file_mapping a), w. cbn [upload_all length]. unfold ret, next_ids.
    cbn [seq map]. rewrite app_nil_r, with_file_mapping_same, Nat.add_0_r.
    split; [reflexivity|]. split; [apply adds_calls_refl|]. repeat split; auto.
  - apply Forall_cons in Hall as [Hpath Hrest].
    cbn [upload_all]. unfold bind at 1. rewrite (upload_file_readable _ _ _ Hpath).
    set (a1 := with_file_mapping a _). set (w1 := snd (create (FilesCreate path) w)).
    destruct (IH (acc ++ [ids w (issued w)]) a1 w1 Hrest)
      as (fm & w' & Hrun & Hcalls & Hissued & Hids & Hkeep & Hnew).
    exists fm, w'. rewrite Hrun.
    cbn [length]. rewrite (next_ids_S w (FilesCreate path)). fold w1.
    split; [rewrite <- app_assoc; reflexivity|].
    split.
    { exact (adds_calls_cons w w1 w' _ _ eq_refl Hcalls). }
    split; [rewrite Hissued; cbn; lia|]. split; [exact Hids|]. split.
    + intros k Hk. apply Hkeep. unfold a1. cbn [with_file_mapping file_mapping].
      apply dict_get_set_is_Some, Hk.
    + constructor; [|exact Hnew].
      apply Hkeep. unfold a1. cbn [with_file_mapping file_mapping].
      rewrite dict_get_set_eq. eauto.
Qed.

(** The upload loop when a file cannot be opened: the files before it are
    uploaded and recorded, the error of the upload is raised. *)
Lemma upload_all_unreadable (pre : list string) (bad : string) (post : list string) :
  forall (acc : list string) (a : CodeInterpreterAgent) (w : World),
    Forall (readable w) pre ->
    ~ readable w bad ->
    exists e fm w',
      upload_all (pre ++ bad :: post) acc (a, w)
      = (Raise e, (with_file_mapping a fm, w'))
      /\ adds_calls w w' (map FilesCreate pre)
      /\ (forall k, is_Some (dict_get (file_mapping a) k) -> is_Some (dict_get fm k))
      /\ Forall (fun id => is_Some (dict_get fm id)) (next_ids w (length pre)).
Proof.
  induction pre as [|path rest IH]; intros acc a w Hall Hbad.
  - exists (Exception ("cannot open " +:+ bad)), (file_mapping a), w.
    cbn [app upload_all]. unfold bind, _upload_file, bind, on_world, files_create.
    cbn [snd fst]. unfold readable in Hbad. apply not_false_is_true in Hbad.
    rewrite Hbad, with_file_mapping_same. split; [reflexivity|].
    split; [apply adds_calls_refl|]. split; [auto | constructor].
  - apply Forall_cons in Hall as [Hpath Hrest].
    cbn [app upload_all]. unfold bind at 1. rewrite (upload_file_readable _ _ _ Hpath).
    set (a1 := with_file_mapping a _). set (w1 := snd (create (FilesCreate path) w)).
    destruct (IH (acc ++ [ids w (issued w)]) a1 w1 Hrest Hbad)
      as (e & fm & w' & Hrun & Hcalls & Hkeep & Hnew).
    exists e, fm, w'. rewrite Hrun. split; [reflexivity|]. split.
    { exact (adds_calls_cons w w1 w' _ _ eq_refl Hcalls). }
    cbn [length]. rewrite (next_ids_S w (FilesCreate path)). fold w1. split.
    + intros k Hk. apply Hkeep. unfold a1. cbn [with_file_mapping file_mapping].
      apply dict_get_set_is_Some, Hk.
    + constructor; [|exact Hnew].
      apply Hkeep. unfold a1. cbn [with_file_mapping file_mapping].
      rewrite dict_get_set_eq. eauto.
Qed.

(** X17: [initialize], when every file of the agent can be opened: the files are
    uploaded one by one, in order, then one assistant is created with the
    identifiers of exactly these uploads attached (version 1 passes no
    [tool_resources] when there is no file) and with instructions that end
    with the file mapping; the assistant id is the identifier the creation
    gave; the file mapping keeps the entries it had and holds every new
    identifier. *)
Theorem initialize_uploads_then_creates
    (v : version) (a : CodeInterpreterAgent) (w : World) :
  Forall (readable w) (files a) ->
  let file_ids := next_ids w (length (files a)) in
  exists a' w',
    initialize v (a, w) = (Return tt, (a', w'))
    /\ adds_calls w w'
         (map FilesCreate (files a)
          ++ [AssistantsCreate (name a)
                (instructions a +:+ nl +:+ nl +:+ _create_file_instructions a')
                (tools a) (model a)
                (match v with
                 | V1 => match file_ids with [] => None | _ => Some file_ids end
                 | V2 => None
                 end)
                (match v with V1 => None | V2 => Some file_ids end)])
    /\ assistant_id a' = Some (ids w (issued w + length (files a)))
    /\ (forall k, is_Some (dict_get (file_mapping a) k) ->
                  is_Some (dict_get (file_mapping a') k))
    /\ Forall (fun id => is_Some (dict_get (file_mapping a') id)) file_ids.
Proof.
  intros Hall file_ids.
  destruct (upload_all_readable (files a) [] a w Hall)
    as (fm & w1 & Hrun & Hcalls & Hissued & Hids & Hkeep & Hnew).
  unfold initialize. unfold bind at 1, self. cbn [fst].
  unfold bind at 1. rewrite Hrun. cbn [app].
  unfold bind at 1, self. cbn [fst].
  fold file_ids.
  assert (Hcreated : forall c, trace (snd (create c w1))
                               = trace w ++ map FilesCreate (files a) ++ [c]).
  { intros c. cbn [create snd trace record]. unfold adds_calls in Hcalls.
    rewrite Hcalls, <- app_assoc. reflexivity. }
  assert (Hid : forall c, fst (create c w1) = Return (ids w (issued w + length (files a)))).
  { intros c. cbn [create fst]. rewrite Hids, Hissued. reflexivity. }
  destruct v.
  - eexists _, _. split; [reflexivity|].
    split; [apply Hcreated|]. split; [|split; assumption].
    cbn [assistant_id]. f_equal. specialize (Hid ThreadsCreate).
    cbn [create fst] in Hid. inversion Hid. reflexivity.
  - eexists _, _. split; [reflexivity|].
    split; [apply Hcreated|]. split; [|split; assumption].
    cbn [assistant_id]. f_equal. specialize (Hid ThreadsCreate).
    cbn [create fst] in Hid. inversion Hid. reflexivity.
Qed.

(** X18: [initialize], when one of the files cannot be opened: the files before
    it are uploaded and stay recorded in the file mapping, the error of the
    upload is raised, no assistant is created and the assistant id is left
    as it was. *)
Theorem initialize_stops_at_unreadable_file
    (v : version) (a : CodeInterpreterAgent) (w : World)
    (pre : list string) (bad : string) (post : list string) :
  files a = pre ++ bad :: post ->
  Forall (readable w) pre ->
  ~ readable w bad ->
  exists e a' w',
    initialize v (a, w) = (Raise e, (a', w'))
    /\ adds_calls w w' (map FilesCreate pre)
    /\ assistant_id a' = assistant_id a
    /\ (forall k, is_Some (dict_get (file_mapping a) k) ->
                  is_Some (dict_get (file_mapping a') k))
    /\ Forall (fun id => is_Some (dict_get (file_mapping a') id))
         (next_ids w (length pre)).
Proof.
  intros Hfiles Hall Hbad.
  destruct (upload_all_unreadable pre bad post [] a w Hall Hbad)
    as (e & fm & w1 & Hrun & Hcalls & Hkeep & Hnew).
  unfold initialize. unfold bind at 1, self. cbn [fst].
  unfold bind at 1. rewrite Hfiles, Hrun.
  exists e, (with_file_mapping a fm), w1. split; [reflexivity|].
  split; [exact Hcalls|]. split; [reflexivity|]. split; assumption.
Qed.

End InitializeFacts.

Section CleanupMore.
Import Py Backend Agent.

(** X20: a second [cleanup] does nothing: the file mapping was emptied by the
    first, so no deletion is attempted again. *)
Theorem second_cleanup_makes_no_call (a : CodeInterpreterAgent) (w : World) :
  exists a1 w1,
    cleanup (a, w) = (Return tt, (a1, w1))
    /\ cleanup (a1, w1) = (Return tt, (a1, w1)).
Proof.
  destruct (delete_all_attempts_each (dict_keys (file_mapping a)) w)
    as (w1 & Hrun & _).
  exists (with_file_mapping a []), w1. split.
  - unfold cleanup, bind, self, on_world, set_file_mapping, modify. cbn [fst snd].
    rewrite Hrun. reflexivity.
  - reflexivity.
Qed.

(** X21: [cleanup] does not reset the assistant: an agent that was initialized
    still counts as initialized after [cleanup], and a later [run_analysis]
    uploads nothing and creates no assistant; it runs with an empty file
    mapping. *)
Theorem run_after_cleanup_uploads_nothing
    (v : version) (a : CodeInterpreterAgent) (w : World)
    (query : string) (thread_id : option string) :
  truthy (assistant_id a) = true ->
  exists a1 w1 r w2,
    cleanup (a, w) = (Return tt, (a1, w1))
    /\ run_analysis v query thread_id (a1, w1) = (r, (a1, w2))
    /\ file_mapping a1 = []
    /\ assistant_id a1 = assistant_id a
    /\ calls_pass not_initializing w1 w2.
Proof.
  intros Hinit.
  destruct (delete_all_attempts_each (dict_keys (file_mapping a)) w)
    as (w1 & Hrun & _).
  exists (with_file_mapping a []), w1.
  destruct (run_analysis v query thread_id (with_file_mapping a [], w1))
    as [r [a2 w2]] eqn:Hquery.
  rewrite run_analysis_chain in Hquery.
  destruct (run_chain_initialized v 3 query thread_id (with_file_mapping a []) w1
              r (a2, w2) Hinit Hquery) as [Ha Hcalls].
  cbn [fst snd] in Ha, Hcalls. subst a2.
  exists r, w2. split.
  - unfold cleanup, bind, self, on_world, set_file_mapping, modify. cbn [fst snd].
    rewrite Hrun. reflexivity.
  - repeat split. exact Hcalls.
Qed.

End CleanupMore.

Section OrchestratorMore.
Import Py Backend Orchestrator.

Lemma dict_has_is_Some {V} (d : dict V) (k : string) :
  dict_has d k = true -> is_Some (dict_get d k).
Proof. unfold dict_has. destruct (dict_get d k); [eauto | discriminate]. Qed.

Lemma parse_steps_registered (v : Agent.version) (items : dict (nat * ActorMetadata))
    (lines : list string) :
  Forall (fun step => is_Some (dict_get items (fst step)))
    (parse_steps v items lines)
  /\ length (parse_steps v items lines) <= length lines.
Proof.
  induction lines as [|line rest [IH Hlen]]; cbn [parse_steps length];
    [split; [constructor | lia]|].
  destruct (partition ":" line) as [[actor task]|]; [|split; [exact IH | lia]].
  match goal with
  | |- context [dict_has items ?x] => destruct (dict_has items x) eqn:Hhas
  end; [|split; [exact IH | lia]].
  split; [|cbn [length]; lia].
  constructor; [|exact IH]. cbn [fst]. apply dict_has_is_Some, Hhas.
Qed.

(** X23: every step of an execution plan names a registered actor, and the plan
    has no more steps than the answer of the planner has lines: lines
    without a colon or with an unknown actor are dropped. The registrations
    are as before the planning, so the lookup of the agent of a planned step
    cannot fail. *)
Theorem plan_names_registered_actors
    (v : Agent.version) (query : string)
    (o : EnhancedOrchestrator) (plan : list (string * string))
    (o' : EnhancedOrchestrator) :
  _plan_execution v query o = (Return plan, o') ->
  actors o' = actors o
  /\ context o' = context o
  /\ Forall (fun step => is_Some (dict_get (actors o') (fst step))) plan.
Proof.
  intros Hrun.
  destruct (plan_execution_frame eq v query o _ o' Hrun) as (Ha & _ & Hc).
  split; [exact Ha|]. split; [symmetry; exact Hc|]. rewrite Ha.
  unfold _plan_execution in Hrun.
  apply bind_Return in Hrun as (o0 & s1 & Hget & Hrun).
  inversion Hget; subst o0 s1; clear Hget.
  apply bind_Return in Hrun as (descs & s2 & _ & Hrun).
  apply bind_Return in Hrun as (content & s3 & _ & Hrun).
  inversion Hrun; subst. apply parse_steps_registered.
Qed.

(** X24: an answer without an assistant message aborts the query with
    [KeyError('content')], after the step has been recorded: the error
    result is the last result of the actor in the context, and no thread is
    recorded from it. *)
Theorem missing_answer_aborts_after_recording
    (v : Agent.version) (actor task : string) (rest : list (string * string))
    (results : dict string) (o o1 : EnhancedOrchestrator) :
  _execute_actor v actor task o = (Return Agent.NoReply, o1) ->
  execute_plan v ((actor, task) :: rest) results o = (Raise (KeyError "content"), o1)
  /\ results_of (context o1) actor = results_of (context o) actor ++ [Agent.NoReply]
  /\ threads (context o1) = threads (context o).
Proof.
  intros Hstep.
  destruct (execute_actor_effect v actor task o _ o1 Hstep) as (_ & _ & Hc & _).
  split; [|split].
  - cbn [execute_plan]. unfold bind at 1. rewrite Hstep. reflexivity.
  - rewrite Hc, results_of_context_after, String.eqb_refl. reflexivity.
  - rewrite Hc, threads_context_after. unfold store_thread.
    cbn [Agent.get_thread_id truthy]. rewrite andb_false_r. reflexivity.
Qed.

(** X25: the history of an actor lists its results in the order they were added,
    one line each: adding a result for an actor extends the history of that
    actor by one line and leaves the histories of the others as they are. *)
Theorem history_lists_every_result_in_order
    (c : OrchestratorContext) (actor other : string) (res : AnalysisResult) :
  get_actor_history (add_result c actor res) other
  = if String.eqb actor other
    then join (nl +:+ nl) (map history_line (results_of c actor ++ [res]))
    else get_actor_history c other.
Proof.
  unfold get_actor_history, add_result, results_of. cbn [actor_results].
  destruct (String.eqb actor other) eqn:Heq.
  - apply String.eqb_eq in Heq. subst other. rewrite dict_get_set_eq. reflexivity.
  - rewrite dict_get_set_ne; [reflexivity|].
    intros ->. rewrite String.eqb_refl in Heq. discriminate.
Qed.

End OrchestratorMore.

(** The operations of the orchestrator move the context along any preorder
    that holds between a context and the context after a step, and between
    a context and the fresh one. *)
Section ContextMoves.
Import Py Backend Orchestrator.
Context (Rc : relation OrchestratorContext) `{!PreOrder Rc}.
Hypothesis Rc_step :
  forall v c actor task res, Rc c (context_after v c actor task res).
Hypothesis Rc_reset : forall c, Rc c new_context.

Lemma execute_actor_moves (v : Agent.version) (actor task : string) :
  respects (frame Rc) (_execute_actor v actor task).
Proof.
  intros o r o' Hrun.
  destruct (execute_actor_effect v actor task o r o' Hrun) as (Ha & Hp & Hc & _).
  split; [exact Ha|]. split; [exact Hp|]. rewrite Hc.
  destruct r; [apply Rc_step | reflexivity | reflexivity].
Qed.

Lemma execute_plan_moves (v : Agent.version) (plan : list (string * string)) :
  forall results, respects (frame Rc) (execute_plan v plan results).
Proof.
  induction plan as [|[actor task] rest IH]; intros results; cbn [execute_plan].
  - apply respects_ret; preorder.
  - apply respects_bind; preorder; [apply execute_actor_moves|intros result].
    apply respects_bind; preorder; [apply content_of_respects; preorder|intros c].
    apply IH.
Qed.

Lemma set_context_fresh_moves : respects (frame Rc) (set_context new_context).
Proof.
  apply respects_modify; preorder. intros o. repeat split. apply Rc_reset.
Qed.

Lemma run_analysis_moves (v : Agent.version) (query : string)
    (maintain_context : bool) :
  respects (frame Rc) (run_analysis v query maintain_context).
Proof.
  unfold run_analysis.
  apply respects_bind; preorder; [|intros _].
  { destruct maintain_context; cbn [negb];
      [apply respects_ret; preorder | apply set_context_fresh_moves]. }
  apply respects_bind; preorder; [apply plan_execution_frame; preorder|intros plan].
  apply respects_bind; preorder; [apply execute_plan_moves|intros results].
  destruct v; [apply respects_ret; preorder|].
  apply respects_bind; preorder; [apply respects_get; preorder|intros o].
  destruct (planner o); [|apply respects_raise; preorder].
  apply respects_bind; preorder; [apply on_agent_frame; preorder|intros synthesis].
  apply respects_bind; preorder; [apply content_of_respects; preorder|intros answer].
  apply respects_ret; preorder.
Qed.

Lemma cleanup_moves (v : Agent.version) (full : bool) :
  respects (frame Rc) (cleanup v full).
Proof.
  unfold cleanup.
  apply respects_bind; preorder; [apply respects_get; preorder|intros o].
  apply respects_bind; preorder; [apply cleanup_actors_frame; preorder|intros _].
  apply respects_bind; preorder;
    [|intros _; destruct full;
      [apply set_context_fresh_moves | apply respects_ret; preorder]].
  destruct v; [apply respects_ret; preorder|].
  destruct (planner o); [apply on_agent_frame; preorder | apply respects_ret; preorder].
Qed.

Lemma operations_move (v : Agent.version) (o o' : EnhancedOrchestrator) :
  rtc (operation v) o o' -> Rc (context o) (context o').
Proof.
  induction 1 as [o|o1 o2 o3 Hop _ IH]; [reflexivity|].
  transitivity (context o2); [|exact IH]. clear IH.
  destruct Hop as [a o r o' Hrun|name agent metadata o r o' Hrun
                   |actor task o r o' Hrun|query mc o r o' Hrun|full o r o' Hrun].
  - inversion Hrun; subst. reflexivity.
  - inversion Hrun; subst. reflexivity.
  - exact (proj2 (proj2 (execute_actor_moves v actor task o r o' Hrun))).
  - exact (proj2 (proj2 (run_analysis_moves v query mc o r o' Hrun))).
  - exact (proj2 (proj2 (cleanup_moves v full o r o' Hrun))).
Qed.

End ContextMoves.

Section Inhabited.
Import Py Backend Orchestrator.

#[export] Instance keeps_inhabited_preorder : PreOrder keeps_inhabited.
Proof.
  split.
  - intros c Hc. exact Hc.
  - intros c1 c2 c3 H12 H23 Hc. apply H23, H12, Hc.
Qed.

Lemma dict_set_Forall {V} (P : V -> Prop) (d : dict V) (k : string) (v : V) :
  Forall (fun kv => P (snd kv)) d -> P v ->
  Forall (fun kv => P (snd kv)) (dict_set d k v).
Proof.
  intros Hd Hv. induction Hd as [|[k' v'] d Hkv Hd IH]; cbn [dict_set].
  - constructor; [exact Hv | constructor].
  - destruct (String.eqb k' k); constructor; auto.
Qed.

Lemma dict_get_Forall {V} (P : V -> Prop) (d : dict V) (k : string) (v : V) :
  Forall (fun kv => P (snd kv)) d -> dict_get d k = Some v -> P v.
Proof.
  intros Hd. induction Hd as [|[k' v'] d Hkv Hd IH]; cbn [dict_get]; [discriminate|].
  destruct (String.eqb k' k); [|exact IH]. intros Heq. inversion Heq; subst. exact Hkv.
Qed.

Lemma new_context_inhabited : results_inhabited new_context.
Proof. constructor. Qed.

Lemma context_after_inhabited (v : Agent.version) (c : OrchestratorContext)
    (actor task : string) (res : AnalysisResult) :
  keeps_inhabited c (context_after v c actor task res).
Proof.
  intros Hc. unfold results_inhabited, context_after in *.
  assert (Hadd : Forall (fun kv => snd kv <> [])
                   (actor_results (add_result (store_thread c actor res) actor res))).
  { unfold add_result. cbn [actor_results].
    assert (Hsame : actor_results (store_thread c actor res) = actor_results c)
      by (unfold store_thread; destruct (_ && _); reflexivity).
    rewrite Hsame.
    apply (dict_set_Forall (fun rs => rs <> [])); [exact Hc|].
    intros Hnil. apply app_eq_nil in Hnil as [_ Hnil]. discriminate. }
  destruct v; exact Hadd.
Qed.

Lemma describe_actors_inhabited (v : Agent.version) (c : OrchestratorContext)
    (items : dict (nat * ActorMetadata)) :
  results_inhabited c -> exists descs, describe_actors v c items = inr descs.
Proof.
  intros Hc. induction items as [|[name [agent meta]] rest [descs IH]];
    cbn [describe_actors]; [eauto|].
  assert (Hone : exists desc, describe_actor v c name meta = inr desc).
  { unfold describe_actor.
    destruct v; [destruct (dict_get (actor_results c) name); eauto|].
    destruct (dict_get (actor_results c) name) as [results|] eqn:Hget; [|eauto].
    pose proof (dict_get_Forall (fun rs => rs <> []) _ _ _ Hc Hget) as Hne.
    unfold last_content. destruct (last results) eqn:Hlast; [eauto|].
    apply last_None in Hlast. contradiction. }
  destruct Hone as [desc ->]. rewrite IH. eauto.
Qed.

(** X26: from its creation on, whatever is done with an orchestrator, no actor
    has an empty list of results in the context: an entry is made only when
    a result is added. So the last result that the planning of a query asks
    for is always there, and the description of the actors is made without
    an [IndexError]. *)
Theorem actor_results_never_hold_an_empty_list
    (v : Agent.version) (verbose : bool) (w : World) (o : EnhancedOrchestrator) :
  rtc (operation v) (new_orchestrator v verbose w) o ->
  results_inhabited (context o)
  /\ exists descs, describe_actors v (context o) (actors o) = inr descs.
Proof.
  intros Hreach.
  assert (Hc : results_inhabited (context o)).
  { apply (operations_move keeps_inhabited context_after_inhabited
             (fun _ _ => new_context_inhabited) v _ _ Hreach).
    destruct v; exact new_context_inhabited. }
  split; [exact Hc|]. apply describe_actors_inhabited, Hc.
Qed.

End Inhabited.

Section OrchestratorCleanup.
Import Py Backend Orchestrator.

#[export] Instance cleans_preorder : PreOrder cleans.
Proof.
  split.
  - intros o. repeat split; try reflexivity. intros i a Ha. eauto.
  - intros o1 o2 o3 (Ha1 & Hp1 & Hc1 & Hw1 & Hh1) (Ha2 & Hp2 & Hc2 & Hw2 & Hh2).
    split; [congruence|]. split; [congruence|]. split; [congruence|].
    split; [etransitivity; eassumption|].
    intros i a Hi. destruct (Hh1 i a Hi) as (a1 & Hi1 & Hid1 & Hfm1).
    destruct (Hh2 i a1 Hi1) as (a2 & Hi2 & Hid2 & Hfm2).
    exists a2. split; [exact Hi2|]. split; [congruence | auto].
Qed.

Lemma delete_all_calls (file_ids : list string) (w w' : World) :
  adds_calls w w' (map FilesDelete file_ids) -> calls_pass deleting w w'.
Proof.
  intros Hcalls. exists (map FilesDelete file_ids). split; [exact Hcalls|].
  clear Hcalls. induction file_ids as [|file_id rest IH]; [reflexivity | exact IH].
Qed.

(** The cleanup of one agent object. *)
Lemma on_agent_cleanup (agent : nat) (o : EnhancedOrchestrator) :
  is_Some (heap o !! agent) ->
  exists o', on_agent agent Agent.cleanup o = (Return tt, o')
             /\ cleans o o' /\ cleaned o' agent.
Proof.
  intros [a Ha]. unfold on_agent. rewrite Ha.
  destruct (delete_all_attempts_each (dict_keys (Agent.file_mapping a)) (world o))
    as (w1 & Hrun & Hcalls).
  assert (Hclean : Agent.cleanup (a, world o)
                   = (Return tt, (with_file_mapping a [], w1))).
  { unfold Agent.cleanup, bind, Agent.self, Agent.on_world, Agent.set_file_mapping,
      modify. cbn [fst snd]. rewrite Hrun. reflexivity. }
  rewrite Hclean. eexists. split; [reflexivity|]. split.
  - split; [reflexivity|]. split; [reflexivity|]. split; [reflexivity|].
    cbn [world heap]. split; [exact (delete_all_calls _ _ _ Hcalls)|].
    intros i b Hi. destruct (decide (i = agent)) as [->|Hne].
    + rewrite Ha in Hi. inversion Hi; subst b.
      exists (with_file_mapping a []). rewrite list_lookup_insert_eq.
      * repeat split.
      * apply lookup_lt_Some in Ha. exact Ha.
    + exists b. rewrite list_lookup_insert_ne by congruence. auto.
  - exists (with_file_mapping a []). cbn [heap]. split; [|reflexivity].
    apply list_lookup_insert_eq. apply lookup_lt_Some in Ha. exact Ha.
Qed.

Lemma cleans_is_Some (o o' : EnhancedOrchestrator) (i : nat) :
  cleans o o' -> is_Some (heap o !! i) -> is_Some (heap o' !! i).
Proof.
  intros (_ & _ & _ & _ & Hh) [a Ha]. destruct (Hh i a Ha) as (a' & Ha' & _). eauto.
Qed.

Lemma cleans_cleaned (o o' : EnhancedOrchestrator) (i : nat) :
  cleans o o' -> cleaned o i -> cleaned o' i.
Proof.
  intros (_ & _ & _ & _ & Hh) (a & Ha & Hfm).
  destruct (Hh i a Ha) as (a' & Ha' & _ & Hfm'). exists a'. auto.
Qed.

Lemma cleanup_actors_cleans (items : dict (nat * ActorMetadata)) :
  forall o,
    Forall (fun kv => is_Some (heap o !! fst (snd kv))) items ->
    exists o', cleanup_actors items o = (Return tt, o')
               /\ cleans o o'
               /\ Forall (fun kv => cleaned o' (fst (snd kv))) items.
Proof.
  induction items as [|[name [agent meta]] rest IH]; intros o Hvalid.
  - exists o. split; [reflexivity|]. split; [reflexivity | constructor].
  - apply Forall_cons in Hvalid as [Hagent Hrest]. cbn [fst snd] in Hagent.
    destruct (on_agent_cleanup agent o Hagent) as (o1 & Hrun1 & Hc1 & Hd1).
    assert (Hrest1 : Forall (fun kv => is_Some (heap o1 !! fst (snd kv))) rest).
    { eapply Forall_impl; [exact Hrest|]. intros kv. apply cleans_is_Some, Hc1. }
    destruct (IH o1 Hrest1) as (o' & Hrun & Hc & Hd).
    exists o'. cbn [cleanup_actors]. unfold bind. rewrite Hrun1, Hrun.
    split; [reflexivity|]. split; [etransitivity; eassumption|].
    constructor; [|exact Hd]. cbn [fst snd]. exact (cleans_cleaned _ _ _ Hc Hd1).
Qed.

(** X27: the cleanup of an orchestrator whose registrations and planner refer to
    agent objects that exist always returns, whatever deletions fail: every
    registered agent, and the planner of version 2, is left with an empty
    file mapping and with the assistant it had; the registrations stay; the
    context is the fresh one after a full cleanup and the same otherwise; the
    only calls made are deletions of files. *)
Theorem orchestrator_cleanup_always_returns
    (v : Agent.version) (full : bool) (o : EnhancedOrchestrator) :
  Forall (fun kv => is_Some (heap o !! fst (snd kv))) (actors o) ->
  (forall pl, planner o = Some pl -> is_Some (heap o !! pl)) ->
  exists o',
    cleanup v full o = (Return tt, o')
    /\ actors o' = actors o
    /\ planner o' = planner o
    /\ context o' = (if full then new_context else context o)
    /\ calls_pass deleting (world o) (world o')
    /\ Forall (fun kv => cleaned o' (fst (snd kv))) (actors o)
    /\ (forall pl, v = Agent.V2 -> planner o = Some pl -> cleaned o' pl)
    /\ (forall i a, heap o !! i = Some a ->
          exists a', heap o' !! i = Some a'
                     /\ Agent.assistant_id a' = Agent.assistant_id a).
Proof.
  intros Hvalid Hplanner.
  destruct (cleanup_actors_cleans (actors o) o Hvalid) as (o1 & Hrun1 & Hc1 & Hd1).
  assert (Hsecond : exists o2,
            match v, planner o with
            | Agent.V2, Some pl => on_agent pl Agent.cleanup
            | _, _ => ret tt
            end o1 = (Return tt, o2)
            /\ cleans o1 o2
            /\ (forall pl, v = Agent.V2 -> planner o = Some pl -> cleaned o2 pl)).
  { destruct v;
      [exists o1; split; [reflexivity|]; split; [reflexivity | discriminate]|].
    destruct (planner o) as [pl|] eqn:Hpl;
      [|exists o1; split; [reflexivity|]; split; [reflexivity | discriminate]].
    destruct (on_agent_cleanup pl o1 (cleans_is_Some _ _ _ Hc1 (Hplanner pl eq_refl)))
      as (o2 & Hrun2 & Hc2 & Hd2).
    exists o2. split; [exact Hrun2|]. split; [exact Hc2|].
    intros pl' _ Heq. inversion Heq; subst. exact Hd2. }
  destruct Hsecond as (o2 & Hrun2 & Hc2 & Hd2).
  assert (Hc : cleans o o2) by (etransitivity; eassumption).
  destruct Hc as (Ha & Hp & Hctx & Hw & Hh).
  assert (Hd : Forall (fun kv => cleaned o2 (fst (snd kv))) (actors o)).
  { eapply Forall_impl; [exact Hd1|]. intros kv. apply cleans_cleaned, Hc2. }
  assert (Hids : forall i a, heap o !! i = Some a ->
            exists a', heap o2 !! i = Some a'
                       /\ Agent.assistant_id a' = Agent.assistant_id a).
  { intros i a Hi. destruct (Hh i a Hi) as (a' & Hi' & Hid & _). eauto. }
  unfold cleanup. unfold bind at 1, get. unfold bind at 1. rewrite Hrun1.
  unfold bind at 1. rewrite Hrun2.
  destruct full.
  - eexists. split; [reflexivity|]. cbn [actors planner context world heap].
    repeat split; auto.
  - exists o2. split; [reflexivity|]. repeat split; auto.
Qed.

End OrchestratorCleanup.

Section PollingV2.
Import Py Backend Agent.

Lemma runs_retrieve_step (t r : string) (p : Poll) (rest : list Poll) (w : World) :
  polls w = p :: rest ->
  runs_retrieve t r w
  = (match p with Status s => Return s | Failure e => Raise e end,
     after_retrieve t r w).
Proof.
  intros Hpolls. unfold runs_retrieve, after_retrieve. rewrite Hpolls.
  destruct p; reflexivity.
Qed.

Lemma poll_v2_decides (t r : string) (p : Poll) (post : list Poll)
    (o : outcome unit) :
  verdict_v2 p = Some o ->
  forall (pre : list Poll) (fuel : nat) (w : World),
    polls w = pre ++ p :: post ->
    Forall (fun q => verdict_v2 q = None) pre ->
    length pre < fuel ->
    exists w',
      poll_v2 fuel t r w = (o, w')
      /\ polls w' = post
      /\ inboxes w' = inboxes w
      /\ adds_calls w w' (repeat (RunsRetrieve t r) (S (length pre))).
Proof.
  intros Hp. induction pre as [|q pre IH]; intros fuel w Hpolls Hpre Hfuel;
    (destruct fuel as [|fuel]; [cbn in Hfuel; lia|]); cbn [poll_v2];
    cbn [app] in Hpolls; unfold bind at 1;
    rewrite (runs_retrieve_step _ _ _ _ _ Hpolls).
  - assert (Hrest : polls (after_retrieve t r w) = post).
    { unfold after_retrieve. cbn [polls]. rewrite Hpolls. reflexivity. }
    exists (after_retrieve t r w).
    unfold verdict_v2 in Hp. destruct p as [s|e].
    + destruct (String.eqb s "completed").
      * inversion Hp; subst o. repeat split. exact Hrest.
      * destruct (existsb (String.eqb s) failure_statuses); [|discriminate].
        inversion Hp; subst o. repeat split. exact Hrest.
    + inversion Hp; subst o. repeat split. exact Hrest.
  - assert (Hrest : polls (after_retrieve t r w) = pre ++ p :: post).
    { unfold after_retrieve. cbn [polls]. rewrite Hpolls. reflexivity. }
    apply Forall_cons in Hpre as [Hq Hpre]. unfold verdict_v2 in Hq.
    destruct q as [s|e]; [|discriminate].
    destruct (String.eqb s "completed"); [discriminate|].
    destruct (existsb (String.eqb s) failure_statuses); [discriminate|].
    destruct (IH fuel (after_retrieve t r w) Hrest Hpre ltac:(cbn in Hfuel; lia))
      as (w' & Hrun & Hpost & Hin & Hcalls).
    exists w'. split; [exact Hrun|]. split; [exact Hpost|].
    split; [exact Hin|].
    exact (adds_calls_cons _ _ _ _ _ (after_retrieve_calls t r w) Hcalls).
Qed.

(** X11: version 2, for an agent whose assistant exists: the run is decided by
    the first answer that is not a status still in progress. When it
    completes the run, the text of the first assistant message is returned;
    a status of failure raises the run failure with that status; an
    exception of the call is raised as it is. Nothing is retried. *)
Theorem v2_run_is_decided_by_the_first_decisive_answer
    (query : string) (thread_id : option string)
    (a : CodeInterpreterAgent) (w : World)
    (pre : list Poll) (p : Poll) (post : list Poll) (o : outcome unit)
    (data : list ThreadMessage) (rest : list (list ThreadMessage)) :
  truthy (assistant_id a) = true ->
  polls w = pre ++ p :: post ->
  Forall (fun q => verdict_v2 q = None) pre ->
  verdict_v2 p = Some o ->
  inboxes w = data :: rest ->
  exists t r w',
    run_analysis_v2 query thread_id (a, w)
    = (match o with
       | Return _ => Return (extract_v2 data t r)
       | Raise e => Raise e
       | Pending => Pending
       end, (a, w'))
    /\ polls w' = post
    /\ (truthy thread_id = true -> Some t = thread_id).
Proof.
  intros Hinit Hpolls Hpre Hp Hinbox.
  rewrite run_analysis_v2_chain, (run_chain_started _ _ _ _ _ _ Hinit).
  pose proof (start_run_script a query thread_id w) as Hstart.
  destruct (start_run a query thread_id w) as [[t r] w0].
  destruct Hstart as (Hp0 & Hi0 & Ht).
  unfold finish_run, wait, wait_v2.
  edestruct (poll_v2_decides t r p post o Hp pre (S (length (polls w0))) w0)
    as (w1 & Hrun & Hpost & Hin & Hcalls).
  - rewrite Hp0. exact Hpolls.
  - exact Hpre.
  - rewrite Hp0, Hpolls, length_app. cbn. lia.
  - rewrite Hrun. destruct o as [[]|e|].
    + unfold messages_list. rewrite Hin, Hi0, Hinbox.
      eexists t, r, _. split; [reflexivity|]. cbn [polls record].
      split; [exact Hpost | exact Ht].
    + exists t, r, w1. auto.
    + exists t, r, w1. auto.
Qed.

Lemma run_chain_extracts (v : version) (max_retries : Z) (query : string)
    (thread_id : option string) (s : St) (res : AnalysisResult) (s' : St) :
  run_chain v max_retries query thread_id s = (Return res, s') ->
  exists data t r, res = extract v data t r.
Proof.
  intros Hrun. rewrite run_chain_unfold in Hrun.
  apply bind_Return in Hrun as (a & s1 & _ & Hrun).
  apply bind_Return in Hrun as ([] & [a2 w2] & _ & Hrun).
  rewrite run_on_thread_started in Hrun.
  destruct (start_run a2 query thread_id w2) as [[t r] w0].
  unfold finish_run in Hrun.
  destruct (wait v t r max_retries w0) as [[[]|e|] w1]; try discriminate.
  destruct (messages_list t w1) as [[data|e|] w3]; try discriminate.
  inversion Hrun; subst. eauto.
Qed.

Lemma extract_v2_content (data : list ThreadMessage) (t r : string) :
  match extract_v2 data t r with
  | Reply c _ _ => c <> EmptyString
  | NoReply => True
  end.
Proof.
  induction data as [|m data IH]; [exact I|]. cbn [extract_v2].
  destruct (String.eqb (role m) "assistant"); [|exact IH].
  destruct (first_text (parts m)) as [[|ch text]|]; cbn; discriminate.
Qed.

(** X16: the content of a reply of version 2 is never the empty text: an
    assistant message without a text part, or whose first text is empty, is
    answered with a notice instead. *)
Theorem v2_reply_is_never_empty
    (query : string) (thread_id : option string) (s : St) :
  match fst (run_analysis_v2 query thread_id s) with
  | Return (Reply c _ _) => c <> EmptyString
  | _ => True
  end.
Proof.
  rewrite run_analysis_v2_chain.
  destruct (run_chain V2 0 query thread_id s) as [[res|e|] s'] eqn:Hrun;
    cbn [fst]; auto.
  destruct (run_chain_extracts _ _ _ _ _ _ _ Hrun) as (data & t & r & ->).
  exact (extract_v2_content data t r).
Qed.

End PollingV2.

Section FileInstructions.
Import Py Backend Agent.

Lemma contains_app_l (n s t : string) :
  contains n s = true -> contains n (s +:+ t) = true.
Proof.
  induction s as [|c s IH]; intros Hs; rewrite contains_unfold in Hs.
  - destruct (startswith "" n) eqn:Hp; [|discriminate].
    rewrite contains_unfold, (startswith_app "" t n Hp). reflexivity.
  - destruct (startswith (String c s) n) eqn:Hp.
    + rewrite contains_unfold, (startswith_app _ t n Hp). reflexivity.
    + change (String c s +:+ t) with (String c (s +:+ t)).
      rewrite contains_unfold, (IH Hs).
      destruct (startswith (String c (s +:+ t)) n); reflexivity.
Qed.

Lemma contains_self (n : string) : contains n n = true.
Proof.
  rewrite contains_unfold.
  assert (Hs : startswith n n = true).
  { induction n as [|c n IH]; [reflexivity|]. cbn [startswith].
    rewrite Ascii.eqb_refl. exact IH. }
  rewrite Hs. reflexivity.
Qed.

Lemma contains_join (sep x : string) (parts : list string) :
  In x parts -> contains x (join sep parts) = true.
Proof.
  unfold join. induction parts as [|y parts IH]; [contradiction|].
  intros [->|Hin].
  - destruct parts as [|z parts]; cbn [String.concat]; [apply contains_self|].
    apply contains_app_l, contains_self.
  - destruct parts as [|z parts]; [contradiction|]. cbn [String.concat].
    apply contains_app_r, contains_app_r, IH, Hin.
Qed.

(** X19: the instructions about the files name every uploaded file: for each
    entry of the file mapping there is a line with the identifier and the
    original name; with an empty mapping there are no such instructions. *)
Theorem file_instructions_name_every_file (a : CodeInterpreterAgent) :
  (file_mapping a = [] -> _create_file_instructions a = EmptyString)
  /\ forall file_id info,
       In (file_id, info) (file_mapping a) ->
       contains (file_line file_id info) (_create_file_instructions a) = true.
Proof.
  split.
  - intros Hnil. unfold _create_file_instructions. rewrite Hnil. reflexivity.
  - intros file_id info Hin. unfold _create_file_instructions.
    destruct (file_mapping a) as [|kv fm] eqn:Hfm; [contradiction|].
    rewrite <- Hfm in *.
    do 5 apply contains_app_r. apply contains_app_l.
    apply contains_join. apply in_map_iff. exists (file_id, info).
    split; [reflexivity | exact Hin].
Qed.

End FileInstructions.

Section Escaping.
Import Py Backend Orchestrator.

Lemma backslashes_escape (s : string) :
  backslashes (escape_backslashes s) = 2 * backslashes s.
Proof.
  induction s as [|c s IH]; [reflexivity|]. cbn [escape_backslashes].
  destruct (Ascii.eqb c (ascii_of_nat 92)) eqn:Hc; cbn [backslashes];
    rewrite ?Hc, IH; lia.
Qed.

Lemma startswith_same_prefix (p u q : string) :
  startswith (p +:+ u) (p +:+ q) = startswith u q.
Proof.
  induction p as [|a p IH]; [reflexivity|].
  change (String a p +:+ u) with (String a (p +:+ u)).
  change (String a p +:+ q) with (String a (p +:+ q)).
  cbn [startswith]. rewrite Ascii.eqb_refl. exact IH.
Qed.

Lemma startswith_nl (rest : string) : startswith (nl +:+ rest) nl = true.
Proof. reflexivity. Qed.

(** The text before and the text after the first colon of a line. *)
Lemma partition_at_colon (head raw : string) :
  contains ":" head = false ->
  partition ":" (head +:+ ":" +:+ raw) = Some (head, raw).
Proof.
  induction head as [|c head IH]; intros Hc.
  - reflexivity.
  - change (String c head +:+ ":" +:+ raw) with (String c (head +:+ ":" +:+ raw)).
    rewrite contains_unfold in Hc.
    destruct (startswith (String c head) ":") eqn:Hp; [discriminate|].
    rewrite partition_unfold.
    assert (Hq : startswith (String c (head +:+ ":" +:+ raw)) ":" = false).
    { cbn [startswith] in *. destruct (Ascii.eqb ":" c); [discriminate | reflexivity]. }
    rewrite Hq, (IH Hc). reflexivity.
Qed.

(** The steps read from a list of lines are the steps read from each line,
    in order. *)
Lemma parse_steps_app (v : Agent.version) (items : dict (nat * ActorMetadata))
    (before after : list string) :
  parse_steps v items (before ++ after)
  = parse_steps v items before ++ parse_steps v items after.
Proof.
  induction before as [|line before IH]; [reflexivity|].
  cbn [app parse_steps]. rewrite IH.
  destruct (partition ":" line) as [[actor task]|]; [|reflexivity].
  match goal with
  | |- context [dict_has items ?x] => destruct (dict_has items x)
  end; reflexivity.
Qed.

(** One line of the planner's answer, in both versions: the two versions keep
    the same lines for the same actors and differ in the task. *)
Lemma parse_steps_line (items : dict (nat * ActorMetadata)) (head raw : string) :
  contains ":" head = false ->
  (parse_steps Agent.V1 items [head +:+ ":" +:+ raw] = []
   /\ parse_steps Agent.V2 items [head +:+ ":" +:+ raw] = [])
  \/ exists actor,
       parse_steps Agent.V1 items [head +:+ ":" +:+ raw]
       = [(actor, escape_backslashes (strip raw))]
       /\ parse_steps Agent.V2 items [head +:+ ":" +:+ raw] = [(actor, strip raw)].
Proof.
  intros Hc. cbn [parse_steps]. rewrite (partition_at_colon head raw Hc).
  match goal with
  | |- context [dict_has items ?x] => destruct (dict_has items x); [right; exists x|left]
  end; split; reflexivity.
Qed.

(** X29: version 1 escapes a planned task twice. Take a line of the planner's
    answer, [raw] being its text after the first colon, that version 1 keeps
    as a step. The task of the step is the stripped [raw] with its
    backslashes doubled, where version 2 keeps the same actor with the
    stripped [raw] itself; this holds wherever the line stands in the
    answer. The prompt that version 1 makes for the step doubles the
    backslashes once more, so the actor is given four backslashes for each
    one of the planner's task; the prompt of version 2 gives the task as it
    is. *)
Theorem v1_escapes_a_planned_task_twice
    (items : dict (nat * ActorMetadata)) (c : OrchestratorContext)
    (head raw actor task : string) :
  contains ":" head = false ->
  parse_steps Agent.V1 items [head +:+ ":" +:+ raw] = [(actor, task)] ->
  task = escape_backslashes (strip raw)
  /\ parse_steps Agent.V2 items [head +:+ ":" +:+ raw] = [(actor, strip raw)]
  /\ (forall v before after,
        parse_steps v items (before ++ (head +:+ ":" +:+ raw) :: after)
        = parse_steps v items before
          ++ parse_steps v items [head +:+ ":" +:+ raw]
          ++ parse_steps v items after)
  /\ startswith (_create_actor_prompt Agent.V1 c actor task)
       ("Task: " +:+ escape_backslashes (escape_backslashes (strip raw)) +:+ nl)
     = true
  /\ backslashes (escape_backslashes (escape_backslashes (strip raw)))
     = 4 * backslashes (strip raw)
  /\ startswith (_create_actor_prompt Agent.V2 c actor (strip raw))
       ("Task: " +:+ strip raw +:+ nl)
     = true.
Proof.
  intros Hc Hline.
  destruct (parse_steps_line items head raw Hc) as [[H1 _]|(actor' & H1 & H2)];
    rewrite H1 in Hline; [discriminate|].
  inversion Hline; subst actor' task; clear Hline.
  split; [reflexivity|]. split; [exact H2|]. split.
  { intros v before after.
    rewrite parse_steps_app.
    change ((head +:+ ":" +:+ raw) :: after) with ([head +:+ ":" +:+ raw] ++ after).
    rewrite parse_steps_app. reflexivity. }
  split.
  { unfold _create_actor_prompt. cbv zeta.
    rewrite !startswith_same_prefix. apply startswith_nl. }
  split; [rewrite !backslashes_escape; lia|].
  unfold _create_actor_prompt. cbv zeta.
  rewrite !startswith_same_prefix. apply startswith_nl.
Qed.

End Escaping.

Section HandledData.
Import Py Planner.
Context {DataType AnalysisType : Type}.
Context `{PyEnum DataType} `{PyEnum AnalysisType}.

Lemma set_add_NoDup {E} `{PyEnum E} (x : E) (s : list E) :
  NoDup s -> NoDup (set_add x s).
Proof.
  intros Hs. unfold set_add. destruct (mem x s) eqn:Hm; [exact Hs|].
  apply NoDup_app. split; [exact Hs|]. split; [|apply NoDup_singleton].
  intros y Hy Hx. apply list_elem_of_singleton in Hx. subst y.
  apply mem_true in Hy. congruence.
Qed.

Lemma data_steps_handled (p : QueryPlanner DataType AnalysisType) (ds : list DataType) :
  forall acc h steps h',
    data_steps p ds acc h = inr (steps, h') ->
    NoDup h ->
    NoDup h' /\ (forall x, x ∈ h' <-> x ∈ h \/ x ∈ ds) /\ length steps = length acc + length ds.
Proof.
  induction ds as [|d ds IH]; intros acc h steps h' Hrun Hh; cbn [data_steps] in Hrun.
  - inversion Hrun; subst. split; [exact Hh|]. split; [|cbn; lia].
    intros x. rewrite elem_of_nil. tauto.
  - destruct (_find_best_actor_for_data p d) as [e|actor]; [discriminate|].
    destruct (IH _ _ _ _ Hrun (set_add_NoDup d h Hh)) as (Hnd & Hmem & Hlen).
    split; [exact Hnd|]. split.
    + intros x. rewrite Hmem, set_add_elem, elem_of_cons. tauto.
    + rewrite Hlen, length_app. cbn. lia.
Qed.

Lemma analysis_steps_required (p : QueryPlanner DataType AnalysisType)
    (h : list DataType) (ans : list AnalysisType) :
  forall acc steps,
    analysis_steps p ans acc h = inr steps ->
    forall i s, length acc <= i -> steps !! i = Some s -> required_data s = h.
Proof.
  induction ans as [|a ans IH]; intros acc steps Hrun i s Hi Hs;
    cbn [analysis_steps] in Hrun.
  - inversion Hrun; subst. apply lookup_lt_Some in Hs. lia.
  - destruct (_find_best_actor_for_analysis p a) as [e|actor]; [discriminate|].
    destruct (decide (i = length acc)) as [->|Hne].
    + assert (Hpre : forall rest acc' out,
                analysis_steps p rest acc' h = inr out ->
                forall j x, acc' !! j = Some x -> out !! j = Some x).
      { clear. induction rest as [|b rest IHr]; intros acc' out Hrun j x Hj;
          cbn [analysis_steps] in Hrun.
        - inversion Hrun; subst. exact Hj.
        - destruct (_find_best_actor_for_analysis p b); [discriminate|].
          apply (IHr _ _ Hrun). apply lookup_app_l_Some. exact Hj. }
      match type of Hrun with
      | analysis_steps p ans (acc ++ [?step]) h = _ =>
          assert (Hstep : steps !! length acc = Some step)
      end.
      { apply (Hpre _ _ _ Hrun). rewrite lookup_app_r by lia.
        rewrite Nat.sub_diag. reflexivity. }
      rewrite Hstep in Hs. inversion Hs; subst. reflexivity.
    + apply (IH _ _ Hrun i s); [|exact Hs]. rewrite length_app. cbn. lia.
Qed.

(** X9: every analysis step requires the data types that were asked for, each
    of them once, however often the classification names a type: the handled
    data types are kept as a set. *)
Theorem analysis_steps_require_each_data_type_once
    (p : QueryPlanner DataType AnalysisType)
    (ds : list DataType) (ans : list AnalysisType)
    (steps : list (ExecutionStep DataType)) :
  _create_execution_steps p ds ans = inr steps ->
  forall k s, steps !! (length ds + k) = Some s ->
    NoDup (required_data s) /\ (forall d, d ∈ required_data s <-> d ∈ ds).
Proof.
  unfold _create_execution_steps. intros Hrun k s Hs.
  destruct (data_steps p ds [] []) as [e|[dsteps h]] eqn:Hd; [discriminate|].
  destruct (data_steps_handled p ds [] [] dsteps h Hd NoDup_nil_2)
    as (Hnd & Hmem & Hlen).
  rewrite (analysis_steps_required p h ans dsteps steps Hrun (length ds + k) s);
    [|rewrite Hlen; cbn; lia|exact Hs].
  split; [exact Hnd|]. intros d. rewrite Hmem, elem_of_nil. tauto.
Qed.

End HandledData.

Section OtherResults.
Import Py Backend Orchestrator.

Lemma dict_get_not_key {V} (d : dict V) (k : string) :
  k ∉ dict_keys d -> dict_get d k = None.
Proof.
  unfold dict_keys. induction d as [|[k' v] d IH]; cbn [map dict_get fst]; [reflexivity|].
  intros Hk. apply not_elem_of_cons in Hk as [Hne Hk].
  destruct (String.eqb k' k) eqn:Heq; [|exact (IH Hk)].
  apply String.eqb_eq in Heq. congruence.
Qed.

Lemma dict_keys_app {V} (d1 d2 : dict V) :
  dict_keys (d1 ++ d2) = dict_keys d1 ++ dict_keys d2.
Proof. unfold dict_keys. apply map_app. Qed.

(** The loop that collects the results of the others appends one entry per
    other actor that has a result, while the keys it meets are new. *)
Lemma other_results_appends (actor : string) (items : dict (list AnalysisResult)) :
  forall acc : dict string,
    NoDup (dict_keys acc ++ dict_keys items) ->
    other_results items actor acc
    = acc ++ latest_of_others
               {| threads := ∅; actor_results := items; history := [] |} actor.
Proof.
  unfold latest_of_others. cbn [actor_results].
  induction items as [|[k results] rest IH]; intros acc Hnd.
  - cbn. rewrite app_nil_r. reflexivity.
  - cbn [other_results omap list_omap fst snd].
    assert (Hrest : NoDup (dict_keys acc ++ dict_keys rest)).
    { cbn [dict_keys map fst] in Hnd. apply NoDup_app in Hnd as (Ha & Hd & Hr).
      apply NoDup_cons in Hr as [_ Hr]. apply NoDup_app. split; [exact Ha|].
      split; [|exact Hr]. intros x Hx Hin. apply (Hd x Hx). right. exact Hin. }
    destruct (last results) as [result|].
    + destruct (String.eqb k actor); cbn [negb]; [apply IH, Hrest|].
      rewrite IH.
      * rewrite dict_set_fresh.
        -- rewrite <- app_assoc. reflexivity.
        -- apply dict_get_not_key. intros Hin.
           cbn [dict_keys map fst] in Hnd. apply NoDup_app in Hnd as (_ & Hd & _).
           apply (Hd k Hin). left.
      * rewrite dict_set_fresh.
        -- rewrite dict_keys_app. cbn [dict_keys map fst].
           rewrite <- app_assoc. exact Hnd.
        -- apply dict_get_not_key. intros Hin.
           cbn [dict_keys map fst] in Hnd. apply NoDup_app in Hnd as (_ & Hd & _).
           apply (Hd k Hin). left.
    + destruct (String.eqb k actor); apply IH, Hrest.
Qed.

Lemma latest_of_others_get (items : dict (list AnalysisResult)) (actor other : string) :
  NoDup (dict_keys items) ->
  dict_get (latest_of_others
              {| threads := ∅; actor_results := items; history := [] |} actor) other
  = if String.eqb other actor then None
    else match dict_get items other ≫= last with
         | Some result => Some (default EmptyString (Agent.get_content result))
         | None => None
         end.
Proof.
  unfold latest_of_others. cbn [actor_results].
  induction items as [|[k results] rest IH]; intros Hnd.
  - cbn. destruct (String.eqb other actor); reflexivity.
  - cbn [dict_keys map fst] in Hnd. apply NoDup_cons in Hnd as [Hk Hnd].
    specialize (IH Hnd). cbn [omap list_omap fst snd dict_get].
    destruct (String.eqb k other) eqn:Hko.
    + apply String.eqb_eq in Hko. subst k.
      pose proof (dict_get_not_key rest other Hk) as Hnone.
      rewrite Hnone in IH. cbn [mbind option_bind] in *.
      destruct (String.eqb other actor) eqn:Hoa; [exact IH|].
      destruct (last results) as [result|]; [|exact IH].
      cbn [dict_get fst]. rewrite String.eqb_refl. reflexivity.
    + destruct (String.eqb k actor); [exact IH|].
      destruct (last results) as [result|]; [|exact IH].
      cbn [dict_get fst]. rewrite Hko. exact IH.
Qed.

Lemma latest_of_others_items (c : OrchestratorContext) (actor : string) :
  latest_of_others c actor
  = latest_of_others
      {| threads := ∅; actor_results := actor_results c; history := [] |} actor.
Proof. reflexivity. Qed.

Lemma latest_of_others_listed (c : OrchestratorContext) (actor other : string)
    (result : AnalysisResult) :
  other <> actor ->
  last (results_of c other) = Some result ->
  In (other, default EmptyString (Agent.get_content result))
     (latest_of_others c actor).
Proof.
  unfold latest_of_others, results_of. intros Hne.
  induction (actor_results c) as [|[k results] rest IH]; [discriminate|].
  cbn [dict_get omap list_omap fst snd]. destruct (String.eqb k other) eqn:Hko.
  - apply String.eqb_eq in Hko. subst k. intros Hlast.
    change (last results = Some result) in Hlast. rewrite Hlast.
    destruct (String.eqb other actor) eqn:Hoa;
      [apply String.eqb_eq in Hoa; contradiction|].
    left. reflexivity.
  - intros Hlast. specialize (IH Hlast).
    destruct (String.eqb k actor); [exact IH|].
    destruct (last results); [right; exact IH | exact IH].
Qed.

(** X28: the prompt that version 2 makes for an actor is the fixed text
    around the task, the history of the actor and, under "Other Actors'
    Recent Results", one line per other actor that has a result, in the
    order in which the actors got their first result. The line of an actor
    holds the content of its latest result, empty when that result has no
    content; the prompted actor has no line there. So the latest result of
    every other actor is quoted in the prompt. *)
Theorem prompt_quotes_the_latest_result_of_the_others
    (c : OrchestratorContext) (actor task : string) :
  NoDup (dict_keys (actor_results c)) ->
  _create_actor_prompt Agent.V2 c actor task
  = prompt_text_v2 task (get_actor_history c actor)
      (map quote_line (latest_of_others c actor))
  /\ (forall other,
        dict_get (latest_of_others c actor) other
        = if String.eqb other actor then None
          else match last (results_of c other) with
               | Some result => Some (default EmptyString (Agent.get_content result))
               | None => None
               end)
  /\ (forall other result,
        other <> actor ->
        last (results_of c other) = Some result ->
        contains (other +:+ ": " +:+ default EmptyString (Agent.get_content result))
          (_create_actor_prompt Agent.V2 c actor task) = true).
Proof.
  intros Hnd.
  assert (Hprompt : _create_actor_prompt Agent.V2 c actor task
            = prompt_text_v2 task (get_actor_history c actor)
                (map quote_line (latest_of_others c actor))).
  { unfold _create_actor_prompt, prompt_text_v2.
    rewrite (other_results_appends actor (actor_results c) []);
      [reflexivity | exact Hnd]. }
  split; [exact Hprompt|]. split.
  - intros other. rewrite latest_of_others_items, (latest_of_others_get _ _ _ Hnd).
    unfold results_of.
    destruct (String.eqb other actor); [reflexivity|].
    destruct (dict_get (actor_results c) other) as [results|]; reflexivity.
  - intros other result Hne Hlast. rewrite Hprompt. unfold prompt_text_v2.
    do 11 apply contains_app_r. apply contains_app_l.
    apply contains_join. apply in_map_iff.
    exists (other, default EmptyString (Agent.get_content result)).
    split; [reflexivity|]. exact (latest_of_others_listed c actor other result Hne Hlast).
Qed.

End OtherResults.

Section UploadsAndDeletions.
Import Py Backend Agent.

Lemma upload_all_keys (paths : list string) :
  forall (acc : list string) (a : CodeInterpreterAgent) (w : World)
         (out : list string) (a' : CodeInterpreterAgent) (w' : World),
    upload_all paths acc (a, w) = (Return out, (a', w')) ->
    NoDup (dict_keys (file_mapping a) ++ next_ids w (length paths)) ->
    dict_keys (file_mapping a')
    = dict_keys (file_mapping a) ++ next_ids w (length paths).
Proof.
  induction paths as [|path rest IH]; intros acc a w out a' w' Hrun Hnd.
  - inversion Hrun; subst. unfold next_ids. cbn. rewrite app_nil_r. reflexivity.
  - cbn [upload_all] in Hrun.
    apply bind_Return in Hrun as (file_id & [a1 w1] & Hup & Hrun).
    destruct (existsb (String.eqb path) (unreadable w)) eqn:Hr.
    { unfold _upload_file, bind, on_world, files_create in Hup.
      cbn [snd fst] in Hup. rewrite Hr in Hup. discriminate. }
    rewrite (upload_file_readable path a w Hr) in Hup.
    inversion Hup; subst file_id a1 w1; clear Hup.
    cbn [length] in Hnd. rewrite (next_ids_S w (FilesCreate path)) in Hnd.
    cbn [length]. rewrite (next_ids_S w (FilesCreate path)).
    assert (Hkeys : dict_keys (dict_set (file_mapping a) (ids w (issued w))
                                 {| filename := basename path; Agent.path := path |})
                    = dict_keys (file_mapping a) ++ [ids w (issued w)]).
    { rewrite dict_keys_set. unfold dict_has.
      destruct (dict_get (file_mapping a) (ids w (issued w))) eqn:Hget; [|reflexivity].
      exfalso. apply NoDup_app in Hnd as (_ & Hdisj & _).
      apply (Hdisj (ids w (issued w))); [|left].
      clear - Hget. unfold dict_keys.
      induction (file_mapping a) as [|[k v] d IHd]; [discriminate|].
      cbn [dict_get] in Hget. cbn [map fst].
      destruct (String.eqb k (ids w (issued w))) eqn:Hk.
      - apply String.eqb_eq in Hk. subst k. left.
      - right. exact (IHd Hget). }
    rewrite (IH _ _ _ _ _ _ Hrun); cbn [with_file_mapping file_mapping];
      rewrite Hkeys, <- app_assoc; [reflexivity | exact Hnd].
Qed.

(** X22: every file that [initialize] uploads is deleted by [cleanup]: for an
    agent with an empty file mapping whose files can all be opened, when the
    service gives distinct identifiers to the uploads, [initialize] followed
    by [cleanup] attempts exactly the deletions of these identifiers, in the
    order of the uploads. *)
Theorem cleanup_deletes_what_initialize_uploaded
    (v : version) (a : CodeInterpreterAgent) (w : World) :
  file_mapping a = [] ->
  Forall (readable w) (files a) ->
  NoDup (next_ids w (length (files a))) ->
  exists a1 w1 a2 w2,
    initialize v (a, w) = (Return tt, (a1, w1))
    /\ cleanup (a1, w1) = (Return tt, (a2, w2))
    /\ adds_calls w1 w2 (map FilesDelete (next_ids w (length (files a))))
    /\ file_mapping a2 = [].
Proof.
  intros Hempty Hall Hnd.
  destruct (upload_all_readable (files a) [] a w Hall)
    as (fm & w0 & Hrun & _).
  pose proof (upload_all_keys _ _ _ _ _ _ _ Hrun) as Hkeys.
  rewrite Hempty in Hkeys. cbn [dict_keys map app with_file_mapping file_mapping]
    in Hkeys. specialize (Hkeys Hnd).
  assert (Hinit : exists a1 w1, initialize v (a, w) = (Return tt, (a1, w1))
                                /\ file_mapping a1 = fm).
  { unfold initialize. unfold bind at 1, self. cbn [fst].
    unfold bind at 1. rewrite Hrun.
    unfold bind at 1, self. cbn [fst].
    destruct v; eexists _, _; (split; [reflexivity|]); reflexivity. }
  destruct Hinit as (a1 & w1 & Hinit & Hfm).
  destruct (delete_all_attempts_each (dict_keys (file_mapping a1)) w1)
    as (w2 & Hdel & Hcalls).
  exists a1, w1, (with_file_mapping a1 []), w2.
  split; [exact Hinit|]. split.
  - unfold cleanup, bind, self, on_world, set_file_mapping, modify. cbn [fst snd].
    rewrite Hdel. reflexivity.
  - split; [|reflexivity]. rewrite Hfm in Hcalls. unfold dict_keys in Hkeys.
    unfold dict_keys in Hcalls. rewrite Hkeys in Hcalls. exact Hcalls.
Qed.

End UploadsAndDeletions.

Section CapabilitiesPrompt.
Import Py Planner PlannerPrompt.
Context {DataType AnalysisType : Type}.
Context `{PyEnum DataType} `{PyEnum AnalysisType}.

(** X10: the description of the capabilities that goes into the prompt names
    every registered actor and, for each, every data type and every analysis
    it supports; with no actor registered it is empty. *)
Theorem capabilities_prompt_names_every_actor
    (p : QueryPlanner DataType AnalysisType) :
  (actor_capabilities p = [] -> _format_capabilities_for_prompt p = EmptyString)
  /\ forall name caps,
       In (name, caps) (actor_capabilities p) ->
       contains ("Actor: " +:+ name) (_format_capabilities_for_prompt p) = true
       /\ (forall dt, In dt (supported_data_types caps) ->
             contains ("- " +:+ member_name dt)
               (_format_capabilities_for_prompt p) = true)
       /\ (forall an, In an (supported_analyses caps) ->
             contains ("- " +:+ member_name an)
               (_format_capabilities_for_prompt p) = true).
Proof.
  split.
  - intros Hnil. unfold _format_capabilities_for_prompt. rewrite Hnil. reflexivity.
  - intros name caps Hin.
    assert (Hline : forall line, In line (capability_lines name caps) ->
              contains line (_format_capabilities_for_prompt p) = true).
    { intros line Hline. apply contains_join. apply in_concat.
      exists (capability_lines name caps). split; [|exact Hline].
      apply in_map_iff. exists (name, caps). split; [reflexivity | exact Hin]. }
    split; [apply Hline; left; reflexivity|]. split.
    + intros dt Hdt. apply Hline. unfold capability_lines.
      apply in_or_app. right. apply in_or_app. left.
      apply in_map_iff. eauto.
    + intros an Han. apply Hline. unfold capability_lines.
      apply in_or_app. right. apply in_or_app. right.
      apply in_or_app. right. apply in_or_app. left.
      apply in_map_iff. eauto.
Qed.

End CapabilitiesPrompt.

Section Protocol.
Import Py Backend Agent.

Lemma consumes_none (t r : string) (w : World) (o : outcome unit) :
  o <> Return tt -> consumes t r w o w [].
Proof.
  intros Ho. split; [reflexivity|]. split; [reflexivity|].
  split; [apply adds_calls_refl|]. split.
  - intros i p Hi. rewrite lookup_nil in Hi. discriminate.
  - split; [intros H; destruct (Ho H) | discriminate].
Qed.

Lemma consumes_one (t r : string) (p : Poll) (rest : list Poll) (w : World)
    (o : outcome unit) :
  polls w = p :: rest ->
  (o = Return tt <-> completes p = true) ->
  consumes t r w o (after_retrieve t r w) [p].
Proof.
  intros Hpolls Ho. split; [cbn; rewrite Hpolls; reflexivity|].
  split; [reflexivity|]. split; [apply after_retrieve_calls|]. split.
  - intros [|[|i]] q Hi _; [reflexivity | discriminate | discriminate].
  - exact Ho.
Qed.

Lemma consumes_next (t r : string) (p : Poll) (rest : list Poll) (w : World)
    (o : outcome unit) (w' : World) (consumed : list Poll) :
  polls w = p :: rest ->
  completes p = false ->
  consumes t r (after_retrieve t r w) o w' consumed ->
  consumes t r w o w' (p :: consumed).
Proof.
  intros Hpolls Hp (Hc & Hi & Hcalls & Hlast & Ho).
  cbn [after_retrieve polls inboxes] in Hc, Hi. rewrite Hpolls in Hc.
  cbn [tail] in Hc.
  split; [rewrite Hpolls, Hc; reflexivity|]. split; [exact Hi|].
  split; [exact (adds_calls_cons _ _ _ _ _ (after_retrieve_calls t r w) Hcalls)|].
  split.
  - intros [|i] q Hq Hcompletes.
    + cbn in Hq. inversion Hq; subst. congruence.
    + cbn [length]. f_equal. exact (Hlast i q Hq Hcompletes).
  - rewrite Ho. unfold completed_last. destruct consumed as [|q consumed].
    + cbn. rewrite Hp. reflexivity.
    + rewrite last_cons_cons. reflexivity.
Qed.

Lemma poll_v2_consumes (t r : string) (fuel : nat) :
  forall (w : World) (o : outcome unit) (w' : World),
    poll_v2 fuel t r w = (o, w') ->
    exists consumed, consumes t r w o w' consumed.
Proof.
  induction fuel as [|fuel IH]; intros w o w' Hrun; cbn [poll_v2] in Hrun.
  - inversion Hrun; subst. exists []. apply consumes_none. discriminate.
  - unfold bind at 1 in Hrun. destruct (polls w) as [|p rest] eqn:Hpolls.
    + unfold runs_retrieve in Hrun. rewrite Hpolls in Hrun.
      inversion Hrun; subst. exists []. apply consumes_none. discriminate.
    + rewrite (runs_retrieve_step _ _ _ _ _ Hpolls) in Hrun.
      destruct p as [s|e].
      * destruct (String.eqb s "completed") eqn:Hs.
        { inversion Hrun; subst. exists [Status s].
          apply (consumes_one _ _ _ _ _ _ Hpolls). cbn [completes].
          rewrite Hs. tauto. }
        destruct (existsb (String.eqb s) failure_statuses).
        { inversion Hrun; subst. exists [Status s].
          apply (consumes_one _ _ _ _ _ _ Hpolls). cbn [completes].
          rewrite Hs. split; discriminate. }
        destruct (IH _ _ _ Hrun) as [consumed Hc]. exists (Status s :: consumed).
        apply (consumes_next _ _ _ _ _ _ _ _ Hpolls); [|exact Hc].
        cbn [completes]. exact Hs.
      * inversion Hrun; subst. exists [Failure e].
        apply (consumes_one _ _ _ _ _ _ Hpolls). cbn [completes].
        split; discriminate.
Qed.

Lemma poll_v1_consumes (t r : string) (max_retries : Z) (fuel : nat) :
  forall (retries : Z) (w : World) (o : outcome unit) (w' : World),
    poll_v1 fuel t r max_retries retries w = (o, w') ->
    exists consumed, consumes t r w o w' consumed.
Proof.
  induction fuel as [|fuel IH]; intros retries w o w' Hrun; cbn [poll_v1] in Hrun.
  - inversion Hrun; subst. exists []. apply consumes_none. discriminate.
  - destruct (polls w) as [|p rest] eqn:Hpolls.
    + unfold try_body_v1, bind, runs_retrieve in Hrun. rewrite Hpolls in Hrun.
      inversion Hrun; subst. exists []. apply consumes_none. discriminate.
    + rewrite (try_body_v1_step _ _ _ _ _ _ _ Hpolls) in Hrun.
      assert (Hnext : forall retries', completes p = false ->
                poll_v1 fuel t r max_retries retries' (after_retrieve t r w) = (o, w') ->
                exists consumed, consumes t r w o w' consumed).
      { intros retries' Hp Hnext. destruct (IH _ _ _ _ Hnext) as [consumed Hc].
        exists (p :: consumed). exact (consumes_next _ _ _ _ _ _ _ _ Hpolls Hp Hc). }
      assert (Hraise : forall e, completes p = false ->
                (if (retries + 1 =? max_retries)%Z
                 then (Raise (Exception ("Max retries reached: " +:+ str_of_exn e)),
                       after_retrieve t r w)
                 else poll_v1 fuel t r max_retries (retries + 1)
                        (after_retrieve t r w)) = (o, w') ->
                exists consumed, consumes t r w o w' consumed).
      { intros e Hp He. destruct (retries + 1 =? max_retries)%Z.
        - inversion He; subst. exists [p].
          apply (consumes_one _ _ _ _ _ _ Hpolls). rewrite Hp.
          split; discriminate.
        - exact (Hnext _ Hp He). }
      destruct p as [s|e]; [|exact (Hraise _ eq_refl Hrun)].
      destruct (String.eqb s "completed") eqn:Hs.
      { inversion Hrun; subst. exists [Status s].
        apply (consumes_one _ _ _ _ _ _ Hpolls). cbn [completes].
        rewrite Hs. tauto. }
      destruct (existsb (String.eqb s) failure_statuses);
        [exact (Hraise _ Hs Hrun)|].
      destruct (retries >=? max_retries)%Z; [exact (Hraise _ Hs Hrun)|].
      exact (Hnext _ Hs Hrun).
Qed.

Lemma wait_consumes (v : version) (t r : string) (max_retries : Z)
    (w : World) (o : outcome unit) (w' : World) :
  wait v t r max_retries w = (o, w') ->
  exists consumed, consumes t r w o w' consumed.
Proof.
  destruct v; cbn [wait]; intros Hwait.
  - exact (poll_v1_consumes _ _ _ _ _ _ _ _ Hwait).
  - exact (poll_v2_consumes _ _ _ _ _ _ Hwait).
Qed.

Lemma start_run_calls (a : CodeInterpreterAgent) (query : string)
    (thread_id : option string) (w : World) :
  let '(t, r, w0) := start_run a query thread_id w in
  adds_calls w w0
    ((if truthy thread_id then [] else [ThreadsCreate])
     ++ [MessagesCreate t query; RunsCreate t (assistant_id a)])
  /\ t = (if truthy thread_id then default EmptyString thread_id
          else ids w (issued w))
  /\ r = ids w (issued w + (if truthy thread_id then 0 else 1)).
Proof.
  unfold start_run, adds_calls. destruct (truthy thread_id); cbn.
  - rewrite <- app_assoc, Nat.add_0_r. repeat split; reflexivity.
  - rewrite <- !app_assoc, Nat.add_1_r. repeat split; reflexivity.
Qed.

(** The calls of a run of an agent whose assistant exists. *)
Lemma run_chain_protocol
    (v : version) (max_retries : Z) (query : string) (thread_id : option string)
    (a : CodeInterpreterAgent) (w : World) :
  truthy (assistant_id a) = true ->
  inboxes w <> [] ->
  exists (t r : string) (consumed : list Poll)
         (o : outcome AnalysisResult) (w' : World),
    run_chain v max_retries query thread_id (a, w) = (o, (a, w'))
    /\ t = (if truthy thread_id then default EmptyString thread_id
            else ids w (issued w))
    /\ r = ids w (issued w + (if truthy thread_id then 0 else 1))
    /\ polls w = consumed ++ polls w'
    /\ (forall i p, consumed !! i = Some p -> completes p = true ->
          S i = length consumed)
    /\ adds_calls w w'
         ((if truthy thread_id then [] else [ThreadsCreate])
          ++ [MessagesCreate t query; RunsCreate t (assistant_id a)]
          ++ repeat (RunsRetrieve t r) (length consumed)
          ++ (if completed_last consumed then [MessagesList t] else []))
    /\ ((exists res, o = Return res) <-> completed_last consumed = true).
Proof.
  intros Hinit Hinbox.
  rewrite (run_chain_started _ _ _ _ _ _ Hinit).
  pose proof (start_run_script a query thread_id w) as Hscript.
  pose proof (start_run_calls a query thread_id w) as Hstart.
  destruct (start_run a query thread_id w) as [[t r] w0].
  destruct Hscript as (Hpolls0 & Hinbox0 & _). destruct Hstart as (Hstart & Ht & Hr).
  unfold finish_run.
  destruct (wait v t r max_retries w0) as [ow w1] eqn:Hwait.
  destruct (wait_consumes v t r max_retries w0 ow w1 Hwait)
    as (consumed & Hc & Hi & Hcalls & Hlast & Ho).
  assert (Hupto : adds_calls w w1
            ((if truthy thread_id then [] else [ThreadsCreate])
             ++ [MessagesCreate t query; RunsCreate t (assistant_id a)]
             ++ repeat (RunsRetrieve t r) (length consumed))).
  { rewrite app_assoc. exact (adds_calls_trans _ _ _ _ _ Hstart Hcalls). }
  destruct (completed_last consumed) eqn:Hcompleted.
  - assert (ow = Return tt) as -> by (apply Ho; reflexivity).
    unfold messages_list.
    destruct (inboxes w1) as [|data rest] eqn:Hdata.
    { exfalso. apply Hinbox. rewrite <- Hinbox0. symmetry. exact Hi. }
    eexists t, r, consumed, _, _. rewrite Hcompleted.
    split; [reflexivity|]. split; [exact Ht|]. split; [exact Hr|].
    split; [cbn [polls]; rewrite <- Hpolls0; exact Hc|]. split; [exact Hlast|].
    split.
    + unfold adds_calls in *. cbn [trace record]. rewrite Hupto, <- !app_assoc.
      reflexivity.
    + split; [reflexivity | eauto].
  - assert (Hnot : ow <> Return tt).
    { intros Heq. apply Ho in Heq. discriminate. }
    destruct ow as [[]|e|]; [destruct (Hnot eq_refl)| |].
    + exists t, r, consumed, (Raise e), w1. rewrite Hcompleted.
      split; [reflexivity|]. split; [exact Ht|]. split; [exact Hr|].
      split; [rewrite <- Hpolls0; exact Hc|]. split; [exact Hlast|].
      split; [rewrite app_nil_r; exact Hupto|].
      split; [intros [res Hres]; discriminate | discriminate].
    + exists t, r, consumed, Pending, w1. rewrite Hcompleted.
      split; [reflexivity|]. split; [exact Ht|]. split; [exact Hr|].
      split; [rewrite <- Hpolls0; exact Hc|]. split; [exact Hlast|].
      split; [rewrite app_nil_r; exact Hupto|].
      split; [intros [res Hres]; discriminate | discriminate].
Qed.

(** X30: the calls of a run, for an agent whose assistant exists, in both
    versions, on the path on which the service answers the creation of the
    thread, of the message and of the run (the service of the model always
    does) and has messages to list. A thread is created when none was given,
    and the run is on the given thread otherwise; the query is posted on the
    thread and one run is started on it; this run is retrieved once for
    every answer that the wait takes from the service, and the wait takes no
    answer after one that reports [completed]; the messages of the thread
    are listed, once, exactly when the last answer taken reports
    [completed]. No other call is made, and a result is returned exactly
    when the messages were listed. *)
Theorem run_follows_the_protocol
    (query : string) (additional_files : option (list string))
    (thread_id : option string) (max_retries retry_delay : Z)
    (a : CodeInterpreterAgent) (w : World) :
  truthy (assistant_id a) = true ->
  inboxes w <> [] ->
  let protocol (run : M St AnalysisResult) :=
    exists (t r : string) (consumed : list Poll)
           (o : outcome AnalysisResult) (w' : World),
      run (a, w) = (o, (a, w'))
      /\ t = (if truthy thread_id then default EmptyString thread_id
              else ids w (issued w))
      /\ r = ids w (issued w + (if truthy thread_id then 0 else 1))
      /\ polls w = consumed ++ polls w'
      /\ (forall i p, consumed !! i = Some p -> completes p = true ->
            S i = length consumed)
      /\ adds_calls w w'
           ((if truthy thread_id then [] else [ThreadsCreate])
            ++ [MessagesCreate t query; RunsCreate t (assistant_id a)]
            ++ repeat (RunsRetrieve t r) (length consumed)
            ++ (if completed_last consumed then [MessagesList t] else []))
      /\ ((exists res, o = Return res) <-> completed_last consumed = true) in
  protocol (run_analysis_v1 query additional_files thread_id max_retries retry_delay)
  /\ protocol (run_analysis_v2 query thread_id).
Proof.
  intros Hinit Hinbox protocol. split.
  - unfold protocol. rewrite run_analysis_v1_chain.
    exact (run_chain_protocol V1 max_retries query thread_id a w Hinit Hinbox).
  - unfold protocol. rewrite run_analysis_v2_chain.
    exact (run_chain_protocol V2 0 query thread_id a w Hinit Hinbox).
Qed.

End Protocol.

Section MoreExamples.
Import Py Backend Agent DemoAgent DemoGraph.

Lemma node_keeps_the_shared_thread_witness :
  Router.shared_thread state <> EmptyString
  /\ exists r s',
       Graph.node_func V2 "customer_specialist" state
         (initialized, world [Status "completed"] [inbox "42 customers"] [])
       = (r, s')
       /\ world_calls (on_thread "thread-7")
            (initialized, world [Status "completed"] [inbox "42 customers"] []) s'
       /\ match r with
          | Return u =>
              Graph.new_shared_thread u = "thread-7"
              /\ exists c, Graph.new_messages u
                           = [ {| Router.content := c;
                                  Router.name := Some "customer_specialist" |} ]
          | _ => True
          end.
Proof.
  split; [discriminate|]. eexists _, _. split; [vm_compute; reflexivity|].
  exact (node_keeps_the_shared_thread V2 "customer_specialist" state
           (initialized, world [Status "completed"] [inbox "42 customers"] [])
           _ _ ltac:(discriminate) ltac:(vm_compute; reflexivity)).
Defined.

Lemma v2_run_is_decided_by_the_first_decisive_answer_witness :
  truthy (assistant_id initialized) = true
  /\ exists (t r : string) (w' : World),
       run_analysis_v2 "query" None
         (initialized,
          world [Status "queued"; Status "expired"; Status "completed"]
            [inbox "42 customers"] [])
       = (Raise (Exception "Run failed with status: expired"), (initialized, w'))
       /\ polls w' = [Status "completed"]
       /\ (truthy (@None string) = true -> Some t = None).
Proof.
  split; [reflexivity|].
  exact (v2_run_is_decided_by_the_first_decisive_answer "query" None initialized
           (world [Status "queued"; Status "expired"; Status "completed"]
              [inbox "42 customers"] [])
           [Status "queued"] (Status "expired") [Status "completed"]
           (Raise (Exception "Run failed with status: expired"))
           (inbox "42 customers") []
           eq_refl eq_refl
           ltac:(repeat constructor)
           eq_refl eq_refl).
Defined.

Lemma v1_run_is_given_up_at_max_retries_witness :
  truthy (assistant_id initialized) = true
  /\ exists w',
       run_analysis_v1 "query" None None 2 5
         (initialized,
          world [Status "in_progress"; Failure (Exception "timeout");
                 Status "failed"; Status "completed"]
            [inbox "42 customers"] [])
       = (Raise (Exception "Max retries reached: Run failed with status: failed"),
          (initialized, w'))
       /\ polls w' = [Status "completed"]
       /\ inboxes w' = [inbox "42 customers"].
Proof.
  split; [reflexivity|].
  exact (v1_run_is_given_up_at_max_retries "query" None None 2 5 initialized
           (world [Status "in_progress"; Failure (Exception "timeout");
                   Status "failed"; Status "completed"]
              [inbox "42 customers"] [])
           [Status "in_progress"; Failure (Exception "timeout")]
           (Status "failed") [Status "completed"]
           (Exception "Run failed with status: failed")
           eq_refl eq_refl eq_refl eq_refl eq_refl).
Defined.

Lemma v1_run_returns_when_completed_in_time_witness :
  truthy (assistant_id initialized) = true
  /\ exists (t r : string) (w' : World),
       run_analysis_v1 "query" None None 3 5
         (initialized,
          world [Status "failed"; Status "in_progress"; Status "completed"]
            [inbox "42 customers"] [])
       = (Return (extract_v1 (inbox "42 customers") t r), (initialized, w'))
       /\ polls w' = []
       /\ inboxes w' = []
       /\ (truthy (@None string) = true -> Some t = None).
Proof.
  split; [reflexivity|].
  exact (v1_run_returns_when_completed_in_time "query" None None 3 5 initialized
           (world [Status "failed"; Status "in_progress"; Status "completed"]
              [inbox "42 customers"] [])
           [Status "failed"; Status "in_progress"] []
           (inbox "42 customers") []
           eq_refl eq_refl eq_refl eq_refl eq_refl).
Defined.

Lemma v1_run_without_retries_never_gives_up_witness :
  truthy (assistant_id initialized) = true
  /\ (0 <= 0)%Z
  /\ (forall e,
        fst (run_analysis_v1 "query" None None 0 5
               (initialized,
                world [Status "failed"; Failure (Exception "timeout")]
                  [inbox "42 customers"] []))
        <> Raise e)
  /\ fst (run_analysis_v1 "query" None None 0 5
            (initialized,
             world [Status "failed"; Failure (Exception "timeout")]
               [inbox "42 customers"] []))
     = Pending.
Proof.
  split; [reflexivity|]. split; [lia|].
  destruct (v1_run_without_retries_never_gives_up "query" None None 0 5 initialized
              (world [Status "failed"; Failure (Exception "timeout")]
                 [inbox "42 customers"] [])
              eq_refl ltac:(lia)) as [Hnever Hpending].
  split; [exact Hnever | exact (Hpending eq_refl)].
Defined.

Lemma reply_carries_the_requested_thread_witness :
  "thread-7" <> EmptyString
  /\ match fst (run_analysis_v1 "query" None (Some "thread-7") 3 5
                  (initialized,
                   world [Status "completed"] [inbox "42 customers"] [])) with
     | Return (Reply _ t' _) => t' = "thread-7"
     | _ => True
     end.
Proof.
  split; [discriminate|].
  exact (proj1 (reply_carries_the_requested_thread "thread-7" "query" None 3 5
                  (initialized,
                   world [Status "completed"] [inbox "42 customers"] [])
                  ltac:(discriminate))).
Defined.

Lemma initialize_uploads_then_creates_witness :
  Forall (readable (world [] [] []))
    (files (DemoOrchestrator.agent_for DemoOrchestrator.customer_metadata))
  /\ exists a' w',
       initialize V1 (DemoOrchestrator.agent_for DemoOrchestrator.customer_metadata,
                      world [] [] [])
       = (Return tt, (a', w'))
       /\ assistant_id a' = Some "id-1"
       /\ is_Some (dict_get (file_mapping a') "id-0").
Proof.
  assert (Hall : Forall (readable (world [] [] []))
                   (files (DemoOrchestrator.agent_for
                             DemoOrchestrator.customer_metadata))).
  { constructor; [reflexivity | constructor]. }
  split; [exact Hall|].
  destruct (initialize_uploads_then_creates V1
              (DemoOrchestrator.agent_for DemoOrchestrator.customer_metadata)
              (world [] [] []) Hall)
    as (a' & w' & Hrun & _ & Hid & _ & Hnew).
  exists a', w'. split; [exact Hrun|]. split; [exact Hid|].
  apply Forall_cons in Hnew as [Hnew _]. exact Hnew.
Defined.

Lemma initialize_stops_at_unreadable_file_witness :
  files agent_with_a_missing_file = ["data/customers-10000.csv"] ++ "missing.csv" :: []
  /\ ~ readable world_without_a_file "missing.csv"
  /\ exists e a' w',
       initialize V2 (agent_with_a_missing_file, world_without_a_file)
       = (Raise e, (a', w'))
       /\ adds_calls world_without_a_file w'
            [FilesCreate "data/customers-10000.csv"]
       /\ assistant_id a' = None
       /\ is_Some (dict_get (file_mapping a') "id-0").
Proof.
  assert (Hbad : ~ readable world_without_a_file "missing.csv") by discriminate.
  split; [reflexivity|]. split; [exact Hbad|].
  destruct (initialize_stops_at_unreadable_file V2 agent_with_a_missing_file
              world_without_a_file ["data/customers-10000.csv"] "missing.csv" []
              eq_refl ltac:(repeat constructor) Hbad)
    as (e & a' & w' & Hrun & Hcalls & Hid & _ & Hnew).
  exists e, a', w'. split; [exact Hrun|]. split; [exact Hcalls|].
  split; [exact Hid|]. apply Forall_cons in Hnew as [Hnew _]. exact Hnew.
Defined.

Lemma run_after_cleanup_uploads_nothing_witness :
  truthy (assistant_id initialized) = true
  /\ exists a1 w1 r w2,
       cleanup (initialized, world [Status "completed"] [inbox "42 customers"] [])
       = (Return tt, (a1, w1))
       /\ run_analysis V2 "query" None (a1, w1) = (r, (a1, w2))
       /\ file_mapping a1 = []
       /\ assistant_id a1 = assistant_id initialized
       /\ calls_pass not_initializing w1 w2.
Proof.
  split; [reflexivity|].
  exact (run_after_cleanup_uploads_nothing V2 initialized
           (world [Status "completed"] [inbox "42 customers"] [])
           "query" None eq_refl).
Defined.

Lemma cleanup_deletes_what_initialize_uploaded_witness :
  NoDup (next_ids (world [] [] []) 1)
  /\ exists a1 w1 a2 w2,
       initialize V2 (DemoOrchestrator.agent_for DemoOrchestrator.customer_metadata,
                      world [] [] [])
       = (Return tt, (a1, w1))
       /\ cleanup (a1, w1) = (Return tt, (a2, w2))
       /\ adds_calls w1 w2 [FilesDelete "id-0"]
       /\ file_mapping a2 = [].
Proof.
  assert (Hnd : NoDup (next_ids (world [] [] []) 1)) by apply NoDup_singleton.
  split; [exact Hnd|].
  exact (cleanup_deletes_what_initialize_uploaded V2
           (DemoOrchestrator.agent_for DemoOrchestrator.customer_metadata)
           (world [] [] []) eq_refl
           ltac:(repeat constructor) Hnd).
Defined.

End MoreExamples.

Section MorePlannerExamples.
Import Py Planner Demo DemoGraph.

Lemma prose_around_fenced_block_is_dropped_witness :
  contains fence (("Here is the classification:" +:+ nl) +:+ "``") = false
  /\ fence_free payload
  /\ _clean_json_response
       (("Here is the classification:" +:+ nl) +:+ "```json" +:+ payload +:+ "```"
        +:+ (nl +:+ "I hope this helps."))
     = strip payload.
Proof.
  split; [reflexivity|]. split; [reflexivity|].
  exact (proj1 (prose_around_fenced_block_is_dropped
                  ("Here is the classification:" +:+ nl) payload
                  (nl +:+ "I hope this helps.") eq_refl eq_refl)).
Defined.

Lemma unclosed_fence_is_kept_witness :
  contains fence ("" +:+ "``") = false
  /\ contains fence ("json" +:+ payload) = false
  /\ _clean_json_response ("" +:+ "```" +:+ ("json" +:+ payload))
     = strip ("" +:+ "```" +:+ ("json" +:+ payload)).
Proof.
  split; [reflexivity|]. split; [reflexivity|].
  exact (unclosed_fence_is_kept "" ("json" +:+ payload) eq_refl eq_refl).
Defined.

Lemma plan_lists_each_actor_once_witness :
  exists plan,
    create_execution_plan json_loads planner "top 3 countries" 0 payload = inr plan
    /\ length (steps plan) = 3
    /\ NoDup (required_actors plan).
Proof.
  eexists. split; [vm_compute; reflexivity|].
  destruct (@plan_lists_each_actor_once _ _ DataType_enum AnalysisType_enum
              json_loads planner "top 3 countries" 0 payload _
              ltac:(vm_compute; reflexivity))
    as (ds & ans & _ & _ & Hnd & _).
  split; [reflexivity | exact Hnd].
Defined.

Lemma late_registration_keeps_assignments_witness :
  dict_get (actor_capabilities planner) "auditor" = None
  /\ _find_best_actor_for_data (register_actor planner "auditor" auditor) ORGANIZATION
     = inr "organization"
  /\ _create_execution_steps (register_actor planner "auditor" auditor)
       [CUSTOMER] [GEOGRAPHIC]
     = _create_execution_steps planner [CUSTOMER] [GEOGRAPHIC].
Proof.
  split; [reflexivity|].
  destruct (late_registration_keeps_assignments planner "auditor" auditor eq_refl)
    as (Hdata & _ & Hsteps).
  split; [exact (Hdata ORGANIZATION "organization" eq_refl)|].
  exact (Hsteps [CUSTOMER] [GEOGRAPHIC] _ ltac:(vm_compute; reflexivity)).
Defined.

Lemma analysis_steps_require_each_data_type_once_witness :
  exists steps s,
    _create_execution_steps planner [CUSTOMER; CUSTOMER] [GEOGRAPHIC] = inr steps
    /\ steps !! (length [CUSTOMER; CUSTOMER] + 0) = Some s
    /\ required_data s = [CUSTOMER]
    /\ NoDup (required_data s).
Proof.
  eexists _, _. split; [vm_compute; reflexivity|]. split; [reflexivity|].
  split; [reflexivity|].
  exact (proj1 (analysis_steps_require_each_data_type_once planner
                  [CUSTOMER; CUSTOMER] [GEOGRAPHIC] _ eq_refl 0 _ eq_refl)).
Defined.

End MorePlannerExamples.

Section MoreOrchestratorExamples.
Import Py Backend Orchestrator DemoOrchestrator DemoGraph.

Lemma plan_names_registered_actors_witness :
  exists plan o',
    _plan_execution Agent.V1 "query" orchestrator = (Return plan, o')
    /\ map fst plan = ["customer_specialist"; "customer_specialist"]
    /\ actors o' = actors orchestrator
    /\ Forall (fun step => is_Some (dict_get (actors o') (fst step))) plan.
Proof.
  eexists _, _. split; [vm_compute; reflexivity|]. split; [reflexivity|].
  destruct (plan_names_registered_actors Agent.V1 "query" orchestrator _ _
              ltac:(vm_compute; reflexivity)) as (Ha & _ & Hall).
  split; [exact Ha | exact Hall].
Defined.

Lemma missing_answer_aborts_after_recording_witness :
  exists o1,
    _execute_actor Agent.V1 "customer_specialist" "count the customers"
      silent_orchestrator
    = (Return Agent.NoReply, o1)
    /\ execute_plan Agent.V1 [("customer_specialist", "count the customers")] []
         silent_orchestrator
       = (Raise (KeyError "content"), o1)
    /\ results_of (context o1) "customer_specialist" = [Agent.NoReply].
Proof.
  eexists. split; [vm_compute; reflexivity|].
  destruct (missing_answer_aborts_after_recording Agent.V1 "customer_specialist"
              "count the customers" [] [] silent_orchestrator _
              ltac:(vm_compute; reflexivity)) as (Hrun & Hres & _).
  split; [exact Hrun | exact Hres].
Defined.

Lemma actor_results_never_hold_an_empty_list_witness :
  exists o,
    rtc (operation Agent.V1)
      (new_orchestrator Agent.V1 false
         (DemoAgent.world [Status "completed"; Status "completed"]
            [DemoAgent.inbox "first answer"; DemoAgent.inbox "second answer"]
            [plan_text])) o
    /\ map fst (actor_results (context o)) = ["customer_specialist"]
    /\ results_inhabited (context o).
Proof.
  eexists. split; [|split]; cycle 2.
  - refine (proj1 (actor_results_never_hold_an_empty_list Agent.V1 false
                     (DemoAgent.world [Status "completed"; Status "completed"]
                        [DemoAgent.inbox "first answer";
                         DemoAgent.inbox "second answer"]
                        [plan_text]) _ _)).
    eapply rtc_l; [eapply (operation_object Agent.V1 (agent_for customer_metadata));
                   reflexivity|].
    eapply rtc_l; [eapply (operation_object Agent.V1 (agent_for organization_metadata));
                   reflexivity|].
    eapply rtc_l; [eapply (operation_register Agent.V1 "customer_specialist" 0
                             customer_metadata); reflexivity|].
    eapply rtc_l; [eapply (operation_register Agent.V1 "organization_specialist" 1
                             organization_metadata); reflexivity|].
    eapply rtc_l; [eapply (operation_query Agent.V1 "query" true);
                   vm_compute; reflexivity|].
    apply rtc_refl.
  - eapply rtc_l; [eapply (operation_object Agent.V1 (agent_for customer_metadata));
                   reflexivity|].
    eapply rtc_l; [eapply (operation_object Agent.V1 (agent_for organization_metadata));
                   reflexivity|].
    eapply rtc_l; [eapply (operation_register Agent.V1 "customer_specialist" 0
                             customer_metadata); reflexivity|].
    eapply rtc_l; [eapply (operation_register Agent.V1 "organization_specialist" 1
                             organization_metadata); reflexivity|].
    eapply rtc_l; [eapply (operation_query Agent.V1 "query" true);
                   vm_compute; reflexivity|].
    apply rtc_refl.
  - reflexivity.
Defined.

Lemma orchestrator_cleanup_always_returns_witness :
  Forall (fun kv => is_Some (heap orchestrator !! fst (snd kv))) (actors orchestrator)
  /\ exists o',
       cleanup Agent.V1 true orchestrator = (Return tt, o')
       /\ actors o' = actors orchestrator
       /\ context o' = new_context
       /\ calls_pass deleting (world orchestrator) (world o').
Proof.
  assert (Hvalid : Forall (fun kv => is_Some (heap orchestrator !! fst (snd kv)))
                     (actors orchestrator)).
  { repeat constructor; eexists; reflexivity. }
  split; [exact Hvalid|].
  destruct (orchestrator_cleanup_always_returns Agent.V1 true orchestrator Hvalid
              ltac:(intros pl Hpl; discriminate Hpl))
    as (o' & Hrun & Ha & _ & Hc & Hw & _).
  exists o'. auto.
Defined.

Lemma prompt_quotes_the_latest_result_of_the_others_witness :
  NoDup (dict_keys (actor_results
           (context (snd (run_analysis Agent.V1 "query" true orchestrator)))))
  /\ latest_of_others (context (snd (run_analysis Agent.V1 "query" true orchestrator)))
       "organization_specialist"
     = [("customer_specialist", "second answer")]
  /\ latest_of_others (context (snd (run_analysis Agent.V1 "query" true orchestrator)))
       "customer_specialist"
     = []
  /\ contains "customer_specialist: second answer"
       (_create_actor_prompt Agent.V2
          (context (snd (run_analysis Agent.V1 "query" true orchestrator)))
          "organization_specialist" "list the industries")
     = true.
Proof.
  assert (Hnd : NoDup (dict_keys (actor_results
                  (context (snd (run_analysis Agent.V1 "query" true orchestrator)))))).
  { vm_compute. apply NoDup_singleton. }
  split; [exact Hnd|]. split; [vm_compute; reflexivity|].
  split; [vm_compute; reflexivity|].
  refine (proj2 (proj2 (prompt_quotes_the_latest_result_of_the_others _
                          "organization_specialist" "list the industries" Hnd))
            "customer_specialist" (Agent.Reply "second answer" "id-2" "id-4")
            ltac:(discriminate) ltac:(vm_compute; reflexivity)).
Defined.

Lemma v1_escapes_a_planned_task_twice_witness :
  contains ":" "1. customer_specialist" = false
  /\ parse_steps Agent.V1 (actors orchestrator)
       ["1. customer_specialist" +:+ ":" +:+ DemoThreads.windows_task]
     = [("customer_specialist",
         "read C:" +:+ DemoThreads.backslash +:+ DemoThreads.backslash +:+ "data")]
  /\ parse_steps Agent.V2 (actors orchestrator)
       ["1. customer_specialist" +:+ ":" +:+ DemoThreads.windows_task]
     = [("customer_specialist", "read C:" +:+ DemoThreads.backslash +:+ "data")]
  /\ startswith
       (_create_actor_prompt Agent.V1 new_context "customer_specialist"
          ("read C:" +:+ DemoThreads.backslash +:+ DemoThreads.backslash +:+ "data"))
       ("Task: read C:" +:+ DemoThreads.backslash +:+ DemoThreads.backslash
        +:+ DemoThreads.backslash +:+ DemoThreads.backslash +:+ "data" +:+ nl)
     = true.
Proof.
  split; [reflexivity|]. split; [vm_compute; reflexivity|].
  destruct (v1_escapes_a_planned_task_twice (actors orchestrator) new_context
              "1. customer_specialist" DemoThreads.windows_task
              "customer_specialist"
              ("read C:" +:+ DemoThreads.backslash +:+ DemoThreads.backslash +:+ "data")
              ltac:(reflexivity) ltac:(vm_compute; reflexivity))
    as (_ & H2 & _ & H1 & _).
  split; [exact H2 | exact H1].
Defined.

End MoreOrchestratorExamples.

Section ProtocolExample.
Import Py Backend Agent DemoAgent.

Lemma run_follows_the_protocol_witness :
  truthy (assistant_id initialized) = true
  /\ inboxes (world [Status "queued"; Status "completed"] [inbox "42 customers"] [])
     <> []
  /\ exists (t r : string) (consumed : list Poll)
            (o : outcome AnalysisResult) (w' : World),
       run_analysis_v2 "query" None
         (initialized,
          world [Status "queued"; Status "completed"] [inbox "42 customers"] [])
       = (o, (initialized, w'))
       /\ t = "id-0"
       /\ r = "id-1"
       /\ polls (world [Status "queued"; Status "completed"] [inbox "42 customers"] [])
          = consumed ++ polls w'
       /\ (forall i p, consumed !! i = Some p -> completes p = true ->
             S i = length consumed)
       /\ adds_calls
            (world [Status "queued"; Status "completed"] [inbox "42 customers"] [])
            w'
            ([ThreadsCreate]
             ++ [MessagesCreate t "query"; RunsCreate t (assistant_id initialized)]
             ++ repeat (RunsRetrieve t r) (length consumed)
             ++ (if completed_last consumed then [MessagesList t] else []))
       /\ ((exists res, o = Return res) <-> completed_last consumed = true).
Proof.
  split; [reflexivity|]. split; [discriminate|].
  exact (proj2 (run_follows_the_protocol "query" None None 3 5 initialized
                  (world [Status "queued"; Status "completed"]
                     [inbox "42 customers"] [])
                  eq_refl ltac:(discriminate))).
Defined.

End ProtocolExample.
